(** * Dataset-preparation scripts: a shallow embedding and its properties

    The repository is a collection of Python scripts that walk a directory
    tree of medical scans and copy, move, rename, delete, convert or tile
    the files they find, plus an orchestrator that runs the scripts one
    after the other and writes a report.

    Part I embeds the scripts.  Python values are modelled as follows.
    - [str] is [string]; the names that occur are ASCII, and [lower] folds
      the ASCII letters only.
    - a path is the list of its components ([pathlib]'s [parts]); joining
      two paths is list concatenation.
    - the file system is a tree of directories and files, [os.walk] is the
      top-down traversal of that tree.
    - calls that the scripts guard with [try]/[except] may raise: the
      outcome of such a call is decided by an oracle passed as an argument.
    - the orchestrator threads a world (clock reads, launched children,
      written text files) through [run_script] and [main].

    Part II states and proves the properties. *)

From Stdlib Require Import ZArith String Ascii List Lia Bool Arith.
From stdpp Require Import base tactics option list strings pretty gmap.

Import ListNotations.
Local Open Scope string_scope.
Local Open Scope list_scope.

(* ===================================================================== *)
(** * Part I: the embedding                                               *)
(* ===================================================================== *)

(** ** Python string operations *)

Module PyStr.

(** [sub in s] *)
Fixpoint contains (sub s : string) : bool :=
  String.prefix sub s ||
  match s with
  | EmptyString => false
  | String _ s' => contains sub s'
  end.

Definition lower_ascii (c : ascii) : ascii :=
  let n := nat_of_ascii c in
  if (65 <=? n)%nat && (n <=? 90)%nat then ascii_of_nat (n + 32) else c.

(** [s.lower()] on ASCII text *)
Fixpoint lower (s : string) : string :=
  match s with
  | EmptyString => EmptyString
  | String c s' => String (lower_ascii c) (lower s')
  end.

(** [s.endswith(suf)]: [suf] is [s], or it ends the text that follows
    the first character of [s] *)
Fixpoint endswith (suf s : string) : bool :=
  String.eqb suf s ||
  match s with
  | EmptyString => false
  | String _ s' => endswith suf s'
  end.

(** [s.startswith(pre)] *)
Definition startswith (pre s : string) : bool := String.prefix pre s.

(** [s.replace(old, new)] for a non-empty [old]: the occurrences are
    replaced from left to right without overlap.  [skip] counts the
    characters of the occurrence just replaced that are still to drop. *)
Fixpoint replace_from (old new : string) (skip : nat) (s : string) : string :=
  match s with
  | EmptyString => EmptyString
  | String c s' =>
      match skip with
      | S k => replace_from old new k s'
      | O =>
          if String.prefix old s
          then new +:+ replace_from old new (String.length old - 1) s'
          else String c (replace_from old new 0 s')
      end
  end.

Definition replace (old new s : string) : string := replace_from old new 0 s.

(** [sep.join(l)] *)
Definition join (sep : string) (l : list string) : string := String.concat sep l.

(** [s.rfind(".")]: index of the last dot, if any *)
Fixpoint rfind_dot (s : string) : option nat :=
  match s with
  | EmptyString => None
  | String c s' =>
      match rfind_dot s' with
      | Some i => Some (S i)
      | None => if Ascii.eqb c "."%char then Some 0%nat else None
      end
  end.

(** [s[:n]] and [s[n:]] *)
Definition slice_to (n : nat) (s : string) : string := String.substring 0 n s.
Definition slice_from (n : nat) (s : string) : string :=
  String.substring n (String.length s - n) s.

(** [f"{n:02d}"] for a natural number *)
Definition fmt_02d (n : nat) : string :=
  if (n <? 10)%nat then "0" +:+ pretty n else pretty n.

(** [c.isspace()] for an ASCII character *)
Definition is_space (c : ascii) : bool :=
  let n := nat_of_ascii c in
  ((9 <=? n)%nat && (n <=? 13)%nat) || ((28 <=? n)%nat && (n <=? 32)%nat).

(** [s.lstrip()], [s.rstrip()] and [s.strip()] *)
Fixpoint lstrip (s : string) : string :=
  match s with
  | EmptyString => EmptyString
  | String c s' => if is_space c then lstrip s' else s
  end.

Fixpoint rstrip (s : string) : string :=
  match s with
  | EmptyString => EmptyString
  | String c s' =>
      match rstrip s' with
      | EmptyString => if is_space c then EmptyString else String c EmptyString
      | r => String c r
      end
  end.

Definition strip (s : string) : string := rstrip (lstrip s).

End PyStr.

(** ** Paths *)

Module PyPath.

(** A path is the list of its components. *)
Definition path := list string.

(** [PurePath.suffix] of a final component: the text from the last dot,
    unless that dot is the first or the last character. *)
Definition suffix (name : string) : string :=
  match PyStr.rfind_dot name with
  | Some i =>
      if (0 <? i)%nat && (i <? String.length name - 1)%nat
      then PyStr.slice_from i name else ""
  | None => ""
  end.

(** [PurePath.stem] *)
Definition stem (name : string) : string :=
  match PyStr.rfind_dot name with
  | Some i =>
      if (0 <? i)%nat && (i <? String.length name - 1)%nat
      then PyStr.slice_to i name else name
  | None => name
  end.

(** [p.relative_to(base).parts]; [None] stands for the [ValueError]
    raised when [base] is not a prefix of [p]. *)
Fixpoint relative_to (p base : path) : option path :=
  match base, p with
  | [], _ => Some p
  | b :: base', c :: p' => if String.eqb b c then relative_to p' base' else None
  | _ :: _, [] => None
  end.

(** [os.path.splitext(name)[0]]: the extension starts at the last dot,
    unless only dots precede it. *)
Fixpoint all_dots (s : string) : bool :=
  match s with
  | EmptyString => true
  | String c s' => Ascii.eqb c "."%char && all_dots s'
  end.

Definition splitext_root (name : string) : string :=
  match PyStr.rfind_dot name with
  | Some i => if all_dots (PyStr.slice_to i name) then name else PyStr.slice_to i name
  | None => name
  end.

(** [os.path.basename] of a path written with "/" *)
Fixpoint basename (s : string) : string :=
  match s with
  | EmptyString => EmptyString
  | String c s' =>
      if PyStr.contains "/" s' then basename s'
      else if Ascii.eqb c "/"%char then s' else s
  end.

(** [os.path.join(a, b)] *)
Definition join (a b : string) : string :=
  if PyStr.startswith "/" b then b
  else if String.eqb a "" || PyStr.endswith "/" a then a +:+ b
  else a +:+ "/" +:+ b.

(** The text of a path as the scripts print it. *)
Definition show (p : path) : string := PyStr.join "/" p.

End PyPath.

(** ** The standard input of a script *)

Module Console.
Import PyStr.

(** The lines that successive calls of [input()] return when the
    standard input holds [text]: a line ends at a line feed, at a
    carriage return, or at the two in a row, and a last line need not be
    ended. *)
Fixpoint stdin_lines (text : string) : list string :=
  match text with
  | EmptyString => []
  | String c rest =>
      if Ascii.eqb c (ascii_of_nat 10) then EmptyString :: stdin_lines rest
      else if Ascii.eqb c (ascii_of_nat 13) then
        match rest with
        | String c' rest' =>
            if Ascii.eqb c' (ascii_of_nat 10) then EmptyString :: stdin_lines rest'
            else EmptyString :: stdin_lines rest
        | EmptyString => [EmptyString]
        end
      else
        match stdin_lines rest with
        | [] => [String c EmptyString]
        | l :: ls => String c l :: ls
        end
  end.

(** How the question of a script ends: with a yes, with a no, or with
    the [EOFError] that [input()] raises when no line is left, which
    nothing catches. *)
Inductive answer := Proceed | Cancelled | EndOfInput.

(** [x in l] for a list of strings *)
Definition mem (x : string) (l : list string) : bool := existsb (String.eqb x) l.

(** [while True: response = input(...).lower().strip(); ...] over the
    lines that [input()] returns. *)
Fixpoint confirm (lines : list string) : answer :=
  match lines with
  | [] => EndOfInput
  | l :: rest =>
      let response := strip (lower l) in
      if mem response ["yes"; "y"] then Proceed
      else if mem response ["no"; "n"] then Cancelled
      else confirm rest
  end.

End Console.

(** ** Images, as the imaging library presents them *)

Module Img.

(** A pixel is the raw sample word of its mode (the bits of a float for
    mode F, a grey level for L, packed bands for RGB, ...). *)
Definition pixel := Z.

Record image := Image {
  format : string;            (* "TIFF", "PNG", ... *)
  mode : string;              (* "F", "L", "P", "RGB", "RGBA", ... *)
  width : nat;
  height : nat;
  data : list (list pixel)    (* [height] rows of [width] pixels *)
}.

(** [img.size] *)
Definition size (i : image) : nat * nat := (width i, height i).

(** The decoded data has the stated shape. *)
Definition wf (i : image) : Prop :=
  length (data i) = height i ∧ Forall (λ row, length row = width i) (data i).

Definition wfb (i : image) : bool :=
  (length (data i) =? height i)%nat &&
  forallb (λ row, (length row =? width i)%nat) (data i).

(** The pixel at column [x], row [y]; outside the image the library
    pads with zero. *)
Definition get (i : image) (x y : nat) : pixel :=
  nth x (nth y (data i) []) 0%Z.

(** [img.crop((left, top, right, bottom))] *)
Definition crop (i : image) (left top right bottom : nat) : image :=
  {| format := ""; mode := mode i;
     width := right - left; height := bottom - top;
     data := map (λ dy, map (λ dx, get i (left + dx) (top + dy))
                            (seq 0 (right - left)))
                 (seq 0 (bottom - top)) |}.

End Img.

(** ** The file system *)

Module Fs.
Import PyPath.

Inductive content :=
| Text (s : string)
| Picture (i : Img.image).

#[warnings="-register-all"]
Inductive node :=
| File (c : content)
| Dir (entries : list (string * node)).

Definition is_dir_node (n : node) : bool :=
  match n with Dir _ => true | File _ => false end.

(** The first entry of a directory with a given name. *)
Fixpoint assoc (nm : string) (es : list (string * node)) : option node :=
  match es with
  | [] => None
  | (k, v) :: es' => if String.eqb nm k then Some v else assoc nm es'
  end.

Fixpoint lookup (t : node) (p : path) {struct p} : option node :=
  match p with
  | [] => Some t
  | nm :: p' =>
      match t with
      | Dir es => match assoc nm es with Some c => lookup c p' | None => None end
      | File _ => None
      end
  end.

(** [os.path.exists], [os.path.isfile], [os.path.isdir] *)
Definition exists_ (t : node) (p : path) : bool :=
  match lookup t p with Some _ => true | None => false end.
Definition is_file (t : node) (p : path) : bool :=
  match lookup t p with Some (File _) => true | _ => false end.
Definition is_dir (t : node) (p : path) : bool :=
  match lookup t p with Some (Dir _) => true | _ => false end.

Definition read (t : node) (p : path) : option content :=
  match lookup t p with Some (File c) => Some c | _ => None end.

(** Replace the entry called [nm] (or add it at the end), or drop it. *)
Fixpoint put_entry (nm : string) (c : node) (es : list (string * node))
  : list (string * node) :=
  match es with
  | [] => [(nm, c)]
  | (k, v) :: es' =>
      if String.eqb nm k then (k, c) :: es' else (k, v) :: put_entry nm c es'
  end.

Definition drop_entry (nm : string) (es : list (string * node))
  : list (string * node) :=
  List.filter (λ e, negb (String.eqb nm (fst e))) es.

Definition set_entry (nm : string) (new : option node) (es : list (string * node))
  : list (string * node) :=
  match new with
  | Some c => put_entry nm c es
  | None => drop_entry nm es
  end.

(** Put [new] at path [p] (or remove what is there when [new] is
    [None]); every proper prefix of [p] has to be a directory. *)
Fixpoint update (p : path) (new : option node) (t : node) {struct p} : option node :=
  match p, t with
  | [], _ => None
  | _ :: _, File _ => None
  | [nm], Dir es => Some (Dir (set_entry nm new es))
  | nm :: p', Dir es =>
      match assoc nm es with
      | Some c =>
          match update p' new c with
          | Some c' => Some (Dir (put_entry nm c' es))
          | None => None
          end
      | None => None
      end
  end.

(** [os.remove(p)]: [None] stands for the [OSError] raised when [p] is
    not a file. *)
Definition remove (p : path) (t : node) : option node :=
  if is_file t p then update p None t else None.

(** Writing a file (a [save], [copy2] or [open(p, "w")]): [None] stands
    for the [OSError] raised when [p] is a directory or its parent is
    missing. *)
Definition write (p : path) (c : content) (t : node) : option node :=
  if is_dir t p then None else update p (Some (File c)) t.

(** [os.makedirs(p, exist_ok=True)] and
    [Path(p).mkdir(parents=True, exist_ok=True)]: [None] stands for the
    error raised when a component of [p] is a file. *)
Fixpoint mkdir_p (p : path) (t : node) {struct p} : option node :=
  match t with
  | File _ => None
  | Dir es =>
      match p with
      | [] => Some t
      | nm :: p' =>
          match assoc nm es with
          | Some c =>
              match mkdir_p p' c with
              | Some c' => Some (Dir (put_entry nm c' es))
              | None => None
              end
          | None =>
              match mkdir_p p' (Dir []) with
              | Some c' => Some (Dir (es ++ [(nm, c')]))
              | None => None
              end
          end
      end
  end.

(** [Path.rmdir()]: [None] stands for the [OSError] raised when [p] is
    not an empty directory. *)
Definition rmdir (p : path) (t : node) : option node :=
  match lookup t p with
  | Some (Dir []) => update p None t
  | _ => None
  end.

Definition dirnames (es : list (string * node)) : list string :=
  map fst (List.filter (λ e, is_dir_node (snd e)) es).
Definition filenames (es : list (string * node)) : list string :=
  map fst (List.filter (λ e, negb (is_dir_node (snd e))) es).

(** [os.walk(root)], top-down: one triple (directory, names of its
    sub-directories, names of its other entries) per directory, a
    directory before its sub-directories. *)
Fixpoint walk_node (root : path) (t : node) : list (path * list string * list string) :=
  match t with
  | File _ => []
  | Dir es =>
      (root, dirnames es, filenames es)
      :: flat_map (λ e, walk_node (root ++ [fst e]) (snd e)) es
  end.

(** [os.walk(root, topdown=False)]: a directory after its
    sub-directories. *)
Fixpoint walk_node_up (root : path) (t : node) : list (path * list string * list string) :=
  match t with
  | File _ => []
  | Dir es =>
      flat_map (λ e, walk_node_up (root ++ [fst e]) (snd e)) es
      ++ [(root, dirnames es, filenames es)]
  end.

Definition walk_up (t : node) (root : path) : list (path * list string * list string) :=
  match lookup t root with
  | Some n => walk_node_up root n
  | None => []
  end.

Definition walk (t : node) (root : path) : list (path * list string * list string) :=
  match lookup t root with
  | Some n => walk_node root n
  | None => []
  end.

(** No directory lists a name twice. *)
Fixpoint wfb (t : node) : bool :=
  match t with
  | File _ => true
  | Dir es =>
      bool_decide (NoDup (map fst es)) && forallb (λ e, wfb (snd e)) es
  end.

Definition wf (t : node) : Prop := wfb t = true.

(** [os.rename(old, new)] as POSIX has it: a file takes the place of a
    file, a directory that of an empty directory, and anything may take
    a free name.  [None] stands for the [OSError]. *)
Definition rename (old new : path) (t : node) : option node :=
  match lookup t old with
  | None => None
  | Some n =>
      if bool_decide (old = new) then Some t
      else
        let fits :=
          match lookup t new, n with
          | None, _ => true
          | Some (File _), File _ => true
          | Some (Dir []), Dir _ => true
          | _, _ => false
          end in
        if fits then
          match update old None t with
          | Some t1 => update new (Some n) t1
          | None => None
          end
        else None
  end.

(** [shutil.rmtree(p)]: [None] stands for the error raised when [p] is
    not a directory that can go. *)
Definition rmtree (p : path) (t : node) : option node :=
  match lookup t p with
  | Some (Dir _) => update p None t
  | _ => None
  end.

End Fs.

(** ** rename_folders.py *)

Module rename_folders.
Import PyStr PyPath.

(** The body of the loop over [dirs] in [find_folders_to_rename]: the
    new name and the description of the rename chosen for [dir_name],
    both [None] when no branch applies. *)
Definition choose_name (dir_name : string) : option string * option string :=
  let low := lower dir_name in
  if contains "tumor" low || contains "tumour" low then
    if contains "_" dir_name && (contains "tumor" low || contains "tumour" low) then
      (Some "tumour", Some (dir_name +:+ " → tumour"))
    else
      let n0 := dir_name in
      let n1 := if contains "Tumor" dir_name then replace "Tumor" "Tumour" n0 else n0 in
      let n2 := if contains "tumor" dir_name then replace "tumor" "tumour" n1 else n1 in
      let n3 := if contains "TUMOR" dir_name then replace "TUMOR" "TUMOUR" n2 else n2 in
      (Some n3, Some "tumor → tumour")
  else if contains "healthy" low && negb (String.eqb low "healthy") then
    if contains "_" dir_name && contains "healthy" low then
      (Some "healthy", Some (dir_name +:+ " → healthy"))
    else
      (Some "healthy", Some "healthy → healthy")
  else (None, None).

(** [if new_name and new_name != dir_name]: the proposed rename of one
    directory, as (old path, new path, description). *)
Definition proposal (root : path) (dir_name : string)
  : list (path * path * option string) :=
  match choose_name dir_name with
  | (Some new_name, rename_type) =>
      if negb (String.eqb new_name "") && negb (String.eqb new_name dir_name)
      then [(root ++ [dir_name], root ++ [new_name], rename_type)]
      else []
  | (None, _) => []
  end.

Definition find_folders_to_rename (fs : Fs.node) (root_path : path)
  : list (path * path * option string) :=
  flat_map (λ '(root, dirs, _), flat_map (proposal root) dirs)
           (Fs.walk fs root_path).

(** What the loop of [rename_folders] prints for an item. *)
Inductive event :=
| DryRun (rename_type : option string) (old_path new_path : path)
| Skip (new_path : path)
| Renamed (rename_type : option string) (old_path new_path : path)
| NotFound (old_path : path)
| Error (error_msg : string).

Record state := State {
  fs : Fs.node;
  success_count : nat;
  error_count : nat;
  errors : list string;
  out : list event
}.

(** [os.rename(old_path, new_path)]; [rename_error] is the text of the
    exception with which the operating system refuses, if it does. *)
Definition os_rename (rename_error : path → path → option string)
    (old_path new_path : path) (t : Fs.node) : Fs.node + string :=
  match rename_error old_path new_path with
  | Some e => inr e
  | None =>
      match Fs.rename old_path new_path t with
      | Some t' => inl t'
      | None => inr "cannot rename"
      end
  end.

Definition error_msg_of (old_path : path) (e : string) : string :=
  "Error renaming " +:+ show old_path +:+ ": " +:+ e.

(** The body of the loop over [folders_to_rename]. *)
Definition step (rename_error : path → path → option string) (dry_run : bool)
    (item : path * path * option string) (st : state) : state :=
  let '(old_path, new_path, rename_type) := item in
  if dry_run then
    State (fs st) (success_count st) (error_count st) (errors st)
          (out st ++ [DryRun rename_type old_path new_path])
  else if Fs.exists_ (fs st) old_path then
    if Fs.exists_ (fs st) new_path then
      State (fs st) (success_count st) (error_count st) (errors st)
            (out st ++ [Skip new_path])
    else
      match os_rename rename_error old_path new_path (fs st) with
      | inl t' =>
          State t' (S (success_count st)) (error_count st) (errors st)
                (out st ++ [Renamed rename_type old_path new_path])
      | inr e =>
          State (fs st) (success_count st) (S (error_count st))
                (errors st ++ [error_msg_of old_path e])
                (out st ++ [Error (error_msg_of old_path e)])
      end
  else
    State (fs st) (success_count st) (error_count st) (errors st)
          (out st ++ [NotFound old_path]).

Definition loop (rename_error : path → path → option string) (dry_run : bool)
    (folders_to_rename : list (path * path * option string)) (st : state) : state :=
  fold_left (λ st item, step rename_error dry_run item st) folders_to_rename st.

Definition rename_folders (rename_error : path → path → option string)
    (t : Fs.node) (root_path : path) (dry_run : bool) : state :=
  let folders_to_rename := find_folders_to_rename t root_path in
  match folders_to_rename with
  | [] => State t 0 0 [] []
  | _ => loop rename_error dry_run folders_to_rename (State t 0 0 [] [])
  end.

(** What [main] has to say at its end. *)
Inductive outcome :=
| NothingFound
| RenamingCancelled
| InputEnded
| Summary (success_count error_count : nat) (errors : list string).

(** [main()]: the file system that it leaves and its last word; [lines]
    are the lines that [input()] returns. *)
Definition main (rename_error : path → path → option string) (t : Fs.node)
    (lines : list string) : Fs.node * outcome :=
  let folders_to_rename := find_folders_to_rename t ["PNG_Files"] in
  match folders_to_rename with
  | [] => (t, NothingFound)
  | _ =>
      match Console.confirm lines with
      | Console.Proceed =>
          let st := rename_folders rename_error t ["PNG_Files"] false in
          (fs st, Summary (success_count st) (error_count st) (errors st))
      | Console.Cancelled => (t, RenamingCancelled)
      | Console.EndOfInput => (t, InputEnded)
      end
  end.

End rename_folders.

(** ** consolidate_png_files.py *)

Module consolidate_png_files.
Import PyStr PyPath.

(** [x in parts] for a tuple of path components *)
Definition mem (x : string) (l : list string) : bool := existsb (String.eqb x) l.

(** What the script prints. *)
Inductive event :=
| Copied (src dst : path)
| CopyError (src : path)
| NoCategoryFile (src : path)
| NoCategoryDir (root : path).

Record state := State {
  fs : Fs.node;
  healthy_files_copied : nat;
  tumour_files_copied : nat;
  out : list event
}.

Definition source_dir : path := ["PNG_Files"].
Definition dest_dir : path := ["Processed"].
Definition healthy_dir : path := dest_dir ++ ["healthy"].
Definition tumour_dir : path := dest_dir ++ ["tumour"].

(** The loop that looks for the first component among the three labels;
    [None] is the index -1. *)
Fixpoint category_index (parts : list string) : option nat :=
  match parts with
  | [] => None
  | part :: rest =>
      if mem part ["healthy"; "tumour"; "heathy"] then Some 0%nat
      else option_map S (category_index rest)
  end.

(** [shutil.copy2(src, dst)]: a directory as destination receives the
    file under its own name; [copy_raises] decides whether the
    operating system refuses the copy.  [None] stands for the exception. *)
Definition copy2 (copy_raises : path → path → bool) (src dst : path) (t : Fs.node)
  : option Fs.node :=
  if copy_raises src dst then None
  else if bool_decide (src = dst) then None
  else
    match Fs.read t src with
    | Some c =>
        let target := if Fs.is_dir t dst then dst ++ [List.last src ""] else dst in
        Fs.write target c t
    | None => None
    end.

(** The nested function [copy_files_with_structure].  The outer [None]
    stands for an exception that nothing catches ([relative_to] or
    [mkdir]). *)
Definition copy_files_with_structure (copy_raises : path → path → bool)
    (source_path source_dir' dest_base_dir : path) (file_type : string)
    (st : state) : option state :=
  let name := List.last source_path "" in
  if Fs.is_file (fs st) source_path && String.eqb (lower (suffix name)) ".png" then
    match relative_to source_path source_dir' with
    | None => None
    | Some path_parts =>
        match category_index path_parts with
        | None =>
            Some (State (fs st) (healthy_files_copied st) (tumour_files_copied st)
                        (out st ++ [NoCategoryFile source_path]))
        | Some i =>
            let folder_structure := firstn i path_parts in
            let remaining_path := skipn (S i) path_parts in
            let dest_folder0 :=
              match folder_structure with
              | [] => dest_base_dir
              | _ => dest_base_dir ++ folder_structure
              end in
            let dest_folder :=
              match remaining_path with
              | [] => dest_folder0
              | _ => dest_folder0 ++ removelast remaining_path
              end in
            match Fs.mkdir_p dest_folder (fs st) with
            | None => None
            | Some fs1 =>
                let dest_file_path := dest_folder ++ [name] in
                match copy2 copy_raises source_path dest_file_path fs1 with
                | Some fs2 =>
                    if String.eqb file_type "healthy"
                    then Some (State fs2 (S (healthy_files_copied st)) (tumour_files_copied st)
                                     (out st ++ [Copied source_path dest_file_path]))
                    else Some (State fs2 (healthy_files_copied st) (S (tumour_files_copied st))
                                     (out st ++ [Copied source_path dest_file_path]))
                | None =>
                    Some (State fs1 (healthy_files_copied st) (tumour_files_copied st)
                                (out st ++ [CopyError source_path]))
                end
            end
        end
    end
  else Some st.

(** [for png_file in png_files: copy_files_with_structure(...)] *)
Fixpoint copy_all (copy_raises : path → path → bool) (root_path : path)
    (png_files : list string) (dest_base_dir : path) (file_type : string)
    (st : state) : option state :=
  match png_files with
  | [] => Some st
  | png_file :: rest =>
      match copy_files_with_structure copy_raises (root_path ++ [png_file])
              source_dir dest_base_dir file_type st with
      | Some st' => copy_all copy_raises root_path rest dest_base_dir file_type st'
      | None => None
      end
  end.

Definition png_files_of (files : list string) : list string :=
  List.filter (λ f, endswith ".png" (lower f)) files.

(** The body of the loop over [os.walk(source_dir)]. *)
Definition visit (copy_raises : path → path → bool)
    (entry : path * list string * list string) (st : state) : option state :=
  let '(root_path, _, files) := entry in
  if bool_decide (root_path = source_dir) then Some st
  else
    let png_files := png_files_of files in
    match png_files with
    | [] => Some st
    | _ =>
        if mem "healthy" root_path then
          copy_all copy_raises root_path png_files healthy_dir "healthy" st
        else if mem "tumour" root_path then
          copy_all copy_raises root_path png_files tumour_dir "tumour" st
        else if mem "heathy" root_path then
          copy_all copy_raises root_path png_files healthy_dir "healthy" st
        else
          Some (State (fs st) (healthy_files_copied st) (tumour_files_copied st)
                      (out st ++ [NoCategoryDir root_path]))
    end.

Fixpoint visit_all (copy_raises : path → path → bool)
    (entries : list (path * list string * list string)) (st : state) : option state :=
  match entries with
  | [] => Some st
  | e :: rest =>
      match visit copy_raises e st with
      | Some st' => visit_all copy_raises rest st'
      | None => None
      end
  end.

(** The script.  The copies land under [Processed], which the walk over
    [PNG_Files] never enters, so the directory listings the walk yields
    are those of the tree as it is once the two target directories
    exist. *)
Definition consolidate_png_files (copy_raises : path → path → bool) (t : Fs.node)
  : option state :=
  match Fs.mkdir_p healthy_dir t with
  | None => None
  | Some t1 =>
      match Fs.mkdir_p tumour_dir t1 with
      | None => None
      | Some t2 =>
          visit_all copy_raises (Fs.walk t2 source_dir) (State t2 0 0 [])
      end
  end.

End consolidate_png_files.

(** ** count_png_files.py *)

Module count_png_files.
Import PyStr PyPath.

(** The loop that picks the first component among the three labels. *)
Fixpoint category_of (path_parts : list string) : string :=
  match path_parts with
  | [] => "unknown"
  | part :: rest =>
      if consolidate_png_files.mem part ["healthy"; "tumour"; "heathy"]
      then part else category_of rest
  end.

Definition category_key (path_parts : list string) : string :=
  match path_parts with
  | folder_name :: _ => category_of path_parts +:+ "_" +:+ folder_name
  | [] => category_of path_parts
  end.

(** [counts[k] += n] on a [defaultdict(int)] *)
Definition add_count (k : string) (n : nat) (counts : gmap string nat) : gmap string nat :=
  <[k := (default 0%nat (counts !! k) + n)%nat]> counts.

(** The body of the loop over [os.walk(directory)]; [None] stands for
    the [ValueError] of [relative_to]. *)
Definition visit (directory : path) (entry : path * list string * list string)
    (acc : gmap string nat * nat) : option (gmap string nat * nat) :=
  let '(root_path, _, files) := entry in
  let '(counts, total_files) := acc in
  if bool_decide (root_path = directory) then Some acc
  else
    let png_files := consolidate_png_files.png_files_of files in
    match png_files with
    | [] => Some acc
    | _ =>
        match relative_to root_path directory with
        | None => None
        | Some path_parts =>
            Some (add_count (category_key path_parts) (length png_files) counts,
                  (total_files + length png_files)%nat)
        end
    end.

Fixpoint visit_all (directory : path) (entries : list (path * list string * list string))
    (acc : gmap string nat * nat) : option (gmap string nat * nat) :=
  match entries with
  | [] => Some acc
  | e :: rest =>
      match visit directory e acc with
      | Some acc' => visit_all directory rest acc'
      | None => None
      end
  end.

Definition count_directory_files (t : Fs.node) (directory : path)
  : option (gmap string nat) :=
  if negb (Fs.exists_ t directory) then Some ∅
  else option_map fst (visit_all directory (Fs.walk t directory) (∅, 0%nat)).

(** [sum(counts.values())] *)
Definition total (counts : gmap string nat) : nat :=
  map_fold (λ _ v acc, (v + acc)%nat) 0%nat counts.

(** What [count_png_files] prints: the two totals, their difference,
    whether they are equal, and the categories that one side lacks. *)
Record comparison := Comparison {
  original_total : nat;
  processed_total : nat;
  difference : Z;
  all_copied : bool;
  missing_in_processed : gset string;
  extra_in_processed : gset string
}.

(** [count_png_files()]; [None] stands for an exception of
    [count_directory_files]. *)
Definition count_png_files (t : Fs.node) : option comparison :=
  match count_directory_files t ["PNG_Files"] with
  | None => None
  | Some original_counts =>
      match count_directory_files t ["Processed"] with
      | None => None
      | Some processed_counts =>
          let original_total := total original_counts in
          let processed_total := total processed_counts in
          Some (Comparison original_total processed_total
                  (Z.of_nat processed_total - Z.of_nat original_total)
                  (bool_decide (original_total = processed_total))
                  (dom original_counts ∖ dom processed_counts)
                  (dom processed_counts ∖ dom original_counts))
      end
  end.

End count_png_files.

(** ** delete_post_files.py *)

Module delete_post_files.
Import PyStr PyPath.

Definition find_post_files (t : Fs.node) (root_path : path) : list path :=
  flat_map (λ '(root, _, files),
              map (λ file, root ++ [file])
                  (List.filter (λ file, contains "__post" file) files))
           (Fs.walk t root_path).

(** What the loop prints for an item. *)
Inductive event :=
| DryRun (file_path : path)
| Deleted (file_path : path)
| NotFound (file_path : path)
| Error (error_msg : string).

Record state := State {
  fs : Fs.node;
  success_count : nat;
  error_count : nat;
  errors : list string;
  out : list event
}.

(** [os.remove(p)]; [remove_error p] is the text of the exception with
    which the operating system refuses the removal, if it does. *)
Definition os_remove (remove_error : path → option string) (p : path) (t : Fs.node)
  : Fs.node + string :=
  match remove_error p with
  | Some e => inr e
  | None =>
      match Fs.remove p t with
      | Some t' => inl t'
      | None => inr "No such file"
      end
  end.

Definition error_msg_of (file_path : path) (e : string) : string :=
  "Error deleting " +:+ show file_path +:+ ": " +:+ e.

(** The body of the loop over [post_files]. *)
Definition step (remove_error : path → option string) (dry_run : bool)
    (file_path : path) (st : state) : state :=
  if dry_run then
    State (fs st) (success_count st) (error_count st) (errors st)
          (out st ++ [DryRun file_path])
  else if Fs.exists_ (fs st) file_path then
    match os_remove remove_error file_path (fs st) with
    | inl t' =>
        State t' (S (success_count st)) (error_count st) (errors st)
              (out st ++ [Deleted file_path])
    | inr e =>
        State (fs st) (success_count st) (S (error_count st))
              (errors st ++ [error_msg_of file_path e])
              (out st ++ [Error (error_msg_of file_path e)])
    end
  else
    State (fs st) (success_count st) (error_count st) (errors st)
          (out st ++ [NotFound file_path]).

(** [for i, file_path in enumerate(post_files, 1): ...] *)
Definition loop (remove_error : path → option string) (dry_run : bool)
    (post_files : list path) (st : state) : state :=
  fold_left (λ st file_path, step remove_error dry_run file_path st) post_files st.

Definition delete_post_files (remove_error : path → option string)
    (t : Fs.node) (root_path : path) (dry_run : bool) : state :=
  let post_files := find_post_files t root_path in
  match post_files with
  | [] => State t 0 0 [] []
  | _ => loop remove_error dry_run post_files (State t 0 0 [] [])
  end.

(** What [main] has to say at its end. *)
Inductive outcome :=
| NothingFound
| DeletionCancelled
| InputEnded
| Summary (success_count error_count : nat) (errors : list string).

(** [main()]: the file system that it leaves and its last word; [lines]
    are the lines that [input()] returns. *)
Definition main (remove_error : path → option string) (t : Fs.node)
    (lines : list string) : Fs.node * outcome :=
  let post_files := find_post_files t ["PNG_Files"] in
  match post_files with
  | [] => (t, NothingFound)
  | _ =>
      match Console.confirm lines with
      | Console.Proceed =>
          let st := delete_post_files remove_error t ["PNG_Files"] false in
          (fs st, Summary (success_count st) (error_count st) (errors st))
      | Console.Cancelled => (t, DeletionCancelled)
      | Console.EndOfInput => (t, InputEnded)
      end
  end.

End delete_post_files.

(** ** convert_tif_to_png.py *)

Module convert_tif_to_png.
Import PyStr PyPath.

(** What the imaging and array libraries and the operating system
    decide. *)
Record library := Library {
  (** [Image.convert]: the new sample of a pixel, from its mode to another *)
  convert_px : string → string → Img.pixel → Img.pixel;
  (** [((a - a.min()) / (a.max() - a.min()) * 255).astype(np.uint8)]
      at one cell of the array [a] *)
  normalize : list (list Img.pixel) → Img.pixel → Img.pixel;
  (** the exception with which [img.save(path, "PNG")] fails, if it does *)
  save_error : path → Img.image → option string;
  (** the exception with which [os.remove(path)] fails, if it does *)
  remove_error : path → option string
}.

Definition find_tif_files (t : Fs.node) (root_path : path) : list path :=
  flat_map (λ '(root, _, files),
              map (λ file, root ++ [file])
                  (List.filter (λ file, endswith ".tif" (lower file)
                                        || endswith ".tiff" (lower file)) files))
           (Fs.walk t root_path).

(** A numpy array of two dimensions. *)
Record ndarray := Ndarray {
  shape : nat * nat;                 (* (rows, columns) *)
  cells : list (list Img.pixel)
}.

(** [np.array(img)] *)
Definition np_array (img : Img.image) : ndarray :=
  Ndarray (Img.height img, Img.width img) (Img.data img).

(** [a.size] *)
Definition array_size (a : ndarray) : nat := (fst (shape a) * snd (shape a))%nat.

(** [Image.fromarray(a, mode=m)] *)
Definition fromarray (a : ndarray) (m : string) : Img.image :=
  Img.Image "" m (snd (shape a)) (fst (shape a)) (cells a).

(** [img.convert(m)] *)
Definition convert (L : library) (img : Img.image) (m : string) : Img.image :=
  Img.Image "" m (Img.width img) (Img.height img)
            (map (map (convert_px L (Img.mode img) m)) (Img.data img)).

(** [img.save(png_path, "PNG")]: [inr] carries the exception. *)
Definition save (L : library) (img : Img.image) (png_path : path) (t : Fs.node)
  : Fs.node + string :=
  match save_error L png_path img with
  | Some e => inr e
  | None =>
      let png := Img.Image "PNG" (Img.mode img) (Img.width img) (Img.height img)
                           (Img.data img) in
      match Fs.write png_path (Fs.Picture png) t with
      | Some t' => inl t'
      | None => inr "cannot write file"
      end
  end.

(** [Image.open(tif_path)] *)
Definition open (t : Fs.node) (tif_path : path) : Img.image + string :=
  match Fs.read t tif_path with
  | Some (Fs.Picture img) => inl img
  | Some (Fs.Text _) => inr "cannot identify image file"
  | None => inr "No such file"
  end.

Definition mem (x : string) (l : list string) : bool := existsb (String.eqb x) l.

(** [convert_tif_to_png(tif_path, png_path)]: the value returned, the
    file system afterwards and the message printed by the handler. *)
Definition convert_tif_to_png (L : library) (tif_path png_path : path) (t : Fs.node)
  : bool * Fs.node * option string :=
  let finish (r : Fs.node + string) :=
    match r with
    | inl t' => (true, t', None)
    | inr e => (false, t, Some ("Error converting " +:+ show tif_path +:+ ": " +:+ e))
    end in
  match open t tif_path with
  | inr e => finish (inr e)
  | inl img =>
      if String.eqb (Img.mode img) "F" then
        let img_array := np_array img in
        let img' :=
          if (0 <? array_size img_array)%nat then
            fromarray (Ndarray (shape img_array)
                               (map (map (normalize L (cells img_array)))
                                    (cells img_array))) "L"
          else convert L img "L" in
        finish (save L img' png_path t)
      else if mem (Img.mode img) ["RGBA"; "LA"; "P"] then
        finish (save L img png_path t)
      else if String.eqb (Img.mode img) "P" then
        finish (save L (convert L img "RGBA") png_path t)
      else
        finish (save L (convert L img "RGB") png_path t)
  end.

Definition png_path_of (tif_path : path) : path :=
  removelast tif_path ++ [splitext_root (List.last tif_path "") +:+ ".png"].

(** What the loop and the converter print. *)
Inductive event :=
| Converted (tif_path png_path : path)
| ConvertFailed (message : string)
| DeletedOriginal (tif_path : path)
| DeleteWarning (tif_path : path) (e : string).

Record state := State {
  fs : Fs.node;
  success_count : nat;
  error_count : nat;
  errors : list string;
  out : list event
}.

Definition os_remove (L : library) (p : path) (t : Fs.node) : Fs.node + string :=
  match remove_error L p with
  | Some e => inr e
  | None =>
      match Fs.remove p t with
      | Some t' => inl t'
      | None => inr "No such file"
      end
  end.

(** The body of the loop over [tif_files].  No call of the outer [try]
    raises: [convert_tif_to_png] handles its own exceptions, and so does
    the inner [try] around [os.remove]. *)
Definition step (L : library) (delete_original : bool) (tif_path : path) (st : state)
  : state :=
  let png_path := png_path_of tif_path in
  match convert_tif_to_png L tif_path png_path (fs st) with
  | (true, t', _) =>
      let out1 := out st ++ [Converted tif_path png_path] in
      if delete_original then
        match os_remove L tif_path t' with
        | inl t'' =>
            State t'' (S (success_count st)) (error_count st) (errors st)
                  (out1 ++ [DeletedOriginal tif_path])
        | inr e =>
            State t' (S (success_count st)) (error_count st) (errors st)
                  (out1 ++ [DeleteWarning tif_path e])
        end
      else State t' (S (success_count st)) (error_count st) (errors st) out1
  | (false, t', msg) =>
      State t' (success_count st) (S (error_count st))
            (errors st ++ ["Failed to convert: " +:+ show tif_path])
            (out st ++ [ConvertFailed (default "" msg)])
  end.

Definition loop (L : library) (delete_original : bool) (tif_files : list path)
    (st : state) : state :=
  fold_left (λ st tif_path, step L delete_original tif_path st) tif_files st.

Definition convert_all_tif_to_png (L : library) (t : Fs.node) (root_path : path)
    (delete_original : bool) : state :=
  let tif_files := find_tif_files t root_path in
  match tif_files with
  | [] => State t 0 0 [] []
  | _ => loop L delete_original tif_files (State t 0 0 [] [])
  end.

End convert_tif_to_png.

(** ** divide_images_generic.py *)

Module divide_images_generic.
Import PyStr PyPath.

Record library := Library {
  (** [Image.resize]: the pixel at column [x], row [y] of the image
      resampled to [w] by [h] *)
  resample : Img.image → nat → nat → nat → nat → Img.pixel;
  (** [Image.convert]: the new sample of a pixel, from its mode to another *)
  convert_px : string → string → Img.pixel → Img.pixel;
  (** the exception with which [piece.save(path, "PNG")] fails, if it does *)
  save_error : path → Img.image → option string
}.

(** [img.resize((w, h))] *)
Definition resize (L : library) (img : Img.image) (w h : nat) : Img.image :=
  Img.Image "" (Img.mode img) w h
            (map (λ y, map (λ x, resample L img w h x y) (seq 0 w)) (seq 0 h)).

(** [img.convert(m)] *)
Definition convert (L : library) (img : Img.image) (m : string) : Img.image :=
  Img.Image "" m (Img.width img) (Img.height img)
            (map (map (convert_px L (Img.mode img) m)) (Img.data img)).

(** The image after the two normalising steps at the head of
    [divide_image]. *)
Definition prepare (L : library) (img : Img.image) : Img.image :=
  let img1 :=
    if bool_decide (Img.size img = (128, 128)%nat) then img else resize L img 128 128 in
  if String.eqb (Img.mode img1) "RGB" then img1 else convert L img1 "RGB".

Definition piece_size : nat := 32.

(** [img.crop((left, top, right, bottom))] for the piece at [row], [col] *)
Definition piece_of (img : Img.image) (row col : nat) : Img.image :=
  let left := (col * piece_size)%nat in
  let top := (row * piece_size)%nat in
  let right := (left + piece_size)%nat in
  let bottom := (top + piece_size)%nat in
  Img.crop img left top right bottom.

Definition piece_filename (base_filename : string) (row col : nat) : string :=
  base_filename +:+ "_piece_" +:+ fmt_02d (row * 4 + col + 1) +:+ ".png".

Definition save (L : library) (img : Img.image) (p : path) (t : Fs.node)
  : Fs.node + string :=
  match save_error L p img with
  | Some e => inr e
  | None =>
      let png := Img.Image "PNG" (Img.mode img) (Img.width img) (Img.height img)
                           (Img.data img) in
      match Fs.write p (Fs.Picture png) t with
      | Some t' => inl t'
      | None => inr "cannot write file"
      end
  end.

(** The grid positions in the order of the two nested [for] loops. *)
Definition grid : list (nat * nat) :=
  flat_map (λ row, map (λ col, (row, col)) (seq 0 4)) (seq 0 4).

(** The two nested loops: [inr] carries the file system at the moment
    a [save] raises. *)
Fixpoint save_pieces (L : library) (img : Img.image) (output_dir : path)
    (base_filename : string) (cells : list (nat * nat))
    (t : Fs.node) (pieces_created : nat) : (Fs.node * nat) + Fs.node :=
  match cells with
  | [] => inl (t, pieces_created)
  | (row, col) :: rest =>
      let piece := piece_of img row col in
      match save L piece (output_dir ++ [piece_filename base_filename row col]) t with
      | inl t' => save_pieces L img output_dir base_filename rest t' (S pieces_created)
      | inr _ => inr t
      end
  end.

(** [divide_image(image_path, output_dir, base_filename)]: the number
    returned and the file system afterwards. *)
Definition divide_image (L : library) (image_path output_dir : path)
    (base_filename : string) (t : Fs.node) : nat * Fs.node :=
  match Fs.read t image_path with
  | Some (Fs.Picture img0) =>
      let img := prepare L img0 in
      match Fs.mkdir_p output_dir t with
      | None => (0%nat, t)
      | Some t1 =>
          match save_pieces L img output_dir base_filename grid t1 0 with
          | inl (t2, pieces_created) => (pieces_created, t2)
          | inr t2 => (0%nat, t2)
          end
      end
  | _ => (0%nat, t)
  end.

(** Pasting pieces back at their grid positions: the pixel at column
    [x], row [y] comes from the piece at row [y / 32], column [x / 32]. *)
Definition paste (pieces : nat → nat → Img.image) : list (list Img.pixel) :=
  map (λ y, map (λ x, Img.get (pieces (y / piece_size) (x / piece_size))%nat
                              (x mod piece_size) (y mod piece_size))
                (seq 0 128))
      (seq 0 128).

(** The two counters of [process_folder_structure] and the file
    system. *)
Record state := State {
  total_images : nat;
  total_pieces : nat;
  fs : Fs.node
}.

(** The body of the loop over [png_files]. *)
Definition divide_one (L : library) (root target_subdir : path) (png_file : string)
    (st : state) : state :=
  let source_path := root ++ [png_file] in
  let base_filename := splitext_root png_file in
  let '(pieces_created, t') :=
    divide_image L source_path target_subdir base_filename (fs st) in
  if (0 <? pieces_created)%nat
  then State (S (total_images st)) (total_pieces st + pieces_created) t'
  else State (total_images st) (total_pieces st) t'.

(** The body of the loop over [os.walk(category_source)].  The roots
    that the walk yields start with [category_source], and [rel_path] is
    what follows (nothing for ["."]).  [None] stands for the error of
    [os.makedirs], which nothing catches. *)
Definition visit (L : library) (category_source category_target : path)
    (entry : path * list string * list string) (st : state) : option state :=
  let '(root, _, files) := entry in
  let rel_path := skipn (length category_source) root in
  let target_subdir :=
    match rel_path with
    | [] => category_target
    | _ => category_target ++ rel_path
    end in
  match Fs.mkdir_p target_subdir (fs st) with
  | None => None
  | Some t1 =>
      let png_files := List.filter (λ f, endswith ".png" (lower f)) files in
      Some (fold_left (λ st png_file, divide_one L root target_subdir png_file st)
                      png_files (State (total_images st) (total_pieces st) t1))
  end.

Fixpoint visit_all (L : library) (category_source category_target : path)
    (entries : list (path * list string * list string)) (st : state) : option state :=
  match entries with
  | [] => Some st
  | e :: rest =>
      match visit L category_source category_target e st with
      | Some st' => visit_all L category_source category_target rest st'
      | None => None
      end
  end.

(** The body of the loop over [categories].  The pieces land under
    [category_target]; as long as that is not a directory below
    [category_source], the walk does not see them, and the directory
    listings that it yields are those of the tree at its start. *)
Definition process_category (L : library) (source_dir target_dir : path)
    (category : string) (st : state) : option state :=
  let category_source := source_dir ++ [category] in
  let category_target := target_dir ++ [category] in
  if negb (Fs.exists_ (fs st) category_source) then Some st
  else
    match Fs.mkdir_p category_target (fs st) with
    | None => None
    | Some t1 =>
        visit_all L category_source category_target (Fs.walk t1 category_source)
                  (State (total_images st) (total_pieces st) t1)
    end.

Fixpoint process_categories (L : library) (source_dir target_dir : path)
    (categories : list string) (st : state) : option state :=
  match categories with
  | [] => Some st
  | category :: rest =>
      match process_category L source_dir target_dir category st with
      | Some st' => process_categories L source_dir target_dir rest st'
      | None => None
      end
  end.

(** [process_folder_structure(source_dir, target_dir)]: the two numbers
    returned and the file system afterwards; [None] stands for an
    exception of [shutil.rmtree] or [os.makedirs], which nothing
    catches. *)
Definition process_folder_structure (L : library) (source_dir target_dir : path)
    (t : Fs.node) : option state :=
  if negb (Fs.exists_ t source_dir) then Some (State 0 0 t)
  else if bool_decide (source_dir = target_dir) then Some (State 0 0 t)
  else
    match (if Fs.exists_ t target_dir then Fs.rmtree target_dir t else Some t) with
    | None => None
    | Some t1 =>
        match Fs.mkdir_p target_dir t1 with
        | None => None
        | Some t2 =>
            process_categories L source_dir target_dir ["healthy"; "tumour"]
                               (State 0 0 t2)
        end
    end.

End divide_images_generic.

(** ** flatten_crc_structure.py *)

Module flatten_crc_structure.
Import PyStr PyPath.

Inductive event :=
| Moved (source_file target_file : path)
| MoveError (source_file : path).

Record state := State {
  fs : Fs.node;
  files_moved : nat;
  out : list event
}.

(** [shutil.move(src, dst)] of a file: a directory as destination
    receives the file under its own name and must not hold that name
    already; any other destination is replaced, as [os.rename] does.
    [move_error] decides whether the operating system refuses the move.
    [None] stands for the exception. *)
Definition shutil_move (move_error : path → path → bool) (src dst : path) (t : Fs.node)
  : option Fs.node :=
  if move_error src dst then None
  else
    match Fs.read t src with
    | None => None
    | Some c =>
        let real_dst := if Fs.is_dir t dst then dst ++ [List.last src ""] else dst in
        if Fs.is_dir t dst && Fs.exists_ t real_dst then None
        else if bool_decide (src = real_dst) then Some t
        else
          match Fs.write real_dst c t with
          | Some t1 => Fs.remove src t1
          | None => None
          end
    end.

(** The number of entries of the directory at [p]. *)
Definition dir_size (t : Fs.node) (p : path) : nat :=
  match Fs.lookup t p with
  | Some (Fs.Dir es) => length es
  | _ => 0%nat
  end.

(** The name tried with a given value of [counter]. *)
Definition numbered (original : string) (counter : nat) : string :=
  stem original +:+ "_" +:+ pretty counter +:+ suffix original.

(** [while target_file.exists(): ...]; each round costs one unit of
    fuel, and [None] means that the fuel ran out. *)
Fixpoint unique_target (fuel : nat) (t : Fs.node) (target_dir : path)
    (original : string) (target_file : path) (counter : nat) : option path :=
  if Fs.exists_ t target_file then
    match fuel with
    | O => None
    | S fuel' =>
        unique_target fuel' t target_dir original
                      (target_dir ++ [numbered original counter]) (S counter)
    end
  else Some target_file.

(** The body of the loop over [files]: the search for a free name, then
    the guarded move.  The search gets one more round than the target
    directory has entries. *)
Definition move_one (move_error : path → path → bool) (root_path target_dir : path)
    (file : string) (st : state) : state :=
  if endswith ".png" (lower file) then
    let source_file := root_path ++ [file] in
    match unique_target (S (dir_size (fs st) target_dir)) (fs st) target_dir file
                        (target_dir ++ [file]) 1 with
    | Some target_file =>
        match shutil_move move_error source_file target_file (fs st) with
        | Some t' =>
            State t' (S (files_moved st)) (out st ++ [Moved source_file target_file])
        | None =>
            State (fs st) (files_moved st) (out st ++ [MoveError source_file])
        end
    | None => st
    end
  else st.

(** The body of the loop over [os.walk(base_dir)]; [inr] carries the
    state at an exception that nothing catches ([relative_to] or
    [mkdir]). *)
Definition visit (move_error : path → path → bool) (base_dir : path)
    (entry : path * list string * list string) (st : state) : state + state :=
  let '(root_path, _, files) := entry in
  if bool_decide (root_path = base_dir) then inl st
  else
    match relative_to root_path base_dir with
    | None => inr st
    | Some path_parts =>
        match path_parts with
        | p0 :: p1 :: p2 :: _ =>
            if String.eqb p0 p1 && String.eqb p2 "images" then
              let crc_name := p0 in
              let target_dir := base_dir ++ [crc_name] in
              match Fs.mkdir_p target_dir (fs st) with
              | None => inr st
              | Some t1 =>
                  inl (fold_left (λ st file, move_one move_error root_path target_dir file st)
                                 files (State t1 (files_moved st) (out st)))
              end
            else inl st
        | _ => inl st
        end
    end.

Fixpoint visit_all (move_error : path → path → bool) (base_dir : path)
    (entries : list (path * list string * list string)) (st : state) : state + state :=
  match entries with
  | [] => inl st
  | e :: rest =>
      match visit move_error base_dir e st with
      | inl st' => visit_all move_error base_dir rest st'
      | inr st' => inr st'
      end
  end.

(** The nested function [flatten_directory(base_dir)].  A move takes a
    file out of the directory being visited and puts it into a
    directory right under [base_dir], which the walk has listed before:
    no listing that the walk has yet to read changes, so the listings
    are those of the tree at the start. *)
Definition flatten_directory (move_error : path → path → bool) (t : Fs.node)
    (base_dir : path) : state + state :=
  visit_all move_error base_dir (Fs.walk t base_dir) (State t 0 []).

(** The file system that a run leaves, finished or not. *)
Definition final_fs (r : state + state) : Fs.node :=
  match r with inl st => fs st | inr st => fs st end.

(** The body of the loop of [cleanup_empty_dirs]: a directory that is
    empty now is removed; [rmdir_error] decides whether the operating
    system refuses.  Every [OSError] is passed over. *)
Definition cleanup_one (rmdir_error : path → bool) (base_dir : path)
    (entry : path * list string * list string) (t : Fs.node) : Fs.node :=
  let '(root_path, _, _) := entry in
  if bool_decide (root_path = base_dir) then t
  else
    match Fs.lookup t root_path with
    | Some (Fs.Dir []) =>
        if rmdir_error root_path then t
        else match Fs.rmdir root_path t with Some t' => t' | None => t end
    | _ => t
    end.

(** [cleanup_empty_dirs(base_dir)].  The loop removes directories below
    the one it visits only, so the directories that the walk yields are
    those of the tree at the start. *)
Definition cleanup_empty_dirs (rmdir_error : path → bool) (t : Fs.node) (base_dir : path)
  : Fs.node :=
  fold_left (λ t entry, cleanup_one rmdir_error base_dir entry t)
            (Fs.walk_up t base_dir) t.

Definition processed_dir : path := ["Processed"].
Definition healthy_dir : path := processed_dir ++ ["healthy"].
Definition tumour_dir : path := processed_dir ++ ["tumour"].

(** The script: the file system that it leaves, also when an exception
    that nothing catches stops it. *)
Definition flatten_crc_structure (move_error : path → path → bool)
    (rmdir_error : path → bool) (t : Fs.node) : Fs.node :=
  if negb (Fs.exists_ t processed_dir) then t
  else
    match flatten_directory move_error t healthy_dir with
    | inr st => fs st
    | inl st1 =>
        match flatten_directory move_error (fs st1) tumour_dir with
        | inr st => fs st
        | inl st2 =>
            cleanup_empty_dirs rmdir_error
              (cleanup_empty_dirs rmdir_error (fs st2) healthy_dir) tumour_dir
        end
    end.

End flatten_crc_structure.

(** ** run_full_pipeline.py *)

Module run_full_pipeline.
Import PyStr.

Definition nl : string := String (ascii_of_nat 10) "".

(** How [subprocess.run] ends: the child exits, or the call raises. *)
Inductive child :=
| Completed (returncode : Z) (stdout stderr : string)
| RunRaised (exc : string).

(** One call of [subprocess.run]: the command and the text sent to the
    standard input. *)
Abbreviation launch := (list string * option string)%type.

(** What the interpreter and the operating system decide.  Times are in
    microseconds; the answers of the operating system may depend on the
    children launched before. *)
Record environment := Environment {
  python_exe : string;                      (* sys.executable *)
  repo_root : string;                       (* the directory of the script *)
  clock : nat → Z;                          (* the n-th datetime.now() *)
  isoformat : Z → string;                   (* datetime.isoformat() *)
  fmt_3f : Z → string;                      (* f"{seconds:.3f}" *)
  isfile : list launch → string → bool;     (* os.path.isfile *)
  subprocess_run : list launch → launch → child
}.

(** The state that the orchestrator changes. *)
Record world := World {
  ticks : nat;                     (* calls of datetime.now() so far *)
  launched : list launch;          (* children run so far, oldest first *)
  files : gmap string string       (* text files written *)
}.

(** The dictionary that [run_script] returns.  [start_time] and
    [end_time] are the two local variables of that name, kept next to
    their texts. *)
Record result := Result {
  command : list string;
  status : string;
  return_code : Z;
  started_at : string;
  ended_at : string;
  duration_seconds : Z;
  stdout : string;
  stderr : string;
  start_time : Z;
  end_time : Z
}.

(** [datetime.now()] *)
Definition now (E : environment) (w : world) : Z * world :=
  (clock E (ticks w), World (S (ticks w)) (launched w) (files w)).

Definition run_script (E : environment) (python_exe' script_path : string)
    (args : list string) (input_text : string) (w : world) : result * world :=
  let '(start_time', w1) := now E w in
  let started_at' := isoformat E start_time' in
  let cmd := [python_exe'; script_path] ++ args in
  let input := if String.eqb input_text "" then None else Some input_text in
  let proc := subprocess_run E (launched w1) (cmd, input) in
  let w2 := World (ticks w1) (launched w1 ++ [(cmd, input)]) (files w1) in
  let '(status', stdout', stderr', return_code') :=
    match proc with
    | Completed returncode out err =>
        (if (returncode =? 0)%Z then "success" else "failed", out, err, returncode)
    | RunRaised exc =>
        ("exception", "", "Exception while running: " +:+ exc, (-1)%Z)
    end in
  let '(end_time', w3) := now E w2 in
  let ended_at' := isoformat E end_time' in
  let duration_s := (end_time' - start_time')%Z in
  (Result cmd status' return_code' started_at' ended_at' duration_s stdout' stderr'
          start_time' end_time', w3).

Definition write_file (p text : string) (w : world) : world :=
  World (ticks w) (launched w) (<[p := text]> (files w)).

Definition append_file (p text : string) (w : world) : world :=
  World (ticks w) (launched w) (<[p := default "" (files w !! p) +:+ text]> (files w)).

Definition step_log_text (E : environment) (r : result) : string :=
  "COMMAND: " +:+ join " " (command r) +:+ nl +:+
  "STARTED: " +:+ started_at r +:+ nl +:+
  "ENDED:   " +:+ ended_at r +:+ nl +:+
  "DURATION_SECONDS: " +:+ fmt_3f E (duration_seconds r) +:+ nl +:+
  "STATUS: " +:+ status r +:+ nl +:+
  "RETURN_CODE: " +:+ pretty (return_code r) +:+ nl +:+ nl +:+
  "===== STDOUT =====" +:+ nl +:+
  stdout r +:+
  nl +:+ nl +:+ "===== STDERR =====" +:+ nl +:+
  stderr r +:+
  nl.

Definition write_step_log (E : environment) (log_dir step_id : string) (r : result)
    (w : world) : string * world :=
  let log_path := PyPath.join log_dir (step_id +:+ ".log") in
  (log_path, write_file log_path (step_log_text E r) w).

(** An entry of [run_summary]. *)
Record step_entry := StepEntry {
  name : string;
  script : string;
  args : list string;
  auto_confirm : bool;
  skipped : bool;
  step_result : option result;
  log_path : option string
}.

Fixpoint repeat_string (s : string) (n : nat) : string :=
  match n with
  | O => ""
  | S n' => s +:+ repeat_string s n'
  end.

(** The lines that [write_report] writes for one step.  [main] gives
    every step that is not skipped a result and a log path; the empty
    text stands in for an entry without them. *)
Definition report_step_text (E : environment) (step : step_entry) : string :=
  repeat_string "-" 80 +:+ nl +:+
  "Step: " +:+ name step +:+ nl +:+
  "Script: " +:+ script step +:+ nl +:+
  "Args: " +:+ (match args step with [] => "(none)" | a => join " " a end) +:+ nl +:+
  (if skipped step then
     "Status: SKIPPED (script not found)" +:+ nl +:+ nl
   else
     match step_result step with
     | None => ""
     | Some res =>
         "Status: " +:+ status res +:+ " (code " +:+ pretty (return_code res) +:+ ")" +:+ nl +:+
         "Started: " +:+ started_at res +:+ nl +:+
         "Ended:   " +:+ ended_at res +:+ nl +:+
         "Duration: " +:+ fmt_3f E (duration_seconds res) +:+ " s" +:+ nl +:+
         "Command: " +:+ join " " (command res) +:+ nl +:+
         "Auto-confirm: " +:+ (if auto_confirm step then "yes" else "no") +:+ nl +:+
         "Log file: " +:+ default "None" (log_path step) +:+ nl +:+
         nl +:+
         "STDOUT" +:+ nl +:+
         "~~~~~~" +:+ nl +:+
         stdout res +:+
         nl +:+ nl +:+
         "STDERR" +:+ nl +:+
         "~~~~~~" +:+ nl +:+
         stderr res +:+
         nl +:+ nl
     end).

Definition report_text (E : environment) (generated_at : Z)
    (run_summary : list step_entry) : string :=
  "Pipeline Report" +:+ nl +:+
  repeat_string "=" 80 +:+ nl +:+ nl +:+
  "Generated at: " +:+ isoformat E generated_at +:+ nl +:+
  "Python: " +:+ python_exe E +:+ nl +:+
  nl +:+
  String.concat "" (map (report_step_text E) run_summary).

Definition write_report (E : environment) (report_path : string)
    (run_summary : list step_entry) (w : world) : world :=
  let '(t, w1) := now E w in
  write_file report_path (report_text E t run_summary) w1.

(** An entry of the list [SCRIPTS]; the keys "confirm" and
    "confirm_text" are optional. *)
Record script_entry := ScriptEntry {
  se_script : string;
  se_args : list string;
  se_confirm : option bool;
  se_confirm_text : option string
}.

Definition SCRIPTS : list script_entry :=
  [ ScriptEntry "convert_tif_to_png.py" [] None None;
    ScriptEntry "separate_png_files.py" [] None None;
    ScriptEntry "move_reflection_coefficient.py" [] (Some true) None;
    ScriptEntry "delete_post_files.py" [] (Some true) None;
    ScriptEntry "consolidate_png_files.py" [] None None;
    ScriptEntry "flatten_crc_structure.py" [] None None;
    ScriptEntry "count_png_files.py" [] None None;
    ScriptEntry "filter_1858_files.py" [] None None;
    ScriptEntry "filter_uniform_images_1858.py" [] None None;
    ScriptEntry "divide_images_generic.py" [] None None;
    ScriptEntry "create_histograms_for_processed.py" [] None None;
    ScriptEntry "medical_image_classifier.py" [] None None;
    ScriptEntry "histogram_image_classifier.py" [] None None;
    ScriptEntry "divided_image_classifier.py" [] None None ].

Definition logs_dir (E : environment) : string := PyPath.join (repo_root E) "logs".
Definition report_path (E : environment) : string :=
  PyPath.join (repo_root E) "pipeline_report.txt".

(** [os.path.splitext(os.path.basename(script))[0]] *)
Definition step_name_of (script' : string) : string :=
  PyPath.splitext_root (PyPath.basename script').

(** The body of the loop over [SCRIPTS]. *)
Definition run_step (E : environment) (step : script_entry)
    (acc : list step_entry * world) : list step_entry * world :=
  let '(run_summary, w) := acc in
  let script' := se_script step in
  let args' := se_args step in
  let confirm := default false (se_confirm step) in
  let confirm_text := default ("y" +:+ nl) (se_confirm_text step) in
  let step_name := step_name_of script' in
  let step_entry0 := StepEntry step_name script' args' confirm false None None in
  if negb (isfile E (launched w) (PyPath.join (repo_root E) script')) then
    (run_summary ++ [StepEntry step_name script' args' confirm true None None], w)
  else
    let input_text := if confirm then confirm_text else "" in
    let '(res, w1) :=
      run_script E (python_exe E) (PyPath.join (repo_root E) script') args' input_text w in
    let '(log_path', w2) := write_step_log E (logs_dir E) step_name res w1 in
    let run_summary' :=
      run_summary ++ [StepEntry step_name script' args' confirm false
                                (Some res) (Some log_path')] in
    (run_summary', write_report E (report_path E) run_summary' w2).

Definition run_steps (E : environment) (scripts : list script_entry)
    (acc : list step_entry * world) : list step_entry * world :=
  fold_left (λ acc step, run_step E step acc) scripts acc.

(** The totals of the final block, in the order of the keys. *)
Definition count_status (s : string) (run_summary : list step_entry) : nat :=
  length (List.filter
            (λ e, negb (skipped e) &&
                  match step_result e with
                  | Some r => String.eqb (status r) s
                  | None => false
                  end) run_summary).

Definition count_skipped (run_summary : list step_entry) : nat :=
  length (List.filter skipped run_summary).

Definition dq : string := String (ascii_of_nat 34) "".

Definition json_key (k : string) : string := "  " +:+ dq +:+ k +:+ dq +:+ ": ".

(** [json.dumps(totals, indent=2)] *)
Definition totals_json (run_summary : list step_entry) : string :=
  "{" +:+ nl +:+
  json_key "success" +:+ pretty (count_status "success" run_summary) +:+ "," +:+ nl +:+
  json_key "failed" +:+ pretty (count_status "failed" run_summary) +:+ "," +:+ nl +:+
  json_key "exception" +:+ pretty (count_status "exception" run_summary) +:+ "," +:+ nl +:+
  json_key "skipped" +:+ pretty (count_skipped run_summary) +:+ nl +:+
  "}".

Definition final_summary_text (E : environment) (pipeline_start pipeline_end : Z)
    (run_summary : list step_entry) : string :=
  repeat_string "-" 80 +:+ nl +:+
  "Final Summary" +:+ nl +:+
  repeat_string "-" 80 +:+ nl +:+
  "Started: " +:+ isoformat E pipeline_start +:+ nl +:+
  "Ended:   " +:+ isoformat E pipeline_end +:+ nl +:+
  "Total Duration: " +:+ fmt_3f E (pipeline_end - pipeline_start)%Z +:+ " s" +:+ nl +:+ nl +:+
  totals_json run_summary +:+
  nl.

(** [main] over a list of scripts, from a given world: the run summary
    and the world at the end. *)
Definition main_with (E : environment) (scripts : list script_entry) (w : world)
  : list step_entry * world :=
  let '(pipeline_start, w0) := now E w in
  let '(run_summary, w1) := run_steps E scripts ([], w0) in
  let '(pipeline_end, w2) := now E w1 in
  (run_summary,
   append_file (report_path E)
               (final_summary_text E pipeline_start pipeline_end run_summary) w2).

Definition initial_world (old_files : gmap string string) : world :=
  World 0 [] old_files.

Definition main (E : environment) (old_files : gmap string string)
  : list step_entry * world :=
  main_with E SCRIPTS (initial_world old_files).

End run_full_pipeline.


(** ** Terms of the statements *)

Module Terms.
Import PyStr PyPath run_full_pipeline.

(** A folder name mentions a class label when one of the labels that
    [find_folders_to_rename] looks for occurs in it, in any case. *)
Definition mentions_label (dir_name : string) : bool :=
  contains "tumor" (lower dir_name) || contains "tumour" (lower dir_name)
  || contains "healthy" (lower dir_name).

(** The directories that a walk lists. *)
Definition listed_dirs (t : Fs.node) (root_path : path) : list string :=
  flat_map (λ '(_, dirs, _), dirs) (Fs.walk t root_path).

(** A file under [root_path] whose name contains "__post". *)
Definition post_file (t : Fs.node) (root_path q : path) : Prop :=
  ∃ rel name c, q = root_path ++ rel ++ [name] ∧ Fs.lookup t q = Some (Fs.File c) ∧
                contains "__post" name = true.

(** The PNG that a [save] writes for an image. *)
Definition as_png (img : Img.image) : Img.image :=
  Img.Image "PNG" (Img.mode img) (Img.width img) (Img.height img) (Img.data img).

(** The file of the piece at [row], [col]. *)
Definition piece_path (output_dir : path) (base_filename : string) (row col : nat) : path :=
  output_dir ++ [divide_images_generic.piece_filename base_filename row col].

(** [divide_image] has tiled the image at [image_path] of the tree [t]
    into the tree [t']: the image, once resized and converted, is 128 by
    128 in mode RGB; each of the sixteen files holds the crop of its grid
    position, 32 by 32; and whatever the sixteen files hold pastes back
    to the data of that image when the source was well formed. *)
Definition tiled (L : divide_images_generic.library) (image_path output_dir : path)
    (base_filename : string) (t t' : Fs.node) : Prop :=
  ∃ img0,
    Fs.read t image_path = Some (Fs.Picture img0) ∧
    let img := divide_images_generic.prepare L img0 in
    Img.width img = 128%nat ∧ Img.height img = 128%nat ∧ Img.mode img = "RGB" ∧
    (∀ row col, (row < 4)%nat → (col < 4)%nat →
       Fs.read t' (piece_path output_dir base_filename row col)
         = Some (Fs.Picture (as_png (divide_images_generic.piece_of img row col))) ∧
       Img.width (divide_images_generic.piece_of img row col) = 32%nat ∧
       Img.height (divide_images_generic.piece_of img row col) = 32%nat) ∧
    (Img.wf img0 →
     ∀ saved : nat → nat → Img.image,
       (∀ row col, (row < 4)%nat → (col < 4)%nat →
          Fs.read t' (piece_path output_dir base_filename row col)
            = Some (Fs.Picture (saved row col))) →
       divide_images_generic.paste saved = Img.data img).


(** The state [st'] comes after [st] in a run of
    [consolidate_png_files]: what was printed is still there, and so are
    the files under [PNG_Files]. *)
Definition consolidate_after (st st' : consolidate_png_files.state) : Prop :=
  (∃ more, consolidate_png_files.out st' = consolidate_png_files.out st ++ more) ∧
  ∀ q d, Fs.lookup (consolidate_png_files.fs st) ("PNG_Files" :: q) = Some (Fs.File d) →
         Fs.lookup (consolidate_png_files.fs st') ("PNG_Files" :: q) = Some (Fs.File d).


(** The launches that come before the step at index [i] of a run
    summary: one per step that was not skipped. *)
Definition runs_before (i : nat) (run_summary : list run_full_pipeline.step_entry) : nat :=
  length (List.filter (λ e, negb (run_full_pipeline.skipped e)) (firstn i run_summary)).

(** The command line that the orchestrator builds for an entry. *)
Definition command_of (E : run_full_pipeline.environment)
    (e : run_full_pipeline.step_entry) : list string :=
  [run_full_pipeline.python_exe E;
   PyPath.join (run_full_pipeline.repo_root E) (run_full_pipeline.script e)]
  ++ run_full_pipeline.args e.

(** What [run_script] has to record for a child that ended as [c]. *)
Definition records (c : run_full_pipeline.child) (r : run_full_pipeline.result) : Prop :=
  match c with
  | run_full_pipeline.Completed rc out err =>
      (run_full_pipeline.status r = "success" ↔ rc = 0%Z) ∧
      (rc ≠ 0%Z → run_full_pipeline.status r = "failed") ∧
      run_full_pipeline.return_code r = rc ∧
      run_full_pipeline.stdout r = out ∧ run_full_pipeline.stderr r = err
  | run_full_pipeline.RunRaised exc =>
      run_full_pipeline.status r = "exception" ∧
      run_full_pipeline.return_code r = (-1)%Z
  end.

(** The entry that the loop of [main] builds for a script. *)
Definition entry_of (s : script_entry) (skip : bool) (r : option result) (lp : option string) :=
  StepEntry (step_name_of (se_script s)) (se_script s) (se_args s)
            (default false (se_confirm s)) skip r lp.

(** The text that the loop sends to the standard input of the child. *)
Definition input_of (s : script_entry) : string :=
  if default false (se_confirm s) then default ("y" +:+ nl) (se_confirm_text s) else "".

(** The number of entries that were not skipped. *)
Definition nonskip (l : list step_entry) : nat :=
  length (List.filter (λ e, negb (skipped e)) l).

(** The property of one entry of the run summary, against the list [L]
    of launches. *)
Definition entry_ok (E : environment) (n0 : nat) (sum : list step_entry) (L : list launch)
    (i : nat) (e : step_entry) : Prop :=
  let k := (n0 + runs_before i sum)%nat in
  let h := take k L in
  skipped e = negb (isfile E h (PyPath.join (repo_root E) (script e))) ∧
  (skipped e = false →
   ∃ r inp, step_result e = Some r ∧ L !! k = Some (command_of E e, inp) ∧
            command r = command_of E e ∧
            records (subprocess_run E h (command_of E e, inp)) r).

(** The path of the log that [main] writes for a script. *)
Definition log_path_of (E : environment) (s : script_entry) : string :=
  PyPath.join (logs_dir E) (step_name_of (se_script s) +:+ ".log").





(** The names of the logs of [SCRIPTS]. *)
Definition log_names : list string :=
  map (λ s, step_name_of (se_script s) +:+ ".log") SCRIPTS.

(** A sample environment: every script but one is there, the first child
    succeeds, the second fails, the others cannot be started. *)
Definition sample_env : environment :=
  Environment "python3" "/repo"
    (λ n, Z.of_nat (n * 1000))
    (λ t, "T" +:+ pretty t)
    (λ d, pretty d +:+ "us")
    (λ _ p, negb (String.eqb p "/repo/separate_png_files.py"))
    (λ h _, match length h with
            | 0%nat => Completed 0 "converted" ""
            | 1%nat => Completed 2 "" "no such folder"
            | _ => RunRaised "out of memory"
            end).

(** The entries that the last call of [write_report] saw: the run
    summary up to the last step that was not skipped. *)
Fixpoint reported (run_summary : list step_entry) : list step_entry :=
  match run_summary with
  | [] => []
  | e :: rest =>
      match reported rest with
      | [] => if skipped e then [] else [e]
      | l => e :: l
      end
  end.

(** A name that [find_tif_files] takes for a TIFF. *)
Definition is_tif_name (name : string) : bool :=
  endswith ".tif" (lower name) || endswith ".tiff" (lower name).

(** A file under [root_path] with such a name. *)
Definition tif_file (t : Fs.node) (root_path q : path) : Prop :=
  ∃ rel name c, q = root_path ++ rel ++ [name] ∧ Fs.lookup t q = Some (Fs.File c) ∧
                is_tif_name name = true.

(** The mode of the PNG that [convert_tif_to_png] writes for a source
    of a given mode. *)
Definition png_mode (source_mode : string) : string :=
  if String.eqb source_mode "F" then "L"
  else if convert_tif_to_png.mem source_mode ["RGBA"; "LA"; "P"] then source_mode
  else "RGB".
(** The item [p] is settled in the state [st] of a run of
    [convert_all_tif_to_png] that deletes the originals: its failure is
    recorded, or it is gone and its PNG is there. *)
Definition converted_or_failed (st : convert_tif_to_png.state) (p : path) : Prop :=
  ("Failed to convert: " +:+ show p) ∈ convert_tif_to_png.errors st ∨
  (Fs.is_file (convert_tif_to_png.fs st) p = false ∧
   ∃ img, Fs.read (convert_tif_to_png.fs st) (convert_tif_to_png.png_path_of p)
            = Some (Fs.Picture img) ∧ Img.format img = "PNG").

(** A path whose last component has the name of a TIFF. *)
Definition tif_shaped (p : path) : Prop :=
  ∃ dir name, p = dir ++ [name] ∧ is_tif_name name = true.

(** A line that the question of a script takes for a yes, and one that
    it takes for a no. *)
Definition says_yes (line : string) : bool :=
  Console.mem (strip (lower line)) ["yes"; "y"].
Definition says_no (line : string) : bool :=
  Console.mem (strip (lower line)) ["no"; "n"].

(** The first line that says yes or no is [l], after the lines
    [before]. *)
Definition first_answer (lines before : list string) (l : string) : Prop :=
  ∃ after, lines = before ++ l :: after ∧
           Forall (λ x, says_yes x = false ∧ says_no x = false) before.

(** The contents of the files of a tree, directory by directory. *)
Fixpoint all_files (t : Fs.node) : list Fs.content :=
  match t with
  | Fs.File c => [c]
  | Fs.Dir es => flat_map (λ e, all_files (snd e)) es
  end.

(** A folder name that mentions the tumour class, in either spelling
    and any case. *)
Definition mentions_tumour (dir_name : string) : bool :=
  PyStr.contains "tumor" (PyStr.lower dir_name)
  || PyStr.contains "tumour" (PyStr.lower dir_name).

(** What [find_folders_to_rename] may propose for a folder called
    [name]: "tumour" or a respelling for a name that mentions the tumour
    class, "healthy" for another name that mentions "healthy". *)
Definition proposed_name (name new_name : string) : Prop :=
  new_name ≠ name ∧ new_name ≠ "" ∧
  if mentions_tumour name then
    if PyStr.contains "_" name then new_name = "tumour"
    else (PyStr.contains "Tumor" name || PyStr.contains "tumor" name
          || PyStr.contains "TUMOR" name) = true
  else
    PyStr.contains "healthy" (PyStr.lower name) = true ∧ new_name = "healthy".

(** The folders that a list of proposed renames gives a new name. *)
Definition old_paths (items : list (path * path * option string)) : list path :=
  map (λ item, fst (fst item)) items.

(** The number of files with the name of a PNG in the directories below
    [directory], those in [directory] itself left out. *)
Definition png_below (t : Fs.node) (directory : path) : nat :=
  list_sum (map (λ '(root, _, files),
                   if bool_decide (root = directory) then 0%nat
                   else length (consolidate_png_files.png_files_of files))
                (Fs.walk t directory)).

(** The number of copies that a run has printed. *)
Definition copies (out : list consolidate_png_files.event) : nat :=
  length (List.filter
            (λ ev, match ev with consolidate_png_files.Copied _ _ => true | _ => false end)
            out).

(** The three names that the scripts take for a class label. *)
Definition is_label (part : string) : bool :=
  consolidate_png_files.mem part ["healthy"; "tumour"; "heathy"].

(** A copy from under [PNG_Files] to the same place under
    [Processed/healthy] or [Processed/tumour], less the first label on
    the way. *)
Definition proper_copy (ev : consolidate_png_files.event) : Prop :=
  match ev with
  | consolidate_png_files.Copied src dst =>
      ∃ before label between name category,
        src = consolidate_png_files.source_dir ++ before ++ [label] ++ between ++ [name] ∧
        dst = consolidate_png_files.dest_dir ++ [category] ++ before ++ between ++ [name] ∧
        (category = "healthy" ∨ category = "tumour") ∧
        is_label label = true ∧ Forall (λ x, is_label x = false) before
  | _ => True
  end.

(** The counters count the copies, and every copy is a proper one. *)
Definition tallied (st : consolidate_png_files.state) : Prop :=
  (consolidate_png_files.healthy_files_copied st
   + consolidate_png_files.tumour_files_copied st
   = copies (consolidate_png_files.out st))%nat ∧
  Forall proper_copy (consolidate_png_files.out st).

(** The number of moves that a run of [flatten_directory] has printed. *)
Definition moves (out : list flatten_crc_structure.event) : nat :=
  length (List.filter
            (λ ev, match ev with flatten_crc_structure.Moved _ _ => true | _ => false end)
            out).

(** A file that holds a piece: a PNG of 32 by 32 pixels. *)
Definition is_piece (d : Fs.content) : Prop :=
  ∃ img, d = Fs.Picture img ∧ Img.format img = "PNG" ∧
         Img.width img = 32%nat ∧ Img.height img = 32%nat.

(** The counters are in step, the files outside [target_dir] are those
    of [t], and every file under [target_dir] is a piece. *)
Definition divided_into (t : Fs.node) (target_dir : PyPath.path)
    (st : divide_images_generic.state) : Prop :=
  divide_images_generic.total_pieces st = (16 * divide_images_generic.total_images st)%nat ∧
  (∀ q d, ¬ target_dir `prefix_of` q →
     Fs.lookup (divide_images_generic.fs st) q = Some (Fs.File d) ↔
     Fs.lookup t q = Some (Fs.File d)) ∧
  (∀ q d, Fs.lookup (divide_images_generic.fs st) (target_dir ++ q) = Some (Fs.File d) →
          is_piece d).

(** The tree [t] with the node [x] in the place of the node at [p]. *)
Fixpoint replace_at (p : path) (x : Fs.node) (t : Fs.node) {struct p} : Fs.node :=
  match p with
  | [] => x
  | nm :: p' =>
      match t with
      | Fs.Dir es =>
          match Fs.assoc nm es with
          | Some c => Fs.Dir (Fs.put_entry nm (replace_at p' x c) es)
          | None => t
          end
      | Fs.File _ => t
      end
  end.

(** A tree less the directories below which no file lies. *)
Fixpoint prune (t : Fs.node) : Fs.node :=
  match t with
  | Fs.File c => Fs.File c
  | Fs.Dir es =>
      Fs.Dir (flat_map (λ e, match prune (snd e) with
                             | Fs.Dir [] => []
                             | n => [(fst e, n)]
                             end) es)
  end.

(** What is left of an entry of a directory: nothing for a directory
    that has become empty. *)
Definition keep (n : Fs.node) : option Fs.node :=
  match n with
  | Fs.Dir [] => None
  | _ => Some n
  end.

(** An operating system that refuses no [rmdir]. *)
Definition rmdir_freely : path → bool := λ _, false.

(** The entries of a directory after [prune]. *)
Abbreviation prune_entries :=
  (flat_map (λ e : string * Fs.node, match prune (snd e) with
                                     | Fs.Dir [] => []
                                     | n => [(fst e, n)]
                                     end)).

(** The loop of [cleanup_empty_dirs] over the part of the walk that
    belongs to the entry [k] of the directory at [parent] leaves of the
    node [v] what [prune] leaves. *)
Definition cleaned (base_dir : path) (v : Fs.node) : Prop :=
  ∀ t parent k es,
    Fs.lookup t parent = Some (Fs.Dir es) → Fs.assoc k es = Some v →
    (length base_dir ≤ length parent)%nat →
    fold_left (λ t entry, flatten_crc_structure.cleanup_one rmdir_freely base_dir entry t)
              (Fs.walk_node_up (parent ++ [k]) v) t
    = replace_at parent (Fs.Dir (Fs.set_entry k (keep (prune v)) es)) t.

End Terms.

(** ** Sample inputs *)

Module Examples.

Definition normalized_tree : Fs.node :=
  Fs.Dir [("PNG_Files",
           Fs.Dir [("240911_CRC",
                    Fs.Dir [("healthy", Fs.Dir [("images", Fs.Dir [])]);
                            ("tumour", Fs.Dir [("a.png", Fs.File (Fs.Text "a"))])])])].


(** A tree with two files whose names contain "__post", one of them
    outside [PNG_Files]. *)
Definition posts_tree : Fs.node :=
  Fs.Dir [("PNG_Files",
           Fs.Dir [("240911_CRC",
                    Fs.Dir [("scan__post.png", Fs.File (Fs.Text "p"));
                            ("scan.png", Fs.File (Fs.Text "s"))])]);
          ("notes__post.txt", Fs.File (Fs.Text "n"))].

(** An operating system that refuses every removal, and one that
    refuses none. *)
Definition refuse_all : PyPath.path → option string := λ _, Some "Permission denied".
Definition allow_all : PyPath.path → option string := λ _, None.

(** An imaging library that halves samples on conversion, clamps them on
    normalisation and never fails, with an operating system that refuses
    every removal. *)
Definition plain_library : convert_tif_to_png.library :=
  convert_tif_to_png.Library
    (λ _ _ x, (x / 2)%Z)
    (λ _ x, Z.min 255 (Z.max 0 x))
    (λ _ _, None)
    refuse_all.

(** A tree with a float TIFF of three by two pixels and a text file that
    only has the name of a TIFF. *)
Definition scans_tree : Fs.node :=
  Fs.Dir [("Convert raw data",
           Fs.Dir [("scan.tif",
                    Fs.File (Fs.Picture
                      (Img.Image "TIFF" "F" 3 2 [[1; 2; 3]; [4; 5; 600]])%Z));
                   ("broken.tif", Fs.File (Fs.Text "not an image"))])].

(** The tree after the conversion of the float TIFF. *)
Definition scans_tree_converted : Fs.node :=
  Eval vm_compute in
    snd (fst (convert_tif_to_png.convert_tif_to_png plain_library
                ["Convert raw data"; "scan.tif"] ["Convert raw data"; "scan.png"]
                scans_tree)).

(** A tree in the shape that [flatten_directory] looks for, in which the
    destination already holds a file called as one of the files to move. *)
Definition nested_tree : Fs.node :=
  Fs.Dir [("Processed",
           Fs.Dir [("healthy",
                    Fs.Dir [("240911_CRC",
                             Fs.Dir [("a.png", Fs.File (Fs.Text "old"));
                                     ("240911_CRC",
                                      Fs.Dir [("images",
                                               Fs.Dir [("a.png", Fs.File (Fs.Text "new"));
                                                       ("b.png", Fs.File (Fs.Text "b"))])])])])])].

(** An operating system that refuses no move and no copy. *)
Definition never : PyPath.path → PyPath.path → bool := λ _ _, false.

(** An imaging library that resamples to the nearest pixel and repeats a
    grey level in the three bands; one that saves, and one whose disk is
    full. *)
Definition nearest (img : Img.image) (w h x y : nat) : Img.pixel :=
  Img.get img (x * Img.width img / w) (y * Img.height img / h).

Definition tiling_library : divide_images_generic.library :=
  divide_images_generic.Library nearest (λ _ _ v, (v * 65793)%Z) (λ _ _, None).

Definition full_disk_library : divide_images_generic.library :=
  divide_images_generic.Library nearest (λ _ _ v, (v * 65793)%Z)
                                (λ _ _, Some "No space left on device").

(** A tree with one grey image of two by two pixels. *)
Definition tiles_tree : Fs.node :=
  Fs.Dir [("Processed_1858_filtered",
           Fs.Dir [("healthy",
                    Fs.Dir [("scan.png",
                             Fs.File (Fs.Picture
                               (Img.Image "PNG" "L" 2 2 [[10; 20]; [30; 40]])%Z))])])].

(** A tree with the folder name "heathy", once on its own and once below
    a folder "tumour". *)
Definition variant_tree : Fs.node :=
  Fs.Dir [("PNG_Files",
           Fs.Dir [("240911_CRC",
                    Fs.Dir [("heathy", Fs.Dir [("a.png", Fs.File (Fs.Text "a"))])]);
                   ("241108_CRC",
                    Fs.Dir [("tumour",
                             Fs.Dir [("heathy",
                                      Fs.Dir [("b.png", Fs.File (Fs.Text "b"))])])])])].

(** The state in which [consolidate_png_files] leaves that tree. *)
Definition variant_state : consolidate_png_files.state :=
  Eval vm_compute in
    default (consolidate_png_files.State (Fs.Dir []) 0 0 [])
            (consolidate_png_files.consolidate_png_files never variant_tree).

(** The same imaging library with an operating system that refuses no
    removal. *)
Definition willing_library : convert_tif_to_png.library :=
  convert_tif_to_png.Library
    (λ _ _ x, (x / 2)%Z)
    (λ _ x, Z.min 255 (Z.max 0 x))
    (λ _ _, None)
    Examples.allow_all.

(** A tree with two folders that [find_folders_to_rename] gives a new
    name, and a file next to them. *)
Definition labelled_tree : Fs.node :=
  Fs.Dir [("PNG_Files",
           Fs.Dir [("241108_CRC_Tumor", Fs.Dir [("a.png", Fs.File (Fs.Text "a"))]);
                   ("241108_CRC_Healthy", Fs.Dir [("b.png", Fs.File (Fs.Text "b"))]);
                   ("notes.txt", Fs.File (Fs.Text "n"))])].

(** An operating system that refuses no rename. *)
Definition rename_freely : PyPath.path → PyPath.path → option string := λ _ _, None.

(** A tree with one grey image to tile and a target directory that
    holds a file of an earlier run. *)
Definition tiles_tree_with_old_target : Fs.node :=
  Fs.Dir [("Processed_1858_filtered",
           Fs.Dir [("healthy",
                    Fs.Dir [("scan.png",
                             Fs.File (Fs.Picture
                               (Img.Image "PNG" "L" 2 2 [[10; 20]; [30; 40]])%Z))])]);
          ("Processed_1858_filtered_divided",
           Fs.Dir [("old.txt", Fs.File (Fs.Text "stale"))])].

End Examples.

(* ===================================================================== *)
(** * Part II: the properties                                             *)
(* ===================================================================== *)

(** ** Lists *)

Lemma flat_map_all_nil {A B} (f : A → list B) (l : list A) :
  (∀ x, x ∈ l → f x = []) → flat_map f l = [].
Proof.
  induction l as [|a l IH]; intros H; simpl; [done|].
  rewrite (H a) by (left). rewrite IH; [done|].
  intros x Hx. apply H. by right.
Qed.

Lemma elem_of_flat_map {A B} (f : A → list B) (l : list A) (y : B) :
  y ∈ flat_map f l ↔ ∃ x, x ∈ l ∧ y ∈ f x.
Proof.
  rewrite !list_elem_of_In, in_flat_map.
  split; intros (x & H1 & H2); exists x; by rewrite ?list_elem_of_In in *.
Qed.

(** ** The file system *)

Section fs_facts.
Import PyPath Fs.

(** Induction on trees: a directory inherits the property of its
    entries. *)
Lemma node_tree_ind (P : node → Prop) :
  (∀ c, P (File c)) →
  (∀ es, Forall (λ e, P (snd e)) es → P (Dir es)) →
  ∀ t, P t.
Proof.
  intros HF HD. fix IH 1. intros [c|es]; [apply HF|].
  apply HD. induction es as [|[k v] es IHes]; constructor; [apply IH|apply IHes].
Qed.

Lemma eqb_false_ne (a b : string) : a ≠ b → String.eqb a b = false.
Proof. intros H. by apply String.eqb_neq. Qed.

Lemma assoc_put_eq nm c es : assoc nm (put_entry nm c es) = Some c.
Proof.
  induction es as [|[k v] es IH]; simpl.
  - by rewrite String.eqb_refl.
  - destruct (String.eqb nm k) eqn:E; simpl; rewrite E; [done|exact IH].
Qed.

Lemma assoc_put_ne nm c es k :
  k ≠ nm → assoc k (put_entry nm c es) = assoc k es.
Proof.
  intros Hne. induction es as [|[k' v] es IH]; simpl.
  - by rewrite eqb_false_ne.
  - destruct (String.eqb nm k') eqn:E; simpl.
    + apply String.eqb_eq in E as <-. by rewrite eqb_false_ne.
    + by rewrite IH.
Qed.

Lemma assoc_drop_eq nm es : assoc nm (drop_entry nm es) = None.
Proof.
  induction es as [|[k v] es IH]; simpl; [done|].
  destruct (String.eqb nm k) eqn:E; simpl; [done|]. by rewrite E.
Qed.

Lemma assoc_drop_ne nm es k :
  k ≠ nm → assoc k (drop_entry nm es) = assoc k es.
Proof.
  intros Hne. induction es as [|[k' v] es IH]; simpl; [done|].
  destruct (String.eqb nm k') eqn:E; simpl.
  - apply String.eqb_eq in E as <-. by rewrite eqb_false_ne.
  - by rewrite IH.
Qed.

Lemma assoc_set_eq nm new es : assoc nm (set_entry nm new es) = new.
Proof. destruct new; [apply assoc_put_eq|apply assoc_drop_eq]. Qed.

Lemma assoc_set_ne nm new es k :
  k ≠ nm → assoc k (set_entry nm new es) = assoc k es.
Proof. destruct new; [apply assoc_put_ne|apply assoc_drop_ne]. Qed.

Lemma assoc_snoc_ne nm c es k :
  k ≠ nm → assoc k (es ++ [(nm, c)]) = assoc k es.
Proof.
  intros Hne. induction es as [|[k' v] es IH]; simpl.
  - by rewrite eqb_false_ne.
  - by rewrite IH.
Qed.

Lemma assoc_snoc_eq nm c es :
  assoc nm es = None → assoc nm (es ++ [(nm, c)]) = Some c.
Proof.
  induction es as [|[k' v] es IH]; simpl.
  - by rewrite String.eqb_refl.
  - destruct (String.eqb nm k'); [done|exact IH].
Qed.

Lemma fs_lookup_app t p q :
  lookup t (p ++ q) = match lookup t p with Some n => lookup n q | None => None end.
Proof.
  revert t. induction p as [|x p IH]; intros t; simpl; [done|].
  destruct t as [c|es]; [done|]. destruct (assoc x es); [apply IH|done].
Qed.

Lemma lookup_file_below t p c q :
  lookup t p = Some (File c) → q ≠ [] → lookup t (p ++ q) = None.
Proof. intros H Hq. rewrite fs_lookup_app, H. by destruct q. Qed.

(** The unfolding of [update] at a path of at least two components. *)
Lemma update_cons2 nm x p new es :
  update (nm :: x :: p) new (Dir es) =
  match assoc nm es with
  | Some c =>
      match update (x :: p) new c with
      | Some c' => Some (Dir (put_entry nm c' es))
      | None => None
      end
  | None => None
  end.
Proof. reflexivity. Qed.

Lemma update_root_dir p new t t' :
  update p new t = Some t' → ∃ es es', t = Dir es ∧ t' = Dir es'.
Proof.
  destruct p as [|nm [|x p]]; [done| |]; destruct t as [c|es]; try done.
  - simpl. intros [= <-]. eauto.
  - rewrite update_cons2. destruct (assoc nm es); [|done].
    destruct (update _ _ _); [|done]. intros [= <-]. eauto.
Qed.

(** What is at the updated path afterwards. *)
Lemma lookup_update_eq p new t t' :
  update p new t = Some t' → lookup t' p = new.
Proof.
  revert t t'. induction p as [|nm p IH]; intros t t' H; [done|].
  destruct t as [c|es]; [by destruct p|].
  destruct p as [|x p].
  - simpl in H. injection H as <-. simpl. rewrite assoc_set_eq. by destruct new.
  - rewrite update_cons2 in H. destruct (assoc nm es) as [c|]; [|done].
    destruct (update (x :: p) new c) as [c'|] eqn:Hu; [|done].
    injection H as <-. cbn [lookup]. rewrite assoc_put_eq. by apply (IH c).
Qed.

(** An update succeeds at a path that exists. *)
Lemma update_defined p new t n :
  p ≠ [] → lookup t p = Some n → ∃ t', update p new t = Some t'.
Proof.
  revert t. induction p as [|nm p IH]; intros t Hp H; [done|].
  destruct t as [c|es]; [done|]. cbn [lookup] in H.
  destruct (assoc nm es) as [c|] eqn:Ha; [|done].
  destruct p as [|x p].
  - simpl. eauto.
  - rewrite update_cons2, Ha.
    destruct (IH c) as [c' Hc']; [done|done|]. rewrite Hc'. eauto.
Qed.

(** Files away from the updated path are the same before and after,
    as long as nothing lay below the path and the new occupant is not a
    directory. *)
Lemma update_file_iff p new t t' q d :
  update p new t = Some t' →
  q ≠ p →
  (∀ r, r ≠ [] → lookup t (p ++ r) = None) →
  (∀ es, new ≠ Some (Dir es)) →
  lookup t' q = Some (File d) ↔ lookup t q = Some (File d).
Proof.
  revert t t' q. induction p as [|nm p IH]; intros t t' q H Hne Hold Hnew; [done|].
  destruct t as [c|es]; [by destruct p|].
  destruct q as [|y q].
  { destruct (update_root_dir _ _ _ _ H) as (es1 & es2 & _ & ->). done. }
  destruct (decide (y = nm)) as [->|Hy].
  - destruct p as [|x p].
    + simpl in H. injection H as <-. cbn [lookup]. rewrite assoc_set_eq.
      assert (Hq : q ≠ []) by (intros ->; done).
      specialize (Hold q Hq). cbn [app lookup] in Hold. rewrite Hold.
      split; [|done].
      destruct new as [[c|es']|]; [|by destruct (Hnew es')|done].
      by destruct q.
    + rewrite update_cons2 in H. destruct (assoc nm es) as [c|] eqn:Ha; [|done].
      destruct (update (x :: p) new c) as [c'|] eqn:Hu; [|done].
      injection H as <-. cbn [lookup]. rewrite assoc_put_eq, Ha.
      apply (IH c c' q Hu); [congruence| |done].
      intros r Hr. specialize (Hold r Hr). cbn [app lookup] in Hold.
      by rewrite Ha in Hold.
  - assert (Ha : ∃ es', t' = Dir es' ∧ assoc y es' = assoc y es).
    { destruct p as [|x p].
      - simpl in H. injection H as <-. eexists. split; [done|]. by apply assoc_set_ne.
      - rewrite update_cons2 in H. destruct (assoc nm es) as [c|]; [|done].
        destruct (update (x :: p) new c) as [c'|]; [|done].
        injection H as <-. eexists. split; [done|]. by apply assoc_put_ne. }
    destruct Ha as (es' & -> & Ha). cbn [lookup]. by rewrite Ha.
Qed.

Lemma nothing_below t p :
  is_dir t p = false → ∀ r, r ≠ [] → lookup t (p ++ r) = None.
Proof.
  intros Hd r Hr. rewrite fs_lookup_app. unfold is_dir in Hd.
  destruct (lookup t p) as [[c|es]|]; [|done|done]. by destruct r.
Qed.

Lemma is_file_not_dir t p : is_file t p = true → is_dir t p = false.
Proof. unfold is_file, is_dir. by destruct (lookup t p) as [[c|es]|]. Qed.

Lemma read_Some t p c : read t p = Some c ↔ lookup t p = Some (File c).
Proof.
  unfold read. destruct (lookup t p) as [[c'|es]|]; split; intros H; try done;
    by injection H as ->.
Qed.

(** [write]: the file is there afterwards, and the other files are
    those of before. *)
Lemma write_spec p c t t' :
  write p c t = Some t' →
  lookup t' p = Some (File c) ∧
  ∀ q d, q ≠ p → lookup t' q = Some (File d) ↔ lookup t q = Some (File d).
Proof.
  unfold write. destruct (is_dir t p) eqn:Hd; [done|]. intros H. split.
  - by apply lookup_update_eq in H.
  - intros q d Hq. apply (update_file_iff p (Some (File c)) t t'); try done.
    by apply nothing_below.
Qed.

(** [remove]: the file is gone afterwards, and the other files are those
    of before. *)
Lemma remove_spec p t t' :
  remove p t = Some t' →
  lookup t' p = None ∧
  ∀ q d, q ≠ p → lookup t' q = Some (File d) ↔ lookup t q = Some (File d).
Proof.
  unfold remove. destruct (is_file t p) eqn:Hf; [|done]. intros H. split.
  - by apply lookup_update_eq in H.
  - intros q d Hq. apply (update_file_iff p None t t'); try done.
    by apply nothing_below, is_file_not_dir.
Qed.

(** [rmdir] changes no file. *)
Lemma rmdir_files p t t' q d :
  rmdir p t = Some t' →
  lookup t' q = Some (File d) ↔ lookup t q = Some (File d).
Proof.
  unfold rmdir. destruct (lookup t p) as [[c|[|e es]]|] eqn:Hp; try done. intros H.
  destruct (decide (q = p)) as [->|Hq].
  - apply lookup_update_eq in H. rewrite H, Hp. done.
  - apply (update_file_iff p None t t'); try done.
    intros r Hr. rewrite fs_lookup_app, Hp. by destruct r.
Qed.

(** [mkdir_p] makes directories only. *)
Lemma mkdir_p_files p t t' q d :
  mkdir_p p t = Some t' →
  lookup t' q = Some (File d) ↔ lookup t q = Some (File d).
Proof.
  revert t t' q. induction p as [|nm p IH]; intros t t' q H.
  { destruct t; simpl in H; [done|]. by injection H as <-. }
  destruct t as [c|es]; [done|]. simpl in H.
  destruct (assoc nm es) as [c|] eqn:Ha.
  - destruct (mkdir_p p c) as [c'|] eqn:Hm; [|done]. injection H as <-.
    destruct q as [|y q]; [done|]. cbn [lookup].
    destruct (decide (y = nm)) as [->|Hy].
    + rewrite assoc_put_eq, Ha. by apply IH.
    + by rewrite assoc_put_ne.
  - destruct (mkdir_p p (Dir [])) as [c'|] eqn:Hm; [|done]. injection H as <-.
    destruct q as [|y q]; [done|]. cbn [lookup].
    destruct (decide (y = nm)) as [->|Hy].
    + rewrite assoc_snoc_eq, Ha by done. rewrite (IH _ _ q Hm).
      destruct q; simpl; done.
    + by rewrite assoc_snoc_ne.
Qed.


(** Well-formed trees. *)
Lemma wf_Dir es :
  wf (Dir es) ↔ NoDup (map fst es) ∧ Forall (λ e, wf (snd e)) es.
Proof.
  unfold wf. simpl. rewrite andb_true_iff, bool_decide_eq_true.
  rewrite forallb_forall, Forall_forall. split; intros [H1 H2]; split; try done.
  - intros e He. apply H2. by apply list_elem_of_In.
  - intros e He. apply H2. by apply list_elem_of_In.
Qed.

Lemma assoc_Some_elem nm es v : assoc nm es = Some v → (nm, v) ∈ es.
Proof.
  induction es as [|[k v'] es IH]; simpl; [done|].
  destruct (String.eqb_spec nm k) as [->|Hne].
  - intros [= ->]. by left.
  - intros H. right. by apply IH.
Qed.

Lemma assoc_NoDup nm es v :
  NoDup (map fst es) → (nm, v) ∈ es → assoc nm es = Some v.
Proof.
  induction es as [|[k v'] es IH]; intros Hnd Hin; [by apply elem_of_nil in Hin|].
  simpl in *. apply NoDup_cons in Hnd as [Hk Hnd].
  apply elem_of_cons in Hin as [[= -> ->]|Hin].
  - by rewrite String.eqb_refl.
  - destruct (String.eqb_spec nm k) as [->|Hne]; [|by apply IH].
    exfalso. apply Hk. apply list_elem_of_fmap. by exists (k, v).
Qed.

Lemma wf_lookup t p n : wf t → lookup t p = Some n → wf n.
Proof.
  revert t. induction p as [|x p IH]; intros t Hwf H; simpl in H.
  - by injection H as <-.
  - destruct t as [c|es]; [done|]. destruct (assoc x es) as [c|] eqn:Ha; [|done].
    apply (IH c); [|done]. apply wf_Dir in Hwf as [_ Hall].
    rewrite Forall_forall in Hall. apply (Hall (x, c)). by apply assoc_Some_elem.
Qed.

Lemma elem_of_filenames f es :
  f ∈ filenames es ↔ ∃ c, (f, File c) ∈ es.
Proof.
  unfold filenames. rewrite list_elem_of_fmap. split.
  - intros ([k v] & -> & Hin). apply list_elem_of_In, filter_In in Hin as [Hin Hd].
    destruct v as [c|es']; [|done]. exists c. by apply list_elem_of_In.
  - intros (c & Hin). exists (f, File c). split; [done|].
    apply list_elem_of_In, filter_In. split; [by apply list_elem_of_In|done].
Qed.

Lemma elem_of_dirnames f es :
  f ∈ dirnames es ↔ ∃ es', (f, Dir es') ∈ es.
Proof.
  unfold dirnames. rewrite list_elem_of_fmap. split.
  - intros ([k v] & -> & Hin). apply list_elem_of_In, filter_In in Hin as [Hin Hd].
    destruct v as [c|es']; [done|]. exists es'. by apply list_elem_of_In.
  - intros (c & Hin). exists (f, Dir c). split; [done|].
    apply list_elem_of_In, filter_In. split; [by apply list_elem_of_In|done].
Qed.

(** Every file that a walk lists is a file of the tree. *)
Lemma walk_node_sound t :
  ∀ base root dirs files f,
    wf t → (root, dirs, files) ∈ walk_node base t → f ∈ files →
    ∃ rel c, root = base ++ rel ∧ lookup t (rel ++ [f]) = Some (File c).
Proof.
  induction t as [c|es IH] using node_tree_ind; intros base root dirs files f Hwf Hin Hf.
  { by apply elem_of_nil in Hin. }
  apply wf_Dir in Hwf as [Hnd Hall]. simpl in Hin.
  apply elem_of_cons in Hin as [[= -> -> ->]|Hin].
  - apply elem_of_filenames in Hf as [c Hc]. exists [], c.
    split; [by rewrite app_nil_r|]. simpl. by rewrite (assoc_NoDup _ _ _ Hnd Hc).
  - apply elem_of_flat_map in Hin as ([k v] & Hkv & Hin). simpl in Hin.
    rewrite Forall_forall in IH, Hall.
    destruct (IH (k, v) Hkv (base ++ [k]) root dirs files f (Hall _ Hkv) Hin Hf)
      as (rel & c & -> & Hl).
    exists (k :: rel), c. split; [by rewrite <- app_assoc|].
    simpl. by rewrite (assoc_NoDup _ _ _ Hnd Hkv).
Qed.

(** Every file of the tree is listed by the walk. *)
Lemma walk_node_complete t :
  ∀ base rel f c,
    lookup t (rel ++ [f]) = Some (File c) →
    ∃ dirs files, (base ++ rel, dirs, files) ∈ walk_node base t ∧ f ∈ files.
Proof.
  induction t as [c|es IH] using node_tree_ind; intros base rel f c' Hl.
  { by destruct rel. }
  destruct rel as [|x rel]; simpl in Hl.
  - destruct (assoc f es) as [[c|es']|] eqn:Ha; try done. injection Hl as ->.
    exists (dirnames es), (filenames es). rewrite app_nil_r. split; [by left|].
    apply elem_of_filenames. exists c'. by apply assoc_Some_elem.
  - destruct (assoc x es) as [n|] eqn:Ha; [|done].
    apply assoc_Some_elem in Ha. rewrite Forall_forall in IH.
    destruct (IH (x, n) Ha (base ++ [x]) rel f c' Hl) as (dirs & files & Hin & Hf).
    exists dirs, files. split; [|done]. simpl. right.
    apply elem_of_flat_map. exists (x, n). split; [done|].
    simpl. by rewrite <- app_assoc in Hin.
Qed.

End fs_facts.

(** ** rename_folders.py *)

Section rename_folders_facts.
Import PyStr PyPath rename_folders Terms Examples.

Lemma choose_name_no_label dir_name :
  mentions_label dir_name = false → choose_name dir_name = (None, None).
Proof.
  unfold mentions_label, choose_name. intros H.
  apply orb_false_iff in H as [H1 H3].
  rewrite H1, H3. reflexivity.
Qed.

Lemma proposal_normalized root dir_name :
  (mentions_label dir_name = true → dir_name = "healthy" ∨ dir_name = "tumour") →
  proposal root dir_name = [].
Proof.
  intros H. destruct (mentions_label dir_name) eqn:E.
  - destruct (H eq_refl) as [-> | ->]; reflexivity.
  - unfold proposal. by rewrite choose_name_no_label.
Qed.

(** C9.  A directory called exactly "healthy" or exactly "tumour" gets no
    rename proposal, and the scan of a tree in which every folder whose
    name mentions a class label has one of these two names returns the
    empty list. *)
Theorem rename_scan_idempotent_on_normalized :
  (∀ root, proposal root "healthy" = [] ∧ proposal root "tumour" = []) ∧
  ∀ (t : Fs.node) (root_path : path),
    (∀ d, d ∈ listed_dirs t root_path → mentions_label d = true →
          d = "healthy" ∨ d = "tumour") →
    find_folders_to_rename t root_path = [].
Proof.
  split; [intros root; split; reflexivity|].
  intros t root_path H. unfold find_folders_to_rename.
  apply flat_map_all_nil. intros [[root dirs] files] Hin.
  apply flat_map_all_nil. intros d Hd.
  apply proposal_normalized. apply H.
  unfold listed_dirs. apply elem_of_flat_map.
  exists (root, dirs, files). split; done.
Qed.

Lemma rename_scan_idempotent_witness :
  (∀ d, d ∈ listed_dirs normalized_tree ["PNG_Files"] → mentions_label d = true →
        d = "healthy" ∨ d = "tumour") ∧
  find_folders_to_rename normalized_tree ["PNG_Files"] = [].
Proof.
  assert (H : ∀ d, d ∈ listed_dirs normalized_tree ["PNG_Files"] →
                   mentions_label d = true → d = "healthy" ∨ d = "tumour").
  { intros d Hd. vm_compute in Hd.
    repeat (apply elem_of_cons in Hd as [-> | Hd]); try (vm_compute; discriminate);
      try (intros _; auto; fail).
    by apply elem_of_nil in Hd. }
  split; [exact H|].
  exact (proj2 rename_scan_idempotent_on_normalized normalized_tree ["PNG_Files"] H).
Defined.

End rename_folders_facts.

(** ** Strings *)

Section string_facts.
Import PyStr.

Lemma str_app_cons (x : ascii) (a b : string) : String x a +:+ b = String x (a +:+ b).
Proof. reflexivity. Qed.

Lemma str_app_nil_l (b : string) : "" +:+ b = b.
Proof. reflexivity. Qed.

Lemma str_app_assoc (a b c : string) : (a +:+ b) +:+ c = a +:+ (b +:+ c).
Proof.
  induction a as [|x a IH]; [done|]. rewrite !str_app_cons. by f_equal.
Qed.


Lemma str_app_length (a b : string) :
  String.length (a +:+ b) = (String.length a + String.length b)%nat.
Proof.
  induction a as [|x a IH]; [done|]. rewrite str_app_cons. simpl. by f_equal.
Qed.

Lemma str_app_inv_tail (a b c : string) : a +:+ c = b +:+ c → a = b.
Proof.
  revert b. induction a as [|x a IH]; intros [|y b] H; [done| | |].
  - exfalso. apply (f_equal String.length) in H.
    rewrite str_app_nil_l, str_app_cons in H. simpl in H.
    rewrite str_app_length in H. lia.
  - exfalso. apply (f_equal String.length) in H.
    rewrite str_app_nil_l, str_app_cons in H. simpl in H.
    rewrite str_app_length in H. lia.
  - rewrite !str_app_cons in H. injection H as -> H. f_equal. by apply IH.
Qed.











End string_facts.



(** ** run_full_pipeline.py *)

Section pipeline_facts.
Import PyStr run_full_pipeline Terms.
Variable E : environment.

Lemma run_steps_snoc scripts s acc :
  run_steps E (scripts ++ [s]) acc = run_step E s (run_steps E scripts acc).
Proof. unfold run_steps. by rewrite fold_left_app. Qed.

(** What one call of [run_script] does to the world and returns. *)
Lemma run_script_spec py sp args inp w :
  let cmd := [py; sp] ++ args in
  let input := if String.eqb inp "" then None else Some inp in
  let r := fst (run_script E py sp args inp w) in
  let w' := snd (run_script E py sp args inp w) in
  ticks w' = S (S (ticks w)) ∧
  launched w' = launched w ++ [(cmd, input)] ∧
  files w' = files w ∧
  command r = cmd ∧
  start_time r = clock E (ticks w) ∧
  end_time r = clock E (S (ticks w)) ∧
  started_at r = isoformat E (start_time r) ∧
  ended_at r = isoformat E (end_time r) ∧
  duration_seconds r = (end_time r - start_time r)%Z ∧
  records (subprocess_run E (launched w) (cmd, input)) r.
Proof.
  unfold run_script, now; simpl.
  destruct (subprocess_run E (launched w) _) as [rc out err|exc] eqn:Hc; simpl;
    repeat split; try done.
  - destruct (Z.eqb_spec rc 0); [done|discriminate].
  - intros ->. reflexivity.
  - intros Hne. destruct (Z.eqb_spec rc 0); [done|reflexivity].
Qed.


Lemma run_step_skipped s sum w :
  isfile E (launched w) (PyPath.join (repo_root E) (se_script s)) = false →
  run_step E s (sum, w) = (sum ++ [entry_of s true None None], w).
Proof. intros H. unfold run_step. rewrite H. reflexivity. Qed.

Lemma run_step_ran s sum w :
  isfile E (launched w) (PyPath.join (repo_root E) (se_script s)) = true →
  let rw := run_script E (python_exe E) (PyPath.join (repo_root E) (se_script s))
                       (se_args s) (input_of s) w in
  let lp := PyPath.join (logs_dir E) (step_name_of (se_script s) +:+ ".log") in
  let sum' := sum ++ [entry_of s false (Some (fst rw)) (Some lp)] in
  run_step E s (sum, w) =
    (sum', write_report E (report_path E) sum'
             (write_file lp (step_log_text E (fst rw)) (snd rw))).
Proof.
  intros H. unfold run_step. rewrite H. simpl.
  fold (input_of s).
  destruct (run_script E _ _ _ _ w) as [r w1] eqn:Hr. simpl. reflexivity.
Qed.



Lemma nonskip_snoc l e : nonskip (l ++ [e]) = (nonskip l + (if skipped e then 0 else 1))%nat.
Proof.
  unfold nonskip. rewrite List.filter_app, length_app. simpl.
  destruct (skipped e); reflexivity.
Qed.

Lemma runs_before_nonskip i l : runs_before i l = nonskip (take i l).
Proof. reflexivity. Qed.

Lemma nonskip_take_le i l : (nonskip (take i l) ≤ nonskip l)%nat.
Proof.
  revert i. induction l as [|a l IH]; intros [|i]; simpl; unfold nonskip in *; simpl; try lia.
  specialize (IH i). destruct (negb (skipped a)); simpl; lia.
Qed.

Lemma runs_before_snoc i l e :
  (i ≤ length l)%nat → runs_before i (l ++ [e]) = runs_before i l.
Proof. intros H. rewrite !runs_before_nonskip. by rewrite take_app_le. Qed.

Lemma runs_before_all l : runs_before (length l) l = nonskip l.
Proof. rewrite runs_before_nonskip. by rewrite firstn_all. Qed.

Lemma run_steps_trace scripts w0 :
  let sum := fst (run_steps E scripts ([], w0)) in
  let w := snd (run_steps E scripts ([], w0)) in
  map script sum = map se_script scripts ∧
  map fst (launched w) =
    map fst (launched w0) ++
    flat_map (λ e, if skipped e then [] else [command_of E e]) sum ∧
  length (launched w) = (length (launched w0) + nonskip sum)%nat ∧
  ∀ i e, sum !! i = Some e → entry_ok E (length (launched w0)) sum (launched w) i e.
Proof.
  induction scripts as [|s scripts IH] using rev_ind; simpl.
  { repeat split; try done. by rewrite app_nil_r. }
  rewrite run_steps_snoc.
  destruct (run_steps E scripts ([], w0)) as [sum w] eqn:Hrun. simpl in IH.
  destruct IH as (IH1 & IH2 & IH3 & IH4).
  assert (Hold : ∀ L' x, ∀ i e, sum !! i = Some e →
            entry_ok E (length (launched w0)) (sum ++ [x]) (launched w ++ L') i e).
  { intros L' x i e Hi. specialize (IH4 i e Hi).
    assert (Hlt : (i < length sum)%nat) by (eapply lookup_lt_Some; eauto).
    unfold entry_ok in *. rewrite runs_before_snoc by lia.
    pose proof (nonskip_take_le i sum) as Hle. rewrite <- runs_before_nonskip in Hle.
    rewrite take_app_le by lia.
    destruct IH4 as [Ha Hb]. split; [exact Ha|].
    intros Hs. destruct (Hb Hs) as (r & inp & H1 & H2 & H3 & H4).
    exists r, inp. repeat split; try done.
    rewrite lookup_app_l; [done|]. eapply lookup_lt_Some; eauto. }
  destruct (isfile E (launched w) (PyPath.join (repo_root E) (se_script s))) eqn:Hf.
  - rewrite run_step_ran by done. simpl.
    pose proof (run_script_spec (python_exe E) (PyPath.join (repo_root E) (se_script s))
                  (se_args s) (input_of s) w) as Hspec. simpl in Hspec.
    destruct (run_script E _ _ _ _ w) as [r w1] eqn:Hr. simpl in *.
    destruct Hspec as (Ht & Hl & Hfi & Hc & _ & _ & _ & _ & _ & Hrec).
    unfold write_report, now, write_file; simpl.
    rewrite Hl.
    split; [|split; [|split]].
    + rewrite !List.map_app. simpl. by rewrite IH1.
    + rewrite List.map_app, IH2, flat_map_app. simpl. by rewrite <- app_assoc.
    + rewrite length_app, nonskip_snoc. simpl. lia.
    + intros j e Hi. apply lookup_app_Some in Hi as [Hi | [Hlen Hi]].
      * by apply Hold.
      * apply list_lookup_singleton_Some in Hi as [Hi <-].
        assert (j = length sum) as -> by lia.
        unfold entry_ok. rewrite runs_before_snoc, runs_before_all, <- IH3 by lia.
        rewrite take_app_length. simpl. rewrite Hf. split; [done|].
        intros _. eexists r, _. repeat split; try done.
        apply list_lookup_middle. done.
  - rewrite run_step_skipped by done. simpl.
    split; [|split; [|split]].
    + rewrite !List.map_app. simpl. by rewrite IH1.
    + rewrite IH2, flat_map_app. simpl. by rewrite app_nil_r.
    + rewrite nonskip_snoc. simpl. lia.
    + intros j e Hi. apply lookup_app_Some in Hi as [Hi | [Hlen Hi]].
      * specialize (Hold [] (entry_of s true None None) j e Hi).
        by rewrite app_nil_r in Hold.
      * apply list_lookup_singleton_Some in Hi as [Hi <-].
        assert (j = length sum) as -> by lia.
        unfold entry_ok. rewrite runs_before_snoc, runs_before_all, <- IH3 by lia.
        rewrite firstn_all. simpl. rewrite Hf. split; [done|]. discriminate.
Qed.





(** The clock reads behind the two times of each result: a step that
    runs reads the clock three times (start, end, and the date of the
    report). *)
Lemma run_steps_ticks scripts w0 :
  let sum := fst (run_steps E scripts ([], w0)) in
  let w := snd (run_steps E scripts ([], w0)) in
  ticks w = (ticks w0 + 3 * nonskip sum)%nat ∧
  ∀ i e r, sum !! i = Some e → step_result e = Some r →
    skipped e = false ∧
    start_time r = clock E (ticks w0 + 3 * runs_before i sum) ∧
    end_time r = clock E (S (ticks w0 + 3 * runs_before i sum)) ∧
    started_at r = isoformat E (start_time r) ∧
    ended_at r = isoformat E (end_time r).
Proof.
  induction scripts as [|s scripts IH] using rev_ind; simpl.
  { split; [lia|done]. }
  rewrite run_steps_snoc.
  destruct (run_steps E scripts ([], w0)) as [sum w] eqn:Hrun. simpl in IH.
  destruct IH as (IH1 & IH2).
  assert (Hold : ∀ x i e r, sum !! i = Some e → step_result e = Some r →
    skipped e = false ∧
    start_time r = clock E (ticks w0 + 3 * runs_before i (sum ++ [x])) ∧
    end_time r = clock E (S (ticks w0 + 3 * runs_before i (sum ++ [x]))) ∧
    started_at r = isoformat E (start_time r) ∧
    ended_at r = isoformat E (end_time r)).
  { intros x i e r Hi Hr.
    assert (Hlt : (i < length sum)%nat) by (eapply lookup_lt_Some; eauto).
    rewrite runs_before_snoc by lia. by apply IH2. }
  destruct (isfile E (launched w) (PyPath.join (repo_root E) (se_script s))) eqn:Hf.
  - rewrite run_step_ran by done. simpl.
    pose proof (run_script_spec (python_exe E) (PyPath.join (repo_root E) (se_script s))
                  (se_args s) (input_of s) w) as Hspec. simpl in Hspec.
    destruct (run_script E _ _ _ _ w) as [r w1] eqn:Hr. simpl in *.
    destruct Hspec as (Ht & _ & _ & _ & Hs & He & Hsa & Hea & _ & _).
    unfold write_report, now, write_file; simpl.
    split.
    + rewrite nonskip_snoc. simpl. lia.
    + intros j e r' Hj Hr'. apply lookup_app_Some in Hj as [Hj | [Hlen Hj]].
      * by apply Hold.
      * apply list_lookup_singleton_Some in Hj as [Hj <-].
        assert (j = length sum) as -> by lia.
        simpl in Hr'. injection Hr' as <-.
        rewrite runs_before_snoc, runs_before_all by lia.
        rewrite <- IH1. done.
  - rewrite run_step_skipped by done. simpl. split.
    + rewrite nonskip_snoc. simpl. lia.
    + intros j e r' Hj Hr'. apply lookup_app_Some in Hj as [Hj | [Hlen Hj]].
      * by apply Hold.
      * apply list_lookup_singleton_Some in Hj as [Hj <-]. discriminate.
Qed.

Lemma main_with_summary scripts w :
  fst (main_with E scripts w) = fst (run_steps E scripts ([], snd (now E w))).
Proof.
  unfold main_with. destruct (now E w) as [t0 w0]. simpl.
  destruct (run_steps E scripts ([], w0)) as [sum w1]. simpl.
  destruct (now E w1). reflexivity.
Qed.







Lemma join_relative a b :
  startswith "/" b = false →
  PyPath.join a b = a +:+ (if String.eqb a "" || endswith "/" a then "" else "/") +:+ b.
Proof.
  intros H. unfold PyPath.join. rewrite H.
  destruct (String.eqb a "" || endswith "/" a); reflexivity.
Qed.

Lemma log_paths_of_scripts :
  map (log_path_of E) SCRIPTS =
  map (λ x, logs_dir E +:+
            (if String.eqb (logs_dir E) "" || endswith "/" (logs_dir E) then "" else "/")
            +:+ x) log_names.
Proof.
  unfold log_names. rewrite List.map_map. apply map_ext_in.
  intros s Hs. unfold log_path_of. apply join_relative.
  repeat (destruct Hs as [<- | Hs]; [reflexivity|]). destruct Hs.
Qed.


Lemma logs_dir_relative :
  logs_dir E = repo_root E +:+
    (if String.eqb (repo_root E) "" || endswith "/" (repo_root E) then "" else "/") +:+ "logs".
Proof. unfold logs_dir. by apply join_relative. Qed.

Lemma report_path_relative :
  report_path E = repo_root E +:+
    (if String.eqb (repo_root E) "" || endswith "/" (repo_root E) then "" else "/")
    +:+ "pipeline_report.txt".
Proof. unfold report_path. by apply join_relative. Qed.

Lemma scripts_log_paths_not_report s :
  s ∈ SCRIPTS → log_path_of E s ≠ report_path E.
Proof.
  intros Hs.
  assert (Hin : log_path_of E s ∈ map (log_path_of E) SCRIPTS).
  { apply list_elem_of_fmap. by exists s. }
  rewrite log_paths_of_scripts in Hin.
  apply list_elem_of_fmap in Hin as (x & -> & _).
  rewrite logs_dir_relative, report_path_relative.
  rewrite !str_app_assoc. intros H. apply String.app_inj in H.
  destruct (String.eqb (repo_root E) "" || endswith "/" (repo_root E));
    discriminate H.
Qed.

End pipeline_facts.

Section pipeline_claims.
Import PyStr run_full_pipeline Terms Examples.



Lemma main_with_files E scripts w :
  let w1 := snd (run_steps E scripts ([], snd (now E w))) in
  let sum := fst (run_steps E scripts ([], snd (now E w))) in
  ∃ final,
    files (snd (main_with E scripts w)) =
    <[report_path E := default "" (files w1 !! report_path E) +:+ final]> (files w1).
Proof.
  unfold main_with. destruct (now E w) as [t0 w0] eqn:H0. simpl.
  destruct (run_steps E scripts ([], w0)) as [sum w1]. simpl.
  unfold now, append_file. simpl. eexists. reflexivity.
Qed.




End pipeline_claims.

(** ** delete_post_files.py *)

Section delete_facts.
Import PyStr PyPath Fs delete_post_files Terms Examples.

Lemma walk_sound t root_path root dirs files f :
  wf t → (root, dirs, files) ∈ walk t root_path → f ∈ files →
  ∃ rel c, root = root_path ++ rel ∧ lookup t (root ++ [f]) = Some (File c).
Proof.
  intros Hwf Hin Hf. unfold walk in Hin.
  destruct (lookup t root_path) as [n|] eqn:Hn; [|by apply elem_of_nil in Hin].
  destruct (walk_node_sound n root_path root dirs files f (wf_lookup _ _ _ Hwf Hn) Hin Hf)
    as (rel & c & -> & Hl).
  exists rel, c. split; [done|]. by rewrite <- app_assoc, fs_lookup_app, Hn.
Qed.

Lemma walk_complete t root_path rel f c :
  lookup t (root_path ++ rel ++ [f]) = Some (File c) →
  ∃ dirs files, (root_path ++ rel, dirs, files) ∈ walk t root_path ∧ f ∈ files.
Proof.
  intros Hl. rewrite fs_lookup_app in Hl. unfold walk.
  destruct (lookup t root_path) as [n|]; [|done].
  by apply walk_node_complete with (c := c).
Qed.

Lemma find_post_files_spec t root_path q :
  wf t → q ∈ find_post_files t root_path ↔ post_file t root_path q.
Proof.
  intros Hwf. unfold find_post_files, post_file. rewrite elem_of_flat_map. split.
  - intros ([[root dirs] files] & Hin & Hq).
    apply list_elem_of_fmap in Hq as (f & -> & Hf).
    apply list_elem_of_In, filter_In in Hf as [Hf Hp]. apply list_elem_of_In in Hf.
    destruct (walk_sound t root_path root dirs files f Hwf Hin Hf) as (rel & c & -> & Hl).
    exists rel, f, c. by rewrite <- app_assoc in *.
  - intros (rel & name & c & -> & Hl & Hp).
    destruct (walk_complete t root_path rel name c Hl) as (dirs & files & Hin & Hf).
    exists (root_path ++ rel, dirs, files). split; [done|].
    apply list_elem_of_fmap. exists name. split; [by rewrite <- app_assoc|].
    apply list_elem_of_In, filter_In. split; [by apply list_elem_of_In|done].
Qed.

(** One round of the loop removes the file of its item when the
    operating system lets it, and touches no other file. *)
Lemma step_files remove_error p st q d :
  p ≠ [] →
  lookup (fs (step remove_error false p st)) q = Some (File d) ↔
  lookup (fs st) q = Some (File d) ∧ ¬ (q = p ∧ remove_error q = None).
Proof.
  intros Hnil. unfold step, os_remove, exists_.
  destruct (lookup (fs st) p) as [n|] eqn:Hp; simpl.
  - destruct (remove_error p) as [e|] eqn:He; simpl.
    + split; [|tauto]. intros H. split; [done|]. intros [-> Hq]. congruence.
    + destruct (remove p (fs st)) as [t'|] eqn:Hr; simpl.
      * destruct (remove_spec _ _ _ Hr) as [Hgone Hother].
        destruct (decide (q = p)) as [->|Hne].
        -- rewrite Hgone. split; [done|]. intros [_ Hn]. by destruct Hn.
        -- rewrite (Hother q d Hne). split; [|tauto]. intros H. split; [done|]. tauto.
      * split; [|tauto]. intros H. split; [done|]. intros [-> _].
        unfold remove, is_file in Hr. rewrite H in Hr.
        destruct (update_defined p None (fs st) (File d)) as [t' Ht']; [done|done|congruence].
  - split; [|tauto]. intros H. split; [done|]. intros [-> _]. congruence.
Qed.

Lemma loop_files remove_error items st q d :
  Forall (λ p, p ≠ []) items →
  lookup (fs (loop remove_error false items st)) q = Some (File d) ↔
  lookup (fs st) q = Some (File d) ∧ ¬ (q ∈ items ∧ remove_error q = None).
Proof.
  unfold loop. revert st. induction items as [|p items IH]; intros st Hne; cbn [fold_left].
  - split; [|tauto]. intros H. split; [done|]. intros [Hq _]. by apply elem_of_nil in Hq.
  - apply Forall_cons in Hne as [Hp Hne]. rewrite (IH _ Hne).
    rewrite (step_files _ _ _ _ _ Hp). rewrite elem_of_cons. tauto.
Qed.

Lemma find_post_files_nonempty t root_path :
  Forall (λ p, p ≠ []) (find_post_files t root_path).
Proof.
  apply Forall_forall. intros p Hp. unfold find_post_files in Hp.
  apply elem_of_flat_map in Hp as ([[root dirs] files] & _ & Hq).
  apply list_elem_of_fmap in Hq as (f & -> & _). by destruct root.
Qed.

Lemma delete_post_files_loop remove_error t root_path dry_run :
  delete_post_files remove_error t root_path dry_run =
  loop remove_error dry_run (find_post_files t root_path) (State t 0 0 [] []).
Proof. unfold delete_post_files. by destruct (find_post_files t root_path). Qed.

End delete_facts.

Section delete_claims.
Import PyStr PyPath Fs delete_post_files Terms Examples.

(** C6, amended.  In a tree where no directory lists a name twice,
    [find_post_files] returns exactly the files under the root whose name
    contains "__post"; [delete_post_files] with [dry_run=False] removes
    exactly those of them whose removal the operating system does not
    refuse, and leaves every other file as it was. *)
Theorem delete_post_files_removes_listed_unless_refused
    (remove_error : path → option string) (t : node) (root_path : path) :
  wf t →
  (∀ q, q ∈ find_post_files t root_path ↔ post_file t root_path q) ∧
  ∀ q d,
    lookup (fs (delete_post_files remove_error t root_path false)) q = Some (File d) ↔
    lookup t q = Some (File d) ∧
    ¬ (q ∈ find_post_files t root_path ∧ remove_error q = None).
Proof.
  intros Hwf. split.
  - intros q. by apply find_post_files_spec.
  - intros q d. rewrite delete_post_files_loop.
    apply (loop_files remove_error _ (State t 0 0 [] [])).
    apply find_post_files_nonempty.
Qed.

Lemma delete_post_files_witness :
  wf posts_tree ∧
  ∀ q d,
    lookup (fs (delete_post_files allow_all posts_tree ["PNG_Files"] false)) q
      = Some (File d) ↔
    lookup posts_tree q = Some (File d) ∧
    ¬ (q ∈ find_post_files posts_tree ["PNG_Files"] ∧ allow_all q = None).
Proof.
  split; [reflexivity|].
  exact (proj2 (delete_post_files_removes_listed_unless_refused
                  allow_all posts_tree ["PNG_Files"] eq_refl)).
Defined.

(** C6 as stated fails: a listed file that exists is still there after
    [delete_post_files] with [dry_run=False] when the operating system
    refuses its removal. *)
Lemma delete_post_files_leaves_refused_file :
  ["PNG_Files"; "240911_CRC"; "scan__post.png"] ∈ find_post_files posts_tree ["PNG_Files"] ∧
  lookup posts_tree ["PNG_Files"; "240911_CRC"; "scan__post.png"]
    = Some (File (Text "p")) ∧
  lookup (fs (delete_post_files refuse_all posts_tree ["PNG_Files"] false))
         ["PNG_Files"; "240911_CRC"; "scan__post.png"]
    = Some (File (Text "p")).
Proof.
  split; [|split; reflexivity].
  apply list_elem_of_In. vm_compute. auto.
Qed.

End delete_claims.

(** ** convert_tif_to_png.py *)

Section convert_facts.
Import PyStr PyPath Fs convert_tif_to_png Terms Examples.

Lemma save_spec L img p t t' :
  save L img p t = inl t' →
  read t' p = Some (Picture (Img.Image "PNG" (Img.mode img) (Img.width img)
                                       (Img.height img) (Img.data img))).
Proof.
  unfold save. destruct (save_error L p img); [done|].
  destruct (write p _ t) as [t1|] eqn:Hw; [|done]. intros [= <-].
  apply read_Some. by apply write_spec in Hw as [Hw _].
Qed.

Lemma wf_map_map (f : Img.pixel → Img.pixel) (rows : list (list Img.pixel)) h w :
  length rows = h ∧ Forall (λ row, length row = w) rows →
  length (map (map f) rows) = h ∧ Forall (λ row, length row = w) (map (map f) rows).
Proof.
  intros [H1 H2]. split; [by rewrite length_map|].
  apply Forall_forall. intros row Hrow.
  apply list_elem_of_fmap in Hrow as (row0 & -> & Hrow0).
  rewrite length_map. rewrite Forall_forall in H2. by apply H2.
Qed.

(** C5.  When [convert_tif_to_png] returns [True], the source is an
    image, the output path holds a PNG of the same width and height, and
    the data of the PNG has that shape when the data of the source has
    it. *)
Theorem convert_tif_to_png_keeps_dimensions (L : library) (tif_path png_path : path)
    (t t' : node) (msg : option string) :
  convert_tif_to_png L tif_path png_path t = (true, t', msg) →
  ∃ src out,
    read t tif_path = Some (Picture src) ∧
    read t' png_path = Some (Picture out) ∧
    Img.format out = "PNG" ∧
    Img.width out = Img.width src ∧
    Img.height out = Img.height src ∧
    (Img.wf src → Img.wf out).
Proof.
  unfold convert_tif_to_png, open.
  destruct (read t tif_path) as [[s|src]|] eqn:Hsrc; [done| |done].
  intros H. exists src.
  assert (Hsave : ∀ img,
    match save L img png_path t with
    | inl t'0 => (true, t'0, None)
    | inr e => (false, t, Some ("Error converting " +:+ show tif_path +:+ ": " +:+ e))
    end = (true, t', msg) →
    Img.width img = Img.width src → Img.height img = Img.height src →
    (Img.wf src → Img.wf img) →
    ∃ out, Some (Picture src) = Some (Picture src) ∧
           read t' png_path = Some (Picture out) ∧ Img.format out = "PNG" ∧
           Img.width out = Img.width src ∧ Img.height out = Img.height src ∧
           (Img.wf src → Img.wf out)).
  { intros img Hs Hw Hh Hwf. destruct (save L img png_path t) as [t1|e] eqn:Hsv; [|done].
    injection Hs as <- <-. apply save_spec in Hsv.
    eexists. split; [done|]. split; [exact Hsv|]. simpl.
    split; [done|]. split; [done|]. split; [done|].
    intros Hsrcwf. specialize (Hwf Hsrcwf). unfold Img.wf in *. simpl. done. }
  destruct (String.eqb (Img.mode src) "F").
  - apply Hsave in H; [done| | |].
    + by destruct (0 <? array_size (np_array src))%nat.
    + by destruct (0 <? array_size (np_array src))%nat.
    + intros Hwf. destruct (0 <? array_size (np_array src))%nat; unfold Img.wf in *; simpl;
        by apply wf_map_map.
  - destruct (mem (Img.mode src) ["RGBA"; "LA"; "P"]).
    + by apply Hsave in H.
    + destruct (String.eqb (Img.mode src) "P").
      * apply Hsave in H; [done|done|done|].
        intros Hwf. unfold Img.wf in *; simpl. by apply wf_map_map.
      * apply Hsave in H; [done|done|done|].
        intros Hwf. unfold Img.wf in *; simpl. by apply wf_map_map.
Qed.

Lemma convert_tif_to_png_witness :
  convert_tif_to_png plain_library ["Convert raw data"; "scan.tif"]
                     ["Convert raw data"; "scan.png"] scans_tree
    = (true, scans_tree_converted, None) ∧
  ∃ src out,
    read scans_tree ["Convert raw data"; "scan.tif"] = Some (Picture src) ∧
    read scans_tree_converted ["Convert raw data"; "scan.png"] = Some (Picture out) ∧
    Img.format out = "PNG" ∧
    Img.width out = Img.width src ∧
    Img.height out = Img.height src ∧
    (Img.wf src → Img.wf out).
Proof.
  split; [reflexivity|].
  apply (convert_tif_to_png_keeps_dimensions plain_library
           ["Convert raw data"; "scan.tif"] ["Convert raw data"; "scan.png"]
           scans_tree scans_tree_converted None).
  reflexivity.
Defined.

End convert_facts.

(** ** The loops of the batch scripts *)

Section batch_facts.
Import PyStr PyPath Fs Terms Examples.




Lemma convert_all_loop L t root_path d :
  convert_tif_to_png.convert_all_tif_to_png L t root_path d =
  convert_tif_to_png.loop L d (convert_tif_to_png.find_tif_files t root_path)
                          (convert_tif_to_png.State t 0 0 [] []).
Proof.
  unfold convert_tif_to_png.convert_all_tif_to_png.
  by destruct (convert_tif_to_png.find_tif_files t root_path).
Qed.




End batch_facts.

Section batch_claims.
Import PyStr PyPath Fs Terms Examples.



(** The removal of the original is outside this count: with
    [delete_original] set, when the conversion succeeds and [os.remove]
    raises, the inner handler prints a warning, the item counts as a
    success, no message is recorded and the TIFF stays. *)
Example convert_step_warns_on_refused_removal :
  let scan := ["Convert raw data"; "scan.tif"] in
  let s := convert_tif_to_png.step plain_library true scan
             (convert_tif_to_png.State scans_tree 0 0 [] []) in
  convert_tif_to_png.success_count s = 1%nat ∧
  convert_tif_to_png.error_count s = 0%nat ∧
  convert_tif_to_png.errors s = [] ∧
  is_file (convert_tif_to_png.fs s) scan = true ∧
  ∃ e, List.last (convert_tif_to_png.out s)
                 (convert_tif_to_png.ConvertFailed "")
       = convert_tif_to_png.DeleteWarning scan e.
Proof. cbv zeta. repeat split. eexists. vm_compute. reflexivity. Qed.

End batch_claims.

(** ** flatten_crc_structure.py *)

Section flatten_facts.
Import PyStr PyPath Fs flatten_crc_structure Terms Examples.

Lemma numbered_inj original k k' : numbered original k = numbered original k' → k = k'.
Proof.
  unfold numbered. intros H.
  apply String.app_inj in H. apply String.app_inj in H.
  apply str_app_inv_tail in H. by apply (inj pretty) in H.
Qed.

Lemma exists_in_dir t dir name :
  exists_ t (dir ++ [name]) = true →
  ∃ es, lookup t dir = Some (Dir es) ∧ name ∈ map fst es.
Proof.
  unfold exists_. rewrite fs_lookup_app.
  destruct (lookup t dir) as [[c|es]|]; [done| |done]. simpl.
  destruct (assoc name es) as [n|] eqn:Ha; [|done]. intros _.
  exists es. split; [done|]. apply list_elem_of_fmap. exists (name, n).
  split; [done|]. by apply assoc_Some_elem.
Qed.

(** A path that the search returns does not exist. *)
Lemma unique_target_free fuel t target_dir original cur counter target :
  unique_target fuel t target_dir original cur counter = Some target →
  exists_ t target = false.
Proof.
  revert cur counter. induction fuel as [|fuel IH]; intros cur counter; simpl.
  - destruct (exists_ t cur) eqn:He; [done|]. by intros [= <-].
  - destruct (exists_ t cur) eqn:He; [apply IH|]. by intros [= <-].
Qed.

(** The search ends when one of the names it can reach is free. *)
Lemma unique_target_found fuel t target_dir original cur counter k :
  (counter ≤ k < counter + fuel)%nat →
  exists_ t (target_dir ++ [numbered original k]) = false →
  ∃ target, unique_target fuel t target_dir original cur counter = Some target.
Proof.
  revert cur counter. induction fuel as [|fuel IH]; intros cur counter Hk Hfree; [lia|].
  simpl. destruct (exists_ t cur) eqn:He; [|eauto].
  destruct (decide (k = counter)) as [->|Hne].
  - destruct fuel; simpl; rewrite Hfree; eauto.
  - apply IH; [lia|done].
Qed.

Lemma forallb_false_ex {A} (P : A → bool) (l : list A) :
  forallb P l = false → ∃ x, x ∈ l ∧ P x = false.
Proof.
  induction l as [|a l IH]; simpl; [done|].
  destruct (P a) eqn:Ha; simpl.
  - intros H. destruct (IH H) as (x & Hx & Hp). exists x. split; [by right|done].
  - intros _. exists a. split; [by left|done].
Qed.

(** Among the first names, one more than the directory has entries, one
    is free. *)
Lemma numbered_free t target_dir original :
  ∃ k, (1 ≤ k < 1 + S (dir_size t target_dir))%nat ∧
       exists_ t (target_dir ++ [numbered original k]) = false.
Proof.
  set (n := dir_size t target_dir).
  destruct (forallb (λ k, exists_ t (target_dir ++ [numbered original k])) (seq 1 (S n)))
    eqn:Hall.
  - exfalso. rewrite forallb_forall in Hall.
    assert (H1 : exists_ t (target_dir ++ [numbered original 1]) = true).
    { apply Hall. apply in_seq. lia. }
    destruct (exists_in_dir _ _ _ H1) as (es & Hdir & _).
    assert (Hn : n = length es) by (unfold n, dir_size; by rewrite Hdir).
    assert (Hincl : incl (map (numbered original) (seq 1 (S n))) (map fst es)).
    { intros x Hx. apply in_map_iff in Hx as (k & <- & Hk).
      destruct (exists_in_dir _ _ _ (Hall k Hk)) as (es' & Hdir' & Hin).
      rewrite Hdir in Hdir'. injection Hdir' as <-. by apply list_elem_of_In. }
    assert (Hnd : List.NoDup (map (numbered original) (seq 1 (S n)))).
    { apply NoDup_ListNoDup, NoDup_fmap_2; [|apply NoDup_seq].
      intros k k'. apply numbered_inj. }
    pose proof (NoDup_incl_length Hnd Hincl) as Hlen.
    rewrite !length_map, length_seq in Hlen. lia.
  - apply forallb_false_ex in Hall as (k & Hk & Hfree).
    exists k. split; [|done]. apply list_elem_of_In, in_seq in Hk. lia.
Qed.

Lemma unique_target_total t target_dir file :
  ∃ target,
    unique_target (S (dir_size t target_dir)) t target_dir file (target_dir ++ [file]) 1
      = Some target ∧
    exists_ t target = false.
Proof.
  destruct (numbered_free t target_dir file) as (k & Hk & Hfree).
  destruct (unique_target_found (S (dir_size t target_dir)) t target_dir file
              (target_dir ++ [file]) 1 k Hk Hfree) as [target Ht].
  exists target. split; [done|]. by apply unique_target_free in Ht.
Qed.

Lemma exists_of_lookup t q n : lookup t q = Some n → exists_ t q = true.
Proof. unfold exists_. by intros ->. Qed.

(** A move onto a path that does not exist keeps every file but the one
    it moves. *)
Lemma shutil_move_keeps move_error src dst t t' q d :
  shutil_move move_error src dst t = Some t' →
  exists_ t dst = false →
  q ≠ src →
  lookup t q = Some (File d) → lookup t' q = Some (File d).
Proof.
  unfold shutil_move. intros H Hfree Hq Hl.
  destruct (move_error src dst); [done|].
  destruct (read t src) as [c|]; [|done].
  assert (Hnd : is_dir t dst = false).
  { unfold is_dir, exists_ in *. by destruct (lookup t dst). }
  rewrite Hnd in H. simpl in H.
  destruct (bool_decide (src = dst)); [by injection H as <-|].
  destruct (write dst c t) as [t1|] eqn:Hw; [|done].
  destruct (write_spec _ _ _ _ Hw) as [_ Hw'].
  destruct (remove_spec _ _ _ H) as [_ Hr'].
  apply Hr'; [done|]. apply Hw'; [|done].
  intros ->. apply exists_of_lookup in Hl. congruence.
Qed.

Lemma move_one_keeps move_error root_path target_dir file st q d :
  q ≠ root_path ++ [file] →
  lookup (fs st) q = Some (File d) →
  lookup (fs (move_one move_error root_path target_dir file st)) q = Some (File d).
Proof.
  intros Hq Hl. unfold move_one.
  destruct (endswith ".png" (lower file)); [|done].
  destruct (unique_target _ _ _ _ _ _) as [target|] eqn:Ht; [|done].
  apply unique_target_free in Ht.
  destruct (shutil_move _ _ _ _) as [t'|] eqn:Hm; simpl; [|done].
  by apply (shutil_move_keeps _ _ _ _ _ _ _ Hm).
Qed.

Lemma move_all_keeps move_error root_path target_dir files st q d :
  (∀ file, q ≠ root_path ++ [file]) →
  lookup (fs st) q = Some (File d) →
  lookup (fs (fold_left (λ st file, move_one move_error root_path target_dir file st)
                        files st)) q = Some (File d).
Proof.
  intros Hq. revert st. induction files as [|file files IH]; intros st Hl; [done|].
  cbn [fold_left]. apply IH. by apply move_one_keeps.
Qed.

Lemma relative_to_Some p base parts :
  relative_to p base = Some parts → p = base ++ parts.
Proof.
  revert p. induction base as [|b base IH]; intros p H.
  - destruct p; simpl in H; injection H as <-; reflexivity.
  - destruct p as [|c p]; simpl in H; [done|].
    destruct (String.eqb_spec b c) as [->|]; [|done]. simpl. f_equal. by apply IH.
Qed.

(** Files less than four levels below [base_dir] are never sources of a
    move, and no move replaces them. *)
Lemma visit_keeps move_error base_dir entry st q d :
  (length q < length base_dir + 4)%nat →
  lookup (fs st) q = Some (File d) →
  lookup (fs (match visit move_error base_dir entry st with
              | inl st' => st' | inr st' => st' end)) q = Some (File d).
Proof.
  intros Hlen Hl. destruct entry as [[root_path dirs] files]. unfold visit.
  destruct (bool_decide (root_path = base_dir)); [done|].
  destruct (relative_to root_path base_dir) as [parts|] eqn:Hrel; [|done].
  apply relative_to_Some in Hrel as ->.
  destruct parts as [|p0 [|p1 [|p2 rest]]]; try done.
  destruct (String.eqb p0 p1 && String.eqb p2 "images"); [|done].
  destruct (mkdir_p (base_dir ++ [p0]) (fs st)) as [t1|] eqn:Hm; [|done].
  apply move_all_keeps.
  - intros file ->. rewrite !length_app in Hlen. simpl in Hlen. lia.
  - simpl. by apply (mkdir_p_files _ _ _ _ _ Hm).
Qed.

Lemma visit_all_keeps move_error base_dir entries st q d :
  (length q < length base_dir + 4)%nat →
  lookup (fs st) q = Some (File d) →
  lookup (final_fs (visit_all move_error base_dir entries st)) q = Some (File d).
Proof.
  intros Hlen. revert st. induction entries as [|e entries IH]; intros st Hl; [done|].
  simpl. pose proof (visit_keeps move_error base_dir e st q d Hlen Hl) as H.
  destruct (visit move_error base_dir e st) as [st'|st']; [by apply IH|done].
Qed.

Lemma cleanup_one_files rmdir_error base_dir entry t q d :
  lookup (cleanup_one rmdir_error base_dir entry t) q = Some (File d) ↔
  lookup t q = Some (File d).
Proof.
  destruct entry as [[root_path dirs] files]. unfold cleanup_one.
  destruct (bool_decide (root_path = base_dir)); [done|].
  destruct (lookup t root_path) as [[c|[|e es]]|]; try done.
  destruct (rmdir_error root_path); [done|].
  destruct (rmdir root_path t) as [t'|] eqn:Hr; [|done].
  by apply rmdir_files with (p := root_path).
Qed.

Lemma cleanup_empty_dirs_files rmdir_error t base_dir q d :
  lookup (cleanup_empty_dirs rmdir_error t base_dir) q = Some (File d) ↔
  lookup t q = Some (File d).
Proof.
  unfold cleanup_empty_dirs. generalize (walk_up t base_dir). intros entries.
  revert t. induction entries as [|e entries IH]; intros t; [done|].
  cbn [fold_left]. rewrite IH. apply cleanup_one_files.
Qed.

Lemma flatten_directory_keeps move_error t base_dir q d :
  (length q < length base_dir + 4)%nat →
  lookup t q = Some (File d) →
  lookup (final_fs (flatten_directory move_error t base_dir)) q = Some (File d).
Proof. intros Hlen Hl. unfold flatten_directory. by apply visit_all_keeps. Qed.

End flatten_facts.

Section flatten_claims.
Import PyStr PyPath Fs flatten_crc_structure Terms Examples.

(** C10.  The search for a target name ends, on a path that does not
    exist; every file that a directory right under [base_dir] (the
    destination of the moves) holds before [flatten_directory] is still
    there afterwards with the same content, whether the run finishes or
    stops at an exception; and so it is after the whole script, for the
    directories right under [Processed/healthy] and [Processed/tumour]. *)
Theorem flatten_directory_never_overwrites
    (move_error : path → path → bool) (rmdir_error : path → bool)
    (t : node) (base_dir : path) :
  (∀ t1 target_dir file,
     ∃ target,
       unique_target (S (dir_size t1 target_dir)) t1 target_dir file
                     (target_dir ++ [file]) 1 = Some target ∧
       exists_ t1 target = false) ∧
  (∀ crc_name file d,
     lookup t (base_dir ++ [crc_name; file]) = Some (File d) →
     lookup (final_fs (flatten_directory move_error t base_dir))
            (base_dir ++ [crc_name; file]) = Some (File d)) ∧
  (∀ category crc_name file d,
     category ∈ ["healthy"; "tumour"] →
     lookup t (processed_dir ++ [category; crc_name; file]) = Some (File d) →
     lookup (flatten_crc_structure move_error rmdir_error t)
            (processed_dir ++ [category; crc_name; file]) = Some (File d)).
Proof.
  split; [intros; apply unique_target_total|]. split.
  - intros crc_name file d Hl.
    apply flatten_directory_keeps; [|done]. rewrite length_app. simpl. lia.
  - intros category crc_name file d _ Hl. unfold flatten_crc_structure.
    destruct (negb (exists_ t processed_dir)); [done|].
    set (q := processed_dir ++ [category; crc_name; file]) in *.
    assert (Hq : ∀ c, (length q < length (processed_dir ++ [c]) + 4)%nat)
      by (intros c; simpl; lia).
    pose proof (flatten_directory_keeps move_error t healthy_dir q d
                  (Hq "healthy") Hl) as H1.
    destruct (flatten_directory move_error t healthy_dir) as [st1|st1];
      [|exact H1].
    pose proof (flatten_directory_keeps move_error (fs st1) tumour_dir q d
                  (Hq "tumour") H1) as H2.
    destruct (flatten_directory move_error (fs st1) tumour_dir) as [st2|st2];
      [|exact H2].
    by rewrite !cleanup_empty_dirs_files.
Qed.

Lemma flatten_directory_witness :
  lookup nested_tree (["Processed"; "healthy"] ++ ["240911_CRC"; "a.png"])
    = Some (File (Text "old")) ∧
  lookup (final_fs (flatten_directory never nested_tree ["Processed"; "healthy"]))
         (["Processed"; "healthy"] ++ ["240911_CRC"; "a.png"])
    = Some (File (Text "old")).
Proof.
  split; [reflexivity|].
  exact (proj1 (proj2 (flatten_directory_never_overwrites never (λ _, false) nested_tree
                         ["Processed"; "healthy"]))
               "240911_CRC" "a.png" (Text "old") eq_refl).
Defined.

(** The file that was moved went to the first numbered name. *)
Example flatten_directory_numbers_the_newcomer :
  lookup (final_fs (flatten_directory never nested_tree ["Processed"; "healthy"]))
         ["Processed"; "healthy"; "240911_CRC"; "a_1.png"]
    = Some (File (Text "new")).
Proof. reflexivity. Qed.

End flatten_claims.

(** ** Images *)

Section image_facts.
Import Img.

Lemma map_nth_seq {A} (l : list A) (d : A) :
  map (λ k, nth k l d) (seq 0 (length l)) = l.
Proof.
  induction l as [|a l IH]; [done|].
  cbn [length seq map nth]. f_equal.
  rewrite <- seq_shift, List.map_map. exact IH.
Qed.

Lemma nth_map_seq {A} (f : nat → A) (n k : nat) (d : A) :
  (k < n)%nat → nth k (map f (seq 0 n)) d = f k.
Proof.
  intros Hk. rewrite nth_lookup, list_lookup_fmap, lookup_seq_lt by done. done.
Qed.

(** The data of a well-formed image is the table of its pixels. *)
Lemma data_table (i : image) :
  wf i →
  data i = map (λ y, map (λ x, get i x y) (seq 0 (width i))) (seq 0 (height i)).
Proof.
  intros [Hh Hw]. rewrite <- (map_nth_seq (data i) []) at 1. rewrite Hh.
  apply map_ext_in. intros y Hy. apply in_seq in Hy.
  assert (Hrow : length (nth y (data i) []) = width i).
  { rewrite Forall_forall in Hw. apply Hw. apply list_elem_of_In, nth_In. lia. }
  rewrite <- (map_nth_seq (nth y (data i) []) 0%Z) at 1. by rewrite Hrow.
Qed.

Lemma get_crop (i : image) (left top right bottom x y : nat) :
  (x < right - left)%nat → (y < bottom - top)%nat →
  get (crop i left top right bottom) x y = get i (left + x) (top + y).
Proof.
  intros Hx Hy. unfold get at 1. unfold crop. cbn [data].
  rewrite nth_map_seq by done. by rewrite nth_map_seq.
Qed.

Lemma get_data_eq (i j : image) x y : data i = data j → get i x y = get j x y.
Proof. unfold get. by intros ->. Qed.

End image_facts.

(** ** divide_images_generic.py *)

Section divide_facts.
Import PyStr PyPath Fs divide_images_generic Terms Examples.

Lemma prepare_shape L img0 :
  Img.width (prepare L img0) = 128%nat ∧ Img.height (prepare L img0) = 128%nat ∧
  Img.mode (prepare L img0) = "RGB".
Proof.
  unfold prepare. destruct (bool_decide_reflect (Img.size img0 = (128, 128)%nat)) as [Hs|Hs].
  - unfold Img.size in Hs. injection Hs as Hw Hh.
    destruct (String.eqb_spec (Img.mode img0) "RGB"); simpl; done.
  - destruct (String.eqb_spec (Img.mode (resize L img0 128 128)) "RGB"); simpl; done.
Qed.

Lemma wf_tabulate (f : nat → nat → Img.pixel) w h :
  length (map (λ y, map (λ x, f x y) (seq 0 w)) (seq 0 h)) = h ∧
  Forall (λ row, length row = w) (map (λ y, map (λ x, f x y) (seq 0 w)) (seq 0 h)).
Proof.
  split; [by rewrite length_map, length_seq|].
  apply Forall_forall. intros row Hrow. apply list_elem_of_fmap in Hrow as (y & -> & _).
  by rewrite length_map, length_seq.
Qed.

Lemma prepare_wf L img0 : Img.wf img0 → Img.wf (prepare L img0).
Proof.
  intros Hwf. unfold prepare.
  assert (H1 : Img.wf (if bool_decide (Img.size img0 = (128, 128)%nat)
                       then img0 else resize L img0 128 128)).
  { destruct (bool_decide _); [done|]. unfold Img.wf, resize.
    cbn [Img.data Img.width Img.height]. apply wf_tabulate. }
  destruct (String.eqb _ "RGB"); [done|].
  unfold Img.wf, convert in *. cbn [Img.data Img.width Img.height]. by apply wf_map_map.
Qed.

Lemma elem_of_grid row col : (row, col) ∈ grid ↔ (row < 4)%nat ∧ (col < 4)%nat.
Proof.
  unfold grid. rewrite elem_of_flat_map. split.
  - intros (r & Hr & Hc). apply list_elem_of_fmap in Hc as (c & [= -> ->] & Hc).
    apply list_elem_of_In, in_seq in Hr. apply list_elem_of_In, in_seq in Hc. lia.
  - intros [Hr Hc]. exists row. split; [apply list_elem_of_In, in_seq; lia|].
    apply list_elem_of_fmap. exists col. split; [done|]. apply list_elem_of_In, in_seq. lia.
Qed.

Lemma piece_filenames_nodup base_filename :
  NoDup (map (λ rc, piece_filename base_filename (fst rc) (snd rc)) grid).
Proof.
  change (map (λ rc, piece_filename base_filename (fst rc) (snd rc)) grid)
    with (map (λ s, base_filename +:+ s)
              (map (λ rc, "_piece_" +:+ fmt_02d (fst rc * 4 + snd rc + 1) +:+ ".png") grid)).
  apply NoDup_fmap_2; [apply String.app_inj|].
  apply (bool_decide_unpack _). vm_compute. exact I.
Qed.

Lemma save_spec_piece L img p t t' :
  save L img p t = inl t' →
  lookup t' p = Some (File (Picture (as_png img))) ∧
  ∀ q d, q ≠ p → lookup t' q = Some (File d) ↔ lookup t q = Some (File d).
Proof.
  unfold save. destruct (save_error L p img); [done|].
  destruct (write p _ t) as [t1|] eqn:Hw; [|done]. intros [= <-].
  by apply write_spec in Hw.
Qed.

(** When every [save] succeeds, the count grows by the number of cells
    and each cell has its piece in its file. *)
Lemma save_pieces_spec L img output_dir base_filename cells t k t' k' :
  NoDup (map (λ rc, piece_filename base_filename (fst rc) (snd rc)) cells) →
  save_pieces L img output_dir base_filename cells t k = inl (t', k') →
  k' = (k + length cells)%nat ∧
  (∀ row col, (row, col) ∈ cells →
     lookup t' (output_dir ++ [piece_filename base_filename row col])
       = Some (File (Picture (as_png (piece_of img row col))))) ∧
  (∀ q d, (∀ row col, (row, col) ∈ cells →
             q ≠ output_dir ++ [piece_filename base_filename row col]) →
          lookup t' q = Some (File d) ↔ lookup t q = Some (File d)).
Proof.
  revert t k. induction cells as [|[r c] cells IH]; intros t k Hnd H; simpl in H.
  - injection H as <- <-. split; [simpl; lia|]. split; [|done].
    intros row col Hin. by apply elem_of_nil in Hin.
  - simpl in Hnd. apply NoDup_cons in Hnd as [Hfresh Hnd].
    destruct (save L _ _ t) as [t1|e] eqn:Hs; [|done].
    destruct (save_spec_piece _ _ _ _ _ Hs) as [Hhere Hother].
    destruct (IH t1 (S k) Hnd H) as (Hk & Hcells & Hrest).
    split; [simpl; lia|]. split.
    + intros row col Hin. apply elem_of_cons in Hin as [[= -> ->]|Hin].
      * apply Hrest; [|done]. intros row col Hin Heq.
        apply app_inv_head in Heq. injection Heq as Heq.
        apply Hfresh. rewrite Heq. apply list_elem_of_fmap. by exists (row, col).
      * by apply Hcells.
    + intros q d Hq. rewrite Hrest.
      * apply Hother. apply Hq. by left.
      * intros row col Hin. apply Hq. by right.
Qed.

(** The pieces paste back to the image they were cut from. *)
Lemma paste_pieces (img : Img.image) (saved : nat → nat → Img.image) :
  Img.wf img → Img.width img = 128%nat → Img.height img = 128%nat →
  (∀ row col, (row < 4)%nat → (col < 4)%nat →
     Img.data (saved row col) = Img.data (piece_of img row col)) →
  paste saved = Img.data img.
Proof.
  intros Hwf Hw Hh Hsaved. rewrite (data_table img Hwf), Hw, Hh. unfold paste.
  apply map_ext_in. intros y Hy. apply in_seq in Hy.
  apply map_ext_in. intros x Hx. apply in_seq in Hx.
  unfold piece_size.
  assert (Hr : (y / 32 < 4)%nat) by (apply Nat.Div0.div_lt_upper_bound; lia).
  assert (Hc : (x / 32 < 4)%nat) by (apply Nat.Div0.div_lt_upper_bound; lia).
  rewrite (get_data_eq _ _ _ _ (Hsaved _ _ Hr Hc)).
  unfold piece_of, piece_size. rewrite get_crop.
  - f_equal.
    + pose proof (Nat.div_mod_eq x 32). lia.
    + pose proof (Nat.div_mod_eq y 32). lia.
  - pose proof (Nat.mod_upper_bound x 32). lia.
  - pose proof (Nat.mod_upper_bound y 32). lia.
Qed.

Lemma divide_image_zero_or_all L image_path output_dir base_filename t :
  let n := fst (divide_image L image_path output_dir base_filename t) in
  (n = 0 ∨ n = 16)%nat ∧
  (n ≠ 0%nat →
   ∃ img0 t1,
     read t image_path = Some (Picture img0) ∧
     mkdir_p output_dir t = Some t1 ∧
     save_pieces L (prepare L img0) output_dir base_filename grid t1 0
       = inl (snd (divide_image L image_path output_dir base_filename t), 16%nat)).
Proof.
  unfold divide_image.
  destruct (read t image_path) as [[s|img0]|] eqn:Hr; cbn [fst snd]; try (split; [by left|done]).
  destruct (mkdir_p output_dir t) as [t1|] eqn:Hm; cbn [fst snd]; [|split; [by left|done]].
  destruct (save_pieces L (prepare L img0) output_dir base_filename grid t1 0)
    as [[t2 k]|t2] eqn:Hs; cbn [fst snd]; [|split; [by left|done]].
  destruct (save_pieces_spec _ _ _ _ _ _ _ _ _ (piece_filenames_nodup base_filename) Hs)
    as (Hk & _). change (length grid) with 16%nat in Hk. simpl in Hk. subst k.
  split; [by right|]. intros _. by exists img0, t1.
Qed.

End divide_facts.

Section divide_claims.
Import PyStr PyPath Fs divide_images_generic Terms Examples.

(** C8, amended.  [divide_image] returns 0 or 16.  When it returns 16
    (the image opens, the output directory can be made and every save
    succeeds), it has written sixteen files of distinct names, one per
    grid position, each the 32 by 32 crop at (col*32, row*32) of the
    resized and converted image, and the sixteen files paste back to
    that image.  The sixteen boxes are disjoint and cover the 128 by 128
    image: each pixel lies in the box of exactly one grid position. *)
Theorem divide_image_tiles_when_complete (L : library) (image_path output_dir : path)
    (base_filename : string) (t : node) :
  let n := fst (divide_image L image_path output_dir base_filename t) in
  let t' := snd (divide_image L image_path output_dir base_filename t) in
  (n = 0 ∨ n = 16)%nat ∧
  (n ≠ 0%nat → tiled L image_path output_dir base_filename t t') ∧
  (length grid = 16%nat ∧
   NoDup (map (λ rc, piece_path output_dir base_filename (fst rc) (snd rc)) grid)) ∧
  (∀ x y row col,
     (x < 128)%nat → (y < 128)%nat → (row, col) ∈ grid →
     (col * piece_size ≤ x < col * piece_size + piece_size ∧
      row * piece_size ≤ y < row * piece_size + piece_size)%nat ↔
     (row = y / piece_size ∧ col = x / piece_size)%nat).
Proof.
  cbv zeta.
  destruct (divide_image_zero_or_all L image_path output_dir base_filename t) as [H0 H16].
  cbv zeta in H0, H16. split; [exact H0|]. split; [|split].
  - intros Hn. destruct (H16 Hn) as (img0 & t1 & Hr & Hm & Hs).
    destruct (save_pieces_spec _ _ _ _ _ _ _ _ _ (piece_filenames_nodup base_filename) Hs)
      as (_ & Hcells & _).
    destruct (prepare_shape L img0) as (Hw & Hh & Hmode).
    exists img0. split; [done|]. cbv zeta. split; [done|]. split; [done|]. split; [done|].
    split.
    + intros row col Hrow Hcol. split.
      * apply read_Some. apply Hcells. by apply elem_of_grid.
      * unfold piece_of, piece_size, Img.crop. cbn [Img.width Img.height]. lia.
    + intros Hwf saved Hsaved. apply paste_pieces; [by apply prepare_wf|done|done|].
      intros row col Hrow Hcol. specialize (Hsaved row col Hrow Hcol).
      apply read_Some in Hsaved. unfold piece_path in Hsaved.
      rewrite (Hcells row col) in Hsaved by (by apply elem_of_grid).
      by injection Hsaved as <-.
  - split; [reflexivity|]. unfold piece_path.
    change (map (λ rc, output_dir ++ [piece_filename base_filename (fst rc) (snd rc)]) grid)
      with (map (λ nm, output_dir ++ [nm])
                (map (λ rc, piece_filename base_filename (fst rc) (snd rc)) grid)).
    apply NoDup_fmap_2; [|apply piece_filenames_nodup].
    intros a b Hab. apply app_inv_head in Hab. by injection Hab.
  - intros x y row col Hx Hy Hin. apply elem_of_grid in Hin as [Hrow Hcol].
    unfold piece_size. split.
    + intros [Hc Hr]. split.
      * apply (Nat.div_unique y 32 row (y - row * 32)); lia.
      * apply (Nat.div_unique x 32 col (x - col * 32)); lia.
    + intros [-> ->].
      pose proof (Nat.div_mod_eq x 32). pose proof (Nat.mod_upper_bound x 32).
      pose proof (Nat.div_mod_eq y 32). pose proof (Nat.mod_upper_bound y 32). lia.
Qed.

Lemma divide_image_witness :
  fst (divide_image tiling_library ["Processed_1858_filtered"; "healthy"; "scan.png"]
                    ["Processed_1858_filtered_divided"; "healthy"] "scan" tiles_tree)
    ≠ 0%nat ∧
  tiled tiling_library ["Processed_1858_filtered"; "healthy"; "scan.png"]
        ["Processed_1858_filtered_divided"; "healthy"] "scan" tiles_tree
        (snd (divide_image tiling_library
                ["Processed_1858_filtered"; "healthy"; "scan.png"]
                ["Processed_1858_filtered_divided"; "healthy"] "scan" tiles_tree)).
Proof.
  assert (H : fst (divide_image tiling_library
                     ["Processed_1858_filtered"; "healthy"; "scan.png"]
                     ["Processed_1858_filtered_divided"; "healthy"] "scan" tiles_tree)
              ≠ 0%nat).
  { vm_compute. lia. }
  split; [exact H|].
  exact (proj1 (proj2 (divide_image_tiles_when_complete tiling_library
                         ["Processed_1858_filtered"; "healthy"; "scan.png"]
                         ["Processed_1858_filtered_divided"; "healthy"] "scan" tiles_tree))
               H).
Defined.

(** C8 as stated fails: an image that opens is not always tiled.  With a
    full disk the first [save] raises, [divide_image] returns 0 and the
    first piece is not there. *)
Lemma divide_image_opens_but_saves_nothing :
  read tiles_tree ["Processed_1858_filtered"; "healthy"; "scan.png"]
    = Some (Picture (Img.Image "PNG" "L" 2 2 [[10; 20]; [30; 40]])%Z) ∧
  fst (divide_image full_disk_library ["Processed_1858_filtered"; "healthy"; "scan.png"]
                    ["Processed_1858_filtered_divided"; "healthy"] "scan" tiles_tree)
    = 0%nat ∧
  lookup (snd (divide_image full_disk_library
                 ["Processed_1858_filtered"; "healthy"; "scan.png"]
                 ["Processed_1858_filtered_divided"; "healthy"] "scan" tiles_tree))
         (piece_path ["Processed_1858_filtered_divided"; "healthy"] "scan" 0 0)
    = None.
Proof. split; [reflexivity|]. split; vm_compute; reflexivity. Qed.

End divide_claims.

(** ** consolidate_png_files.py *)

Section consolidate_facts.
Import PyStr PyPath Fs consolidate_png_files Terms Examples.
Variable copy_raises : path → path → bool.

Lemma consolidate_after_refl st : consolidate_after st st.
Proof. split; [exists []; by rewrite app_nil_r|done]. Qed.

Lemma consolidate_after_trans st1 st2 st3 :
  consolidate_after st1 st2 → consolidate_after st2 st3 → consolidate_after st1 st3.
Proof.
  intros [[m1 H1] F1] [[m2 H2] F2]. split.
  - exists (m1 ++ m2). by rewrite H2, H1, <- app_assoc.
  - intros q d H. by apply F2, F1.
Qed.



(** A copy writes under the destination only. *)
Lemma copy2_keeps_sources src x dst t t' q d :
  copy2 copy_raises src (x :: dst) t = Some t' → x ≠ "PNG_Files" →
  lookup t ("PNG_Files" :: q) = Some (File d) →
  lookup t' ("PNG_Files" :: q) = Some (File d).
Proof.
  unfold copy2. intros H Hx Hl.
  destruct (copy_raises src (x :: dst)); [done|].
  destruct (bool_decide (src = x :: dst)); [done|].
  destruct (read t src) as [c|]; [|done].
  apply write_spec in H as [_ H]. apply H; [|done].
  destruct (is_dir t (x :: dst)); simpl; congruence.
Qed.




(** The destination that [copy_files_with_structure] builds lies under
    its base directory. *)
Lemma dest_under_base (base folder_structure remaining : list string) (name : string) :
  ∃ rest,
    (match remaining with
     | [] => match folder_structure with [] => base | _ => base ++ folder_structure end
     | _ => (match folder_structure with [] => base | _ => base ++ folder_structure end)
            ++ removelast remaining
     end) ++ [name] = base ++ rest.
Proof.
  destruct remaining, folder_structure; eexists; rewrite <- ?app_assoc; reflexivity.
Qed.

(** One call of [copy_files_with_structure] into a base directory under
    [Processed]. *)
Lemma copy_files_with_structure_after src source base file_type st st' :
  copy_files_with_structure copy_raises src source ("Processed" :: base) file_type st
    = Some st' →
  consolidate_after st st'.
Proof.
  unfold copy_files_with_structure.
  destruct (is_file (fs st) src && _); [|intros [= <-]; apply consolidate_after_refl].
  destruct (relative_to src source) as [parts|]; [|done].
  destruct (category_index parts) as [i|].
  2:{ intros [= <-]. split; [by eexists|done]. }
  destruct (dest_under_base ("Processed" :: base) (firstn i parts) (skipn (S i) parts)
              (List.last src "")) as [rest Hrest].
  set (dest_folder := match skipn (S i) parts with [] => _ | _ => _ end) in *.
  destruct (mkdir_p dest_folder (fs st)) as [fs1|] eqn:Hm; [|done].
  rewrite Hrest. cbn [app].
  destruct (copy2 copy_raises src ("Processed" :: base ++ rest) fs1) as [fs2|] eqn:Hc.
  - assert (Hkeep : ∀ q d, lookup (fs st) ("PNG_Files" :: q) = Some (File d) →
                           lookup fs2 ("PNG_Files" :: q) = Some (File d)).
    { intros q d Hl. apply (copy2_keeps_sources _ _ _ _ _ _ _ Hc); [done|].
      by apply (mkdir_p_files _ _ _ _ _ Hm). }
    destruct (String.eqb file_type "healthy"); intros [= <-]; (split; [by eexists|done]).
  - intros [= <-]. split; [by eexists|]. intros q d Hl. cbn [fs].
    by apply (mkdir_p_files _ _ _ _ _ Hm).
Qed.

Lemma relative_to_app (base p : path) : relative_to (base ++ p) base = Some p.
Proof.
  induction base as [|b base IH]; simpl; [by destruct p|].
  by rewrite String.eqb_refl.
Qed.


Lemma copy_all_after root_path png_files base file_type st st' :
  copy_all copy_raises root_path png_files ("Processed" :: base) file_type st = Some st' →
  consolidate_after st st'.
Proof.
  revert st. induction png_files as [|g png_files IH]; intros st H; simpl in H.
  - injection H as <-. apply consolidate_after_refl.
  - destruct (copy_files_with_structure _ _ _ _ _ st) as [st1|] eqn:H1; [|done].
    eapply consolidate_after_trans; [|by apply IH].
    by apply copy_files_with_structure_after in H1.
Qed.


Lemma visit_after entry st st' :
  visit copy_raises entry st = Some st' → consolidate_after st st'.
Proof.
  destruct entry as [[root_path dirs] files]. unfold visit.
  destruct (bool_decide (root_path = source_dir)); [intros [= <-]; apply consolidate_after_refl|].
  destruct (png_files_of files) as [|g gs]; [intros [= <-]; apply consolidate_after_refl|].
  destruct (mem "healthy" root_path); [apply (copy_all_after _ _ ["healthy"])|].
  destruct (mem "tumour" root_path); [apply (copy_all_after _ _ ["tumour"])|].
  destruct (mem "heathy" root_path); [apply (copy_all_after _ _ ["healthy"])|].
  intros [= <-]. split; [by eexists|done].
Qed.


Lemma visit_all_after entries st st' :
  visit_all copy_raises entries st = Some st' → consolidate_after st st'.
Proof.
  revert st. induction entries as [|e entries IH]; intros st H; simpl in H.
  - injection H as <-. apply consolidate_after_refl.
  - destruct (visit copy_raises e st) as [st1|] eqn:H1; [|done].
    eapply consolidate_after_trans; [by apply visit_after in H1|by apply IH].
Qed.



End consolidate_facts.

(** ** count_png_files.py *)

Section count_facts.
Import PyStr PyPath Fs count_png_files Terms Examples.

Lemma walk_node_roots t :
  ∀ base root dirs files,
    (root, dirs, files) ∈ walk_node base t → ∃ rel, root = base ++ rel.
Proof.
  induction t as [c|es IH] using node_tree_ind; intros base root dirs files Hin.
  { by apply elem_of_nil in Hin. }
  simpl in Hin. apply elem_of_cons in Hin as [[= -> -> ->]|Hin].
  - exists []. by rewrite app_nil_r.
  - apply elem_of_flat_map in Hin as ([k v] & Hkv & Hin). simpl in Hin.
    rewrite Forall_forall in IH.
    destruct (IH (k, v) Hkv _ _ _ _ Hin) as [rel ->].
    exists (k :: rel). by rewrite <- app_assoc.
Qed.

Lemma walk_roots t directory root dirs files :
  (root, dirs, files) ∈ walk t directory → ∃ rel, root = directory ++ rel.
Proof.
  unfold walk. destruct (lookup t directory); [apply walk_node_roots|].
  intros H. by apply elem_of_nil in H.
Qed.







Lemma visit_all_total directory entries acc :
  (∀ root dirs files, (root, dirs, files) ∈ entries → ∃ rel, root = directory ++ rel) →
  ∃ acc', visit_all directory entries acc = Some acc'.
Proof.
  revert acc. induction entries as [|[[root dirs] files] entries IH]; intros acc Hpre.
  { simpl. eauto. }
  cbn [visit_all].
  assert (Hv : ∃ acc1, visit directory (root, dirs, files) acc = Some acc1).
  { destruct acc as [counts total]. unfold visit.
    destruct (bool_decide (root = directory)); [eauto|].
    destruct (consolidate_png_files.png_files_of files); [eauto|].
    destruct (Hpre root dirs files) as [rel ->]; [by left|].
    rewrite relative_to_app. eauto. }
  destruct Hv as [acc1 ->]. apply IH.
  intros r d f Hin. apply (Hpre r d f). by right.
Qed.


End count_facts.

(** ** The spelling variant "heathy" *)

Section variant_claims.
Import PyStr PyPath Fs Terms Examples.




End variant_claims.

(* ===================================================================== *)
(** * Part III: further properties of the scripts                         *)
(* ===================================================================== *)

(** ** run_full_pipeline.py: the totals and the report *)
Section pipeline_more_facts.
Import PyStr run_full_pipeline Terms.
Variable E : environment.

Lemma reported_snoc sum e :
  reported (sum ++ [e]) = if skipped e then reported sum else sum ++ [e].
Proof.
  induction sum as [|a sum IH]; simpl.
  - by destruct (skipped e).
  - rewrite IH. destruct (skipped e); [done|].
    destruct (sum ++ [e]) eqn:Hs; [by destruct sum|done].
Qed.

Lemma reported_nil sum : reported sum = [] ↔ nonskip sum = 0%nat.
Proof.
  induction sum as [|a sum IH]; simpl; [done|].
  unfold nonskip in *. simpl.
  destruct (reported sum) as [|x l] eqn:Hr.
  - destruct (skipped a); simpl; [tauto|]. split; [done|lia].
  - split; [done|]. destruct (negb (skipped a)); simpl; [lia|].
    intros H. apply IH in H. done.
Qed.

(** The status that [run_script] records is one of three. *)
Lemma records_status c r :
  records c r → status r = "success" ∨ status r = "failed" ∨ status r = "exception".
Proof.
  destruct c as [rc out err|exc]; simpl.
  - intros (H1 & H2 & _). destruct (decide (rc = 0%Z)) as [->|Hne]; [left; tauto|right; left; auto].
  - intros [H _]. auto.
Qed.

Lemma count_entry_cases (sum : list step_entry) :
  (∀ e, e ∈ sum → skipped e = true ∨
        (skipped e = false ∧ ∃ r, step_result e = Some r ∧
           (status r = "success" ∨ status r = "failed" ∨ status r = "exception"))) →
  (count_status "success" sum + count_status "failed" sum
   + count_status "exception" sum + count_skipped sum = length sum)%nat.
Proof.
  induction sum as [|a sum IH]; intros H; [done|].
  assert (IH' := IH (λ e He, H e (proj2 (elem_of_cons _ _ _) (or_intror He)))). clear IH.
  unfold count_status, count_skipped in *. cbn [List.filter length].
  destruct (H a) as [Hs|(Hs & r & Hr & Hst)]; [by left| |]; rewrite Hs; cbn [negb andb].
  - simpl. lia.
  - rewrite Hr. destruct Hst as [->|[->| ->]]; simpl; lia.
Qed.

Lemma run_steps_entries scripts w0 e :
  e ∈ fst (run_steps E scripts ([], w0)) →
  skipped e = true ∨
  (skipped e = false ∧ ∃ r, step_result e = Some r ∧
     (status r = "success" ∨ status r = "failed" ∨ status r = "exception")).
Proof.
  intros He. apply list_elem_of_lookup_1 in He as [i Hi].
  destruct (run_steps_trace E scripts w0) as (_ & _ & _ & H). cbv zeta in H.
  destruct (H i e Hi) as [_ Hok]. destruct (skipped e); [by left|right].
  split; [done|]. destruct (Hok eq_refl) as (r & inp & Hr & _ & _ & Hrec).
  exists r. split; [done|]. by eapply records_status.
Qed.

Lemma run_steps_length scripts w0 :
  length (fst (run_steps E scripts ([], w0))) = length scripts.
Proof.
  destruct (run_steps_trace E scripts w0) as (H & _). cbv zeta in H.
  apply (f_equal length) in H. by rewrite !length_map in H.
Qed.

(** The report file during the loop of [main]. *)
Lemma run_steps_report scripts w0 :
  (∀ s, s ∈ scripts → log_path_of E s ≠ report_path E) →
  let sum := fst (run_steps E scripts ([], w0)) in
  let w := snd (run_steps E scripts ([], w0)) in
  files w !! report_path E =
    match reported sum with
    | [] => files w0 !! report_path E
    | l => Some (report_text E (clock E (ticks w0 + 3 * nonskip sum - 1)) l)
    end.
Proof.
  induction scripts as [|s scripts IH] using rev_ind; intros Hrep; [done|].
  cbv zeta. rewrite run_steps_snoc.
  assert (Hrep' : ∀ s0, s0 ∈ scripts → log_path_of E s0 ≠ report_path E).
  { intros s0 H0. apply Hrep. apply elem_of_app. by left. }
  assert (Hreps : log_path_of E s ≠ report_path E).
  { apply Hrep. apply elem_of_app. right. by left. }
  specialize (IH Hrep'). cbv zeta in IH.
  pose proof (run_steps_ticks E scripts w0) as [Ht _].
  destruct (run_steps E scripts ([], w0)) as [sum w] eqn:Hrun. simpl in IH, Ht.
  destruct (isfile E (launched w) (PyPath.join (repo_root E) (se_script s))) eqn:Hf.
  - rewrite run_step_ran by done. cbn [fst snd].
    pose proof (run_script_spec E (python_exe E) (PyPath.join (repo_root E) (se_script s))
                  (se_args s) (input_of s) w) as Hspec. cbv zeta in Hspec.
    destruct (run_script E _ _ _ _ w) as [r w1] eqn:Hr. cbn [fst snd] in *.
    destruct Hspec as (Ht1 & _).
    unfold write_report, now, write_file; cbn [fst snd files ticks launched].
    rewrite lookup_insert_eq, reported_snoc, nonskip_snoc. cbn [skipped entry_of].
    destruct (sum ++ _) eqn:Hs; [by destruct sum|]. rewrite <- Hs.
    do 3 f_equal. lia.
  - rewrite run_step_skipped by done. cbn [fst snd].
    rewrite reported_snoc, nonskip_snoc. cbn [skipped entry_of].
    rewrite Nat.add_0_r. exact IH.
Qed.

(** The files that the loop of [main] leaves alone. *)
Lemma run_steps_other_files scripts w0 p :
  p ≠ report_path E →
  (∀ e lp, e ∈ fst (run_steps E scripts ([], w0)) → log_path e = Some lp → p ≠ lp) →
  files (snd (run_steps E scripts ([], w0))) !! p = files w0 !! p.
Proof.
  intros Hrep. induction scripts as [|s scripts IH] using rev_ind; intros Hlog; [done|].
  rewrite run_steps_snoc in *.
  destruct (run_steps E scripts ([], w0)) as [sum w] eqn:Hrun. cbn [fst snd] in IH.
  destruct (isfile E (launched w) (PyPath.join (repo_root E) (se_script s))) eqn:Hf.
  - rewrite run_step_ran in * by done. cbn [fst snd] in *.
    pose proof (run_script_spec E (python_exe E) (PyPath.join (repo_root E) (se_script s))
                  (se_args s) (input_of s) w) as Hspec. cbv zeta in Hspec.
    destruct (run_script E _ _ _ _ w) as [r w1] eqn:Hr. cbn [fst snd] in *.
    destruct Hspec as (_ & _ & Hfi & _).
    unfold write_report, now, write_file; cbn [fst snd files ticks launched].
    rewrite lookup_insert_ne by done. rewrite lookup_insert_ne.
    + rewrite Hfi. apply IH. intros e lp He. apply Hlog. apply elem_of_app. by left.
    + intros Heq. refine (Hlog (entry_of s false (Some r) (Some _)) _ _ eq_refl _).
      * apply elem_of_app. right. by left.
      * by symmetry.
  - rewrite run_step_skipped in * by done. cbn [fst snd] in *.
    apply IH. intros e lp He. apply Hlog. apply elem_of_app. by left.
Qed.

End pipeline_more_facts.

Section pipeline_more.
Import PyStr run_full_pipeline Terms Examples.

(** X1. In the run summary of the pipeline every script of the list is
    counted once by the final totals: the numbers of entries with status
    success, failed and exception and the number of skipped entries add
    up to the number of scripts. *)
Theorem pipeline_totals_account_for_every_script (E : environment)
    (scripts : list script_entry) (w : world) :
  let sum := fst (main_with E scripts w) in
  (count_status "success" sum + count_status "failed" sum
   + count_status "exception" sum + count_skipped sum = length scripts)%nat.
Proof.
  cbv zeta. rewrite main_with_summary.
  rewrite <- (run_steps_length E scripts (snd (now E w))).
  apply count_entry_cases. intros e He. by eapply run_steps_entries.
Qed.

(** X2. After main the report file holds the report as write_report
    wrote it right after the last step that was not skipped, which lists
    the entries up to that step and none of the skipped steps after it,
    followed by the final summary; when every step was skipped the
    report is never rewritten and the final summary is appended to what
    the file held before (nothing, if it did not exist). *)
Theorem pipeline_report_ends_at_last_step_run (E : environment)
    (old_files : gmap string string) :
  let sum := fst (main E old_files) in
  let w := snd (main E old_files) in
  let final := final_summary_text E (clock E 0) (clock E (1 + 3 * nonskip sum)) sum in
  files w !! report_path E =
    Some (match reported sum with
          | [] => default "" (old_files !! report_path E)
          | l => report_text E (clock E (3 * nonskip sum)) l
          end +:+ final).
Proof.
  cbv zeta. unfold main, main_with. cbn [now initial_world ticks launched files].
  pose proof (run_steps_report E SCRIPTS (World 1 [] old_files)
                (scripts_log_paths_not_report E)) as Hrep.
  pose proof (run_steps_ticks E SCRIPTS (World 1 [] old_files)) as [Ht _].
  cbv zeta in Hrep, Ht.
  destruct (run_steps E SCRIPTS ([], World 1 [] old_files)) as [sum w1] eqn:Hrun.
  cbn [fst snd ticks files] in *.
  unfold append_file. cbn [files]. rewrite lookup_insert_eq, Hrep, Ht.
  destruct (reported sum) eqn:Hr.
  - apply reported_nil in Hr. rewrite Hr. reflexivity.
  - cbn [default]. replace (1 + 3 * nonskip sum - 1)%nat with (3 * nonskip sum)%nat by lia. reflexivity.
Qed.

(** X3. The pipeline writes no file of its own besides the report and
    the step logs: a path that is neither the report path nor the log
    path of an entry of the run summary holds after the run what it held
    before. *)
Theorem pipeline_writes_only_its_logs_and_report (E : environment)
    (scripts : list script_entry) (w : world) (p : string) :
  p ≠ report_path E →
  (∀ e lp, e ∈ fst (main_with E scripts w) → log_path e = Some lp → p ≠ lp) →
  files (snd (main_with E scripts w)) !! p = files w !! p.
Proof.
  intros Hrep Hlog. rewrite main_with_summary in Hlog.
  destruct (main_with_files E scripts w) as [final Hfiles]. cbv zeta in Hfiles.
  rewrite Hfiles, lookup_insert_ne by done.
  by rewrite (run_steps_other_files E scripts (snd (now E w)) p Hrep Hlog).
Qed.

Lemma pipeline_writes_only_its_logs_and_report_witness :
  "/repo/notes.txt" ≠ report_path sample_env ∧
  files (snd (main_with sample_env SCRIPTS
                        (initial_world {["/repo/notes.txt" := "keep"]})))
    !! "/repo/notes.txt" = Some "keep".
Proof.
  assert (H1 : "/repo/notes.txt" ≠ report_path sample_env) by (vm_compute; discriminate).
  assert (H2 : forallb (λ e, negb (bool_decide (log_path e = Some "/repo/notes.txt")))
                 (fst (main_with sample_env SCRIPTS
                         (initial_world {["/repo/notes.txt" := "keep"]}))) = true)
    by (vm_compute; reflexivity).
  split; [exact H1|].
  refine (eq_trans (pipeline_writes_only_its_logs_and_report sample_env SCRIPTS
                      (initial_world {["/repo/notes.txt" := "keep"]}) "/repo/notes.txt"
                      H1 _) _).
  - intros e lp He Hlp Heq. subst lp.
    apply list_elem_of_In in He.
    pose proof (proj1 (forallb_forall _ _) H2 e He) as Hb.
    apply negb_true_iff, bool_decide_eq_false in Hb. by apply Hb.
  - vm_compute. reflexivity.
Defined.

End pipeline_more.

(** ** convert_tif_to_png.py: the scan, the output and the originals *)
Section more_string_facts.
Import PyStr.

Lemma endswith_app (suf a : string) : endswith suf (a +:+ suf) = true.
Proof.
  induction a as [|c a IH].
  - rewrite str_app_nil_l. destruct suf; cbn [endswith]; by rewrite String.eqb_refl.
  - rewrite str_app_cons. cbn [endswith]. rewrite IH. apply orb_true_r.
Qed.

Lemma endswith_inv (suf s : string) :
  endswith suf s = true → ∃ pre, s = pre +:+ suf.
Proof.
  induction s as [|c s IH]; simpl.
  - rewrite orb_false_r. intros H. apply String.eqb_eq in H as ->. by exists "".
  - intros H. apply orb_true_iff in H as [H|H].
    + apply String.eqb_eq in H as ->. by exists "".
    + destruct (IH H) as [pre ->]. by exists (String c pre).
Qed.

Lemma str_app_same_length_tail (a b c d : string) :
  a +:+ c = b +:+ d → String.length c = String.length d → c = d.
Proof.
  revert b. induction a as [|x a IH]; intros b H Hlen.
  - rewrite str_app_nil_l in H. destruct b as [|y b]; [by rewrite str_app_nil_l in H|].
    subst c. rewrite str_app_cons in Hlen. simpl in Hlen. rewrite str_app_length in Hlen. lia.
  - destruct b as [|y b].
    + rewrite str_app_nil_l in H. subst d. rewrite str_app_cons in Hlen. simpl in Hlen.
      rewrite str_app_length in Hlen. lia.
    + rewrite !str_app_cons in H. injection H as _ H. by apply (IH b).
Qed.

Lemma lower_app (a b : string) : lower (a +:+ b) = lower a +:+ lower b.
Proof.
  induction a as [|x a IH]; [by rewrite !str_app_nil_l|].
  rewrite str_app_cons. simpl. by rewrite str_app_cons, IH.
Qed.

End more_string_facts.

Section convert_more_facts.
Import PyStr PyPath Fs convert_tif_to_png Terms Examples.

(** A name that ends in ".png" is not the name of a TIFF. *)
Lemma png_name_not_tif (root : string) : is_tif_name (root +:+ ".png") = false.
Proof.
  unfold is_tif_name. rewrite lower_app. change (lower ".png") with ".png".
  apply orb_false_iff. split; apply not_true_is_false; intros H;
    apply endswith_inv in H as [pre H].
  - by apply str_app_same_length_tail in H.
  - change ".tiff" with ("." +:+ "tiff") in H. rewrite <- str_app_assoc in H.
    by apply str_app_same_length_tail in H.
Qed.

Lemma png_path_of_snoc dir name :
  png_path_of (dir ++ [name]) = dir ++ [splitext_root name +:+ ".png"].
Proof.
  unfold png_path_of. by rewrite removelast_last, last_last.
Qed.

Lemma find_tif_files_shape t root_path q :
  q ∈ find_tif_files t root_path →
  ∃ dir dirs files name, (dir, dirs, files) ∈ walk t root_path ∧ name ∈ files ∧
                         q = dir ++ [name] ∧ is_tif_name name = true.
Proof.
  unfold find_tif_files. rewrite elem_of_flat_map.
  intros ([[root dirs] files] & Hin & Hq).
  apply list_elem_of_fmap in Hq as (f & -> & Hf).
  apply list_elem_of_In, filter_In in Hf as [Hf Hp]. apply list_elem_of_In in Hf.
  by exists root, dirs, files, f.
Qed.

Lemma find_tif_files_spec t root_path q :
  wf t → q ∈ find_tif_files t root_path ↔ tif_file t root_path q.
Proof.
  intros Hwf. split.
  - intros H. apply find_tif_files_shape in H as (dir & dirs & files & name & Hin & Hf & -> & Hn).
    destruct (walk_sound t root_path dir dirs files name Hwf Hin Hf) as (rel & c & -> & Hl).
    exists rel, name, c. by rewrite <- app_assoc in *.
  - intros (rel & name & c & -> & Hl & Hp).
    destruct (walk_complete t root_path rel name c Hl) as (dirs & files & Hin & Hf).
    unfold find_tif_files. apply elem_of_flat_map.
    exists (root_path ++ rel, dirs, files). split; [done|].
    apply list_elem_of_fmap. exists name. split; [by rewrite <- app_assoc|].
    apply list_elem_of_In, filter_In. split; [by apply list_elem_of_In|done].
Qed.

Lemma png_path_not_found t root_path p q :
  p ∈ find_tif_files t root_path → q ∈ find_tif_files t root_path → png_path_of p ≠ q.
Proof.
  intros Hp Hq Heq.
  apply find_tif_files_shape in Hp as (dir & _ & _ & name & _ & _ & -> & _).
  apply find_tif_files_shape in Hq as (dir' & _ & _ & name' & _ & _ & -> & Hn).
  rewrite png_path_of_snoc in Heq. apply app_inj_tail in Heq as [_ <-].
  by rewrite png_name_not_tif in Hn.
Qed.

End convert_more_facts.

Section convert_more.
Import PyStr PyPath Fs convert_tif_to_png Terms Examples.

(** X4. In a tree without duplicate names find_tif_files returns exactly
    the files under the root whose lower-cased name ends in .tif or
    .tiff. The PNG path that convert_all_tif_to_png derives for each of
    them lies in the same directory, has the name with its extension
    replaced by .png, and is never itself one of the files found. *)
Theorem find_tif_files_finds_the_tiffs_and_names_their_png
    (t : node) (root_path : path) :
  wf t →
  (∀ q, q ∈ find_tif_files t root_path ↔ tif_file t root_path q) ∧
  (∀ q, q ∈ find_tif_files t root_path →
     (∃ dir name, q = dir ++ [name] ∧
                  png_path_of q = dir ++ [splitext_root name +:+ ".png"]) ∧
     endswith ".png" (List.last (png_path_of q) "") = true ∧
     png_path_of q ∉ find_tif_files t root_path).
Proof.
  intros Hwf. split; [intros q; by apply find_tif_files_spec|].
  intros q Hq. split; [|split].
  - apply find_tif_files_shape in Hq as (dir & _ & _ & name & _ & _ & -> & _).
    exists dir, name. by rewrite png_path_of_snoc.
  - unfold png_path_of. rewrite last_last. apply endswith_app.
  - intros H. by apply (png_path_not_found t root_path q (png_path_of q)).
Qed.

Lemma find_tif_files_witness :
  wf scans_tree ∧
  ∀ q, q ∈ find_tif_files scans_tree ["Convert raw data"] →
     (∃ dir name, q = dir ++ [name] ∧
                  png_path_of q = dir ++ [splitext_root name +:+ ".png"]) ∧
     endswith ".png" (List.last (png_path_of q) "") = true ∧
     png_path_of q ∉ find_tif_files scans_tree ["Convert raw data"].
Proof.
  split; [reflexivity|].
  exact (proj2 (find_tif_files_finds_the_tiffs_and_names_their_png
                  scans_tree ["Convert raw data"] eq_refl)).
Defined.

End convert_more.

Section convert_loop_facts.
Import PyStr PyPath Fs convert_tif_to_png Terms Examples.

(** What a call of [convert_tif_to_png] does to the files. *)
Lemma convert_tif_to_png_files L tif_path png_path t :
  let '(ok, t', _) := convert_tif_to_png L tif_path png_path t in
  (∀ q d, q ≠ png_path → lookup t' q = Some (File d) ↔ lookup t q = Some (File d)) ∧
  (ok = true →
   (∃ c, lookup t tif_path = Some (File c)) ∧
   ∃ img, lookup t' png_path = Some (File (Picture img)) ∧ Img.format img = "PNG") ∧
  (ok = false → t' = t).
Proof.
  unfold convert_tif_to_png, open.
  assert (Hsave : ∀ img,
    let '(ok, t', _) :=
      match save L img png_path t with
      | inl t'0 => (true, t'0, None)
      | inr e => (false, t, Some ("Error converting " +:+ show tif_path +:+ ": " +:+ e))
      end in
    (∀ q d, q ≠ png_path → lookup t' q = Some (File d) ↔ lookup t q = Some (File d)) ∧
    (ok = true → ∃ img, lookup t' png_path = Some (File (Picture img)) ∧ Img.format img = "PNG")
    ∧ (ok = false → t' = t)).
  { intros img. unfold save. destruct (save_error L png_path img); [done|].
    destruct (write png_path _ t) as [t1|] eqn:Hw; [|done].
    apply write_spec in Hw as [Hw1 Hw2]. split; [done|]. split; [|done].
    intros _. eexists. split; [exact Hw1|done]. }
  destruct (read t tif_path) as [[s|src]|] eqn:Hsrc; [done| |done].
  apply read_Some in Hsrc.
  assert (Hgo : ∀ img,
    let '(ok, t', _) :=
      match save L img png_path t with
      | inl t'0 => (true, t'0, None)
      | inr e => (false, t, Some ("Error converting " +:+ show tif_path +:+ ": " +:+ e))
      end in
    (∀ q d, q ≠ png_path → lookup t' q = Some (File d) ↔ lookup t q = Some (File d)) ∧
    (ok = true → (∃ c, lookup t tif_path = Some (File c)) ∧
       ∃ img, lookup t' png_path = Some (File (Picture img)) ∧ Img.format img = "PNG")
    ∧ (ok = false → t' = t)).
  { intros img. specialize (Hsave img).
    destruct (save L img png_path t) as [t1|e]; [|done].
    destruct Hsave as (H1 & H2 & H3). split; [done|]. split; [|done].
    intros _. split; [eauto|by apply H2]. }
  destruct (String.eqb (Img.mode src) "F"); [apply Hgo|].
  destruct (mem (Img.mode src) ["RGBA"; "LA"; "P"]); [apply Hgo|].
  destruct (String.eqb (Img.mode src) "P"); apply Hgo.
Qed.

(** A round of the loop that keeps the originals writes at most its
    PNG. *)
Lemma convert_step_keep_files L p st q d :
  q ≠ png_path_of p →
  lookup (fs (step L false p st)) q = Some (File d) ↔ lookup (fs st) q = Some (File d).
Proof.
  intros Hq. unfold step.
  pose proof (convert_tif_to_png_files L p (png_path_of p) (fs st)) as H.
  destruct (convert_tif_to_png L p (png_path_of p) (fs st)) as [[[] t'] msg];
    destruct H as (H & _); by apply H.
Qed.

Lemma convert_loop_keep_files L items st q d :
  q ∉ map png_path_of items →
  lookup (fs (loop L false items st)) q = Some (File d) ↔ lookup (fs st) q = Some (File d).
Proof.
  unfold loop. revert st. induction items as [|p items IH]; intros st Hq; [done|].
  cbn [fold_left]. cbn [map] in Hq. apply not_elem_of_cons in Hq as [Hp Hq].
  rewrite (IH _ Hq). by apply convert_step_keep_files.
Qed.

End convert_loop_facts.

Section convert_more2.
Import PyStr PyPath Fs convert_tif_to_png Terms Examples.

(** X5. When convert_tif_to_png returns True the source was a readable
    image and the file at png_path is an image whose mode is L for a
    source of mode F, the mode of the source for RGBA, LA and P, and RGB
    otherwise; it is never F. A source of mode RGBA, LA or P is saved
    with its pixels unchanged, so a palette image is never converted to
    RGBA. *)
Theorem convert_tif_to_png_output_mode (L : library) (tif_path png_path : path)
    (t t' : node) (msg : option string) :
  convert_tif_to_png L tif_path png_path t = (true, t', msg) →
  ∃ src out,
    read t tif_path = Some (Picture src) ∧
    read t' png_path = Some (Picture out) ∧
    Img.mode out = png_mode (Img.mode src) ∧
    Img.mode out ≠ "F" ∧
    (mem (Img.mode src) ["RGBA"; "LA"; "P"] = true →
     Img.mode out = Img.mode src ∧ Img.data out = Img.data src).
Proof.
  unfold convert_tif_to_png, open, png_mode.
  destruct (read t tif_path) as [[s|src]|] eqn:Hsrc; [done| |done].
  intros H. exists src.
  assert (Hsave : ∀ img,
    match save L img png_path t with
    | inl t'0 => (true, t'0, None)
    | inr e => (false, t, Some ("Error converting " +:+ show tif_path +:+ ": " +:+ e))
    end = (true, t', msg) →
    read t' png_path = Some (Picture (as_png img))).
  { intros img Hs. destruct (save L img png_path t) as [t1|e] eqn:Hsv; [|done].
    injection Hs as <- <-. by apply save_spec in Hsv. }
  destruct (String.eqb (Img.mode src) "F") eqn:HF.
  - apply Hsave in H. eexists. split; [done|]. split; [exact H|].
    apply String.eqb_eq in HF. rewrite HF.
    destruct (0 <? array_size (np_array src))%nat; done.
  - destruct (mem (Img.mode src) ["RGBA"; "LA"; "P"]) eqn:HM.
    + apply Hsave in H. eexists. split; [done|]. split; [exact H|]. simpl.
      split; [done|]. split; [by apply String.eqb_neq|done].
    + destruct (String.eqb (Img.mode src) "P") eqn:HP.
      * apply String.eqb_eq in HP. rewrite HP in HM. done.
      * apply Hsave in H. eexists. split; [done|]. split; [exact H|]. done.
Qed.

Lemma convert_tif_to_png_output_mode_witness :
  convert_tif_to_png plain_library ["Convert raw data"; "scan.tif"]
                     ["Convert raw data"; "scan.png"] scans_tree
    = (true, scans_tree_converted, None) ∧
  ∃ src out,
    read scans_tree ["Convert raw data"; "scan.tif"] = Some (Picture src) ∧
    read scans_tree_converted ["Convert raw data"; "scan.png"] = Some (Picture out) ∧
    Img.mode out = png_mode (Img.mode src) ∧
    Img.mode out ≠ "F" ∧
    (mem (Img.mode src) ["RGBA"; "LA"; "P"] = true →
     Img.mode out = Img.mode src ∧ Img.data out = Img.data src).
Proof.
  split; [reflexivity|].
  apply (convert_tif_to_png_output_mode plain_library
           ["Convert raw data"; "scan.tif"] ["Convert raw data"; "scan.png"]
           scans_tree scans_tree_converted None).
  reflexivity.
Defined.

(** X6. With delete_original false convert_all_tif_to_png changes no
    file other than the PNG files of the TIFFs it found: every other
    path holds a file with some content after the run exactly when it
    did before, and so does every TIFF that was found. *)
Theorem convert_all_keeping_originals_writes_only_the_png (L : library)
    (t : node) (root_path : path) :
  let r := convert_all_tif_to_png L t root_path false in
  (∀ q d, q ∉ map png_path_of (find_tif_files t root_path) →
     lookup (fs r) q = Some (File d) ↔ lookup t q = Some (File d)) ∧
  (∀ p d, p ∈ find_tif_files t root_path →
     lookup (fs r) p = Some (File d) ↔ lookup t p = Some (File d)).
Proof.
  cbv zeta. rewrite convert_all_loop.
  assert (H : ∀ q d, q ∉ map png_path_of (find_tif_files t root_path) →
     lookup (fs (loop L false (find_tif_files t root_path) (State t 0 0 [] []))) q
       = Some (File d) ↔ lookup t q = Some (File d)).
  { intros q d Hq. by rewrite convert_loop_keep_files. }
  split; [exact H|]. intros p d Hp. apply H.
  intros Hin. apply list_elem_of_fmap in Hin as (p' & Heq & Hp').
  by apply (png_path_not_found t root_path p' p).
Qed.

End convert_more2.



Section convert_delete_facts.
Import PyStr PyPath Fs convert_tif_to_png Terms Examples.

Lemma tif_shaped_ne_png p q : tif_shaped p → tif_shaped q → png_path_of p ≠ q.
Proof.
  intros (dir & name & -> & _) (dir' & name' & -> & Hn) Heq.
  rewrite png_path_of_snoc in Heq. apply app_inj_tail in Heq as [_ <-].
  by rewrite png_name_not_tif in Hn.
Qed.

Lemma is_file_false t p : is_file t p = false ↔ ∀ d, lookup t p ≠ Some (File d).
Proof.
  unfold is_file. destruct (lookup t p) as [[c|es]|]; split; try done.
  intros H. by destruct (H c).
Qed.

Lemma is_file_true t p : is_file t p = true ↔ ∃ d, lookup t p = Some (File d).
Proof.
  unfold is_file. destruct (lookup t p) as [[c|es]|]; split; try done; eauto;
    by intros [d H].
Qed.

(** What a round of the loop that deletes the originals does to the
    files, under an operating system that refuses no removal. *)
Lemma convert_step_delete_files L p st :
  (∀ q, remove_error L q = None) → p ≠ [] → p ≠ png_path_of p →
  let st' := step L true p st in
  (∀ q d, q ≠ png_path_of p → q ≠ p →
     lookup (fs st') q = Some (File d) ↔ lookup (fs st) q = Some (File d)) ∧
  ((fs st' = fs st ∧ errors st' = errors st ++ ["Failed to convert: " +:+ show p]) ∨
   (errors st' = errors st ∧ lookup (fs st') p = None ∧
    ∃ img, lookup (fs st') (png_path_of p) = Some (File (Picture img)) ∧
           Img.format img = "PNG")).
Proof.
  intros Hrm Hnil Hne. cbv zeta. unfold step.
  pose proof (convert_tif_to_png_files L p (png_path_of p) (fs st)) as H.
  destruct (convert_tif_to_png L p (png_path_of p) (fs st)) as [[[] t'] msg];
    destruct H as (Hother & Hok & Hfail).
  - destruct (Hok eq_refl) as ((c & Hsrc) & img & Hpng & Hfmt).
    unfold os_remove. rewrite Hrm.
    assert (Hp' : lookup t' p = Some (File c)) by (by apply Hother).
    destruct (remove p t') as [t''|] eqn:Hr.
    + apply remove_spec in Hr as [Hgone Hrest]. cbn [fs errors]. split.
      * intros q d Hq1 Hq2. rewrite (Hrest q d Hq2). by apply Hother.
      * right. split; [done|]. split; [done|]. exists img. split; [|done].
        apply Hrest; [congruence|done].
    + exfalso. unfold remove, is_file in Hr. rewrite Hp' in Hr.
      destruct (update_defined p None t' (File c) Hnil Hp') as [t'' Ht'']. congruence.
  - cbn [fs errors]. rewrite (Hfail eq_refl). split; [done|]. by left.
Qed.

Lemma converted_or_failed_step L p q st :
  (∀ q, remove_error L q = None) → tif_shaped p → tif_shaped q →
  converted_or_failed st q → converted_or_failed (step L true p st) q.
Proof.
  intros Hrm Hp Hq Hdone.
  assert (Hnil : p ≠ []) by (destruct Hp as (dir & name & -> & _); by destruct dir).
  assert (Hne : p ≠ png_path_of p) by (intros H; by apply (tif_shaped_ne_png p p)).
  destruct (convert_step_delete_files L p st Hrm Hnil Hne) as [Hother Hcases].
  destruct Hdone as [Hf|(Hgone & img & Himg & Hfmt)].
  - left. destruct Hcases as [[_ ->]|[-> _]]; [apply elem_of_app; by left|done].
  - destruct Hcases as [[Hfs He]|(He & Hpgone & img' & Himg' & Hfmt')].
    + right. rewrite Hfs. split; [done|]. by exists img.
    + right. split.
      * apply is_file_false. intros d Hd. destruct (decide (q = p)) as [->|Hqp]; [congruence|].
        rewrite is_file_false in Hgone. apply (Hgone d). apply Hother; [|done|done].
        intros Heq. by apply (tif_shaped_ne_png p q).
      * destruct (decide (png_path_of q = png_path_of p)) as [Heq|Hneq].
        -- exists img'. rewrite Heq. split; [by apply read_Some|done].
        -- exists img. split; [|done]. apply read_Some. apply Hother; [done| |by apply read_Some].
           intros Heq. by apply (tif_shaped_ne_png q p).
Qed.

Lemma converted_or_failed_here L p st :
  (∀ q, remove_error L q = None) → tif_shaped p →
  converted_or_failed (step L true p st) p.
Proof.
  intros Hrm Hp.
  assert (Hnil : p ≠ []) by (destruct Hp as (dir & name & -> & _); by destruct dir).
  assert (Hne : p ≠ png_path_of p) by (intros H; by apply (tif_shaped_ne_png p p)).
  destruct (convert_step_delete_files L p st Hrm Hnil Hne) as [_ Hcases].
  destruct Hcases as [[_ He]|(_ & Hgone & img & Himg & Hfmt)].
  - left. rewrite He. apply elem_of_app. right. by left.
  - right. split; [unfold is_file; by rewrite Hgone|]. exists img. split; [by apply read_Some|done].
Qed.

Lemma converted_or_failed_loop L items st p :
  (∀ q, remove_error L q = None) → Forall tif_shaped items → tif_shaped p →
  p ∈ items ∨ converted_or_failed st p →
  converted_or_failed (loop L true items st) p.
Proof.
  intros Hrm Hall Hp. unfold loop. revert st.
  induction Hall as [|x items Hx Hall IH]; intros st H; cbn [fold_left].
  - destruct H as [H|H]; [by apply elem_of_nil in H|done].
  - apply IH. destruct H as [H|H].
    + apply elem_of_cons in H as [->|H]; [right; by apply converted_or_failed_here|by left].
    + right. by apply converted_or_failed_step.
Qed.

Lemma find_tif_files_tif_shaped t root_path :
  Forall tif_shaped (find_tif_files t root_path).
Proof.
  apply Forall_forall. intros p Hp.
  apply find_tif_files_shape in Hp as (dir & _ & _ & name & _ & _ & -> & Hn).
  by exists dir, name.
Qed.

End convert_delete_facts.

Section convert_more3.
Import PyStr PyPath Fs convert_tif_to_png Terms Examples.

(** X7. With delete_original true, and the operating system refusing no
    removal, every TIFF that was found ends in one of two ways: its
    failure is in the list of errors, or the original is no longer a
    file and its PNG path holds an image of format PNG. *)
Theorem convert_all_deleting_originals_settles_every_tiff (L : library)
    (t : node) (root_path : path) :
  (∀ q, remove_error L q = None) →
  ∀ p, p ∈ find_tif_files t root_path →
    converted_or_failed (convert_all_tif_to_png L t root_path true) p.
Proof.
  intros Hrm p Hp. rewrite convert_all_loop.
  apply converted_or_failed_loop; [done|apply find_tif_files_tif_shaped| |by left].
  pose proof (find_tif_files_tif_shaped t root_path) as H.
  rewrite Forall_forall in H. by apply H.
Qed.

Lemma convert_all_deleting_originals_witness :
  (∀ q, remove_error willing_library q = None) ∧
  ["Convert raw data"; "scan.tif"] ∈ find_tif_files scans_tree ["Convert raw data"] ∧
  converted_or_failed
    (convert_all_tif_to_png willing_library scans_tree ["Convert raw data"] true)
    ["Convert raw data"; "scan.tif"].
Proof.
  assert (H1 : ∀ q, remove_error willing_library q = None) by done.
  assert (H2 : ["Convert raw data"; "scan.tif"]
                 ∈ find_tif_files scans_tree ["Convert raw data"]).
  { apply list_elem_of_In. vm_compute. auto. }
  split; [exact H1|]. split; [exact H2|].
  exact (convert_all_deleting_originals_settles_every_tiff
           willing_library scans_tree ["Convert raw data"] H1 _ H2).
Defined.

End convert_more3.

(** ** delete_post_files.py: the dry run, a second run and the question *)
Section console_facts.
Import PyStr Console Terms.

Lemma confirm_cons l rest :
  confirm (l :: rest) =
  if says_yes l then Proceed else if says_no l then Cancelled else confirm rest.
Proof. reflexivity. Qed.

Lemma confirm_Proceed lines :
  confirm lines = Proceed ↔ ∃ before l, first_answer lines before l ∧ says_yes l = true.
Proof.
  induction lines as [|x lines IH].
  - split; [done|]. intros (before & l & (after & H & _) & _). by destruct before.
  - rewrite confirm_cons. destruct (says_yes x) eqn:Hy.
    + split; [|done]. intros _. exists [], x. split; [|done]. exists lines. by split.
    + destruct (says_no x) eqn:Hn.
      * split; [done|]. intros (before & l & (after & H & Hb) & Hl).
        destruct before as [|b before]; simpl in H; injection H as -> ->; [congruence|].
        apply Forall_cons in Hb as [[_ Hb] _]. congruence.
      * rewrite IH. split.
        -- intros (before & l & (after & -> & Hb) & Hl). exists (x :: before), l.
           split; [|done]. exists after. split; [done|]. by constructor.
        -- intros (before & l & (after & H & Hb) & Hl).
           destruct before as [|b before]; simpl in H; injection H as -> ->; [congruence|].
           apply Forall_cons in Hb as [_ Hb]. exists before, l. split; [|done].
           by exists after.
Qed.

End console_facts.

Section fs_wf_facts.
Import PyPath Fs.

Lemma put_entry_keys nm c es :
  map fst (put_entry nm c es) =
  match assoc nm es with Some _ => map fst es | None => map fst es ++ [nm] end.
Proof.
  induction es as [|[k v] es IH]; simpl; [done|].
  destruct (String.eqb nm k); simpl; [done|]. rewrite IH. by destruct (assoc nm es).
Qed.

Lemma assoc_None_keys nm es : assoc nm es = None → nm ∉ map fst es.
Proof.
  induction es as [|[k v] es IH]; simpl; [intros _; apply not_elem_of_nil|].
  destruct (String.eqb_spec nm k) as [->|Hne]; [done|].
  intros H. apply not_elem_of_cons. split; [done|by apply IH].
Qed.

Lemma elem_of_put_entry nm c es e :
  e ∈ put_entry nm c es → e = (nm, c) ∨ e ∈ es.
Proof.
  induction es as [|[k v] es IH]; simpl.
  - intros H. apply list_elem_of_singleton in H. by left.
  - destruct (String.eqb_spec nm k) as [->|Hne]; intros H;
      apply elem_of_cons in H as [->|H].
    + by left.
    + right. by right.
    + right. by left.
    + destruct (IH H) as [->|H']; [by left|right; by right].
Qed.

Lemma wf_put_entry nm c es : wf (Dir es) → wf c → wf (Dir (put_entry nm c es)).
Proof.
  rewrite !wf_Dir. intros [Hnd Hall] Hc. split.
  - rewrite put_entry_keys. destruct (assoc nm es) eqn:Ha; [done|].
    apply NoDup_app. split; [done|]. split; [|apply NoDup_singleton].
    intros x Hx Hx'. apply list_elem_of_singleton in Hx' as ->.
    by apply assoc_None_keys in Ha.
  - apply Forall_forall. intros e He. apply elem_of_put_entry in He as [->|He]; [done|].
    rewrite Forall_forall in Hall. by apply Hall.
Qed.

Lemma wf_drop_entry nm es : wf (Dir es) → wf (Dir (drop_entry nm es)).
Proof.
  rewrite !wf_Dir. intros [Hnd Hall]. unfold drop_entry. split.
  - induction es as [|[k v] es IH]; simpl; [constructor|].
    simpl in Hnd. apply NoDup_cons in Hnd as [Hk Hnd]. apply Forall_cons in Hall as [_ Hall].
    destruct (negb (String.eqb nm k)); simpl; [|by apply IH].
    apply NoDup_cons. split; [|by apply IH].
    intros Hin. apply Hk. apply list_elem_of_fmap in Hin as (e & -> & He).
    apply list_elem_of_In, filter_In in He as [He _]. apply list_elem_of_fmap.
    exists e. split; [done|]. by apply list_elem_of_In.
  - apply Forall_forall. intros e He. apply list_elem_of_In, filter_In in He as [He _].
    rewrite Forall_forall in Hall. apply Hall. by apply list_elem_of_In.
Qed.

Lemma wf_assoc nm es c : wf (Dir es) → assoc nm es = Some c → wf c.
Proof.
  intros Hwf Ha. apply (wf_lookup (Dir es) [nm] c Hwf). simpl. by rewrite Ha.
Qed.

(** An update keeps the tree well formed. *)
Lemma update_wf p new t t' :
  wf t → (∀ n, new = Some n → wf n) → update p new t = Some t' → wf t'.
Proof.
  revert t t'. induction p as [|nm p IH]; intros t t' Hwf Hnew H; [done|].
  destruct t as [c|es]; [by destruct p|].
  destruct p as [|x p].
  - simpl in H. injection H as <-. destruct new as [n|]; simpl.
    + apply wf_put_entry; [done|by apply Hnew].
    + by apply wf_drop_entry.
  - rewrite update_cons2 in H. destruct (assoc nm es) as [c|] eqn:Ha; [|done].
    destruct (update (x :: p) new c) as [c'|] eqn:Hu; [|done]. injection H as <-.
    apply wf_put_entry; [done|]. apply (IH c c'); [by eapply wf_assoc|done|done].
Qed.

Lemma remove_wf p t t' : wf t → remove p t = Some t' → wf t'.
Proof.
  unfold remove. destruct (is_file t p); [|done]. intros Hwf H.
  by apply (update_wf p None t t').
Qed.


End fs_wf_facts.

Section delete_more_facts.
Import PyStr PyPath Fs delete_post_files Terms Examples.

Lemma delete_step_wf remove_error dry_run p st :
  wf (fs st) → wf (fs (step remove_error dry_run p st)).
Proof.
  intros Hwf. unfold step. destruct dry_run; [done|].
  destruct (exists_ (fs st) p); [|done]. unfold os_remove.
  destruct (remove_error p); [done|].
  destruct (remove p (fs st)) as [t'|] eqn:Hr; [|done]. by apply remove_wf in Hr.
Qed.

Lemma delete_loop_wf remove_error dry_run items st :
  wf (fs st) → wf (fs (loop remove_error dry_run items st)).
Proof.
  unfold loop. revert st. induction items as [|p items IH]; intros st Hwf; [done|].
  cbn [fold_left]. by apply IH, delete_step_wf.
Qed.

Lemma delete_loop_dry_run remove_error items st :
  loop remove_error true items st =
  State (fs st) (success_count st) (error_count st) (errors st)
        (out st ++ map DryRun items).
Proof.
  unfold loop. revert st. induction items as [|p items IH]; intros st; cbn [fold_left map].
  - rewrite app_nil_r. by destruct st.
  - rewrite IH. cbn [step fs success_count error_count errors out].
    by rewrite <- app_assoc.
Qed.

End delete_more_facts.

Section delete_more.
Import PyStr PyPath Fs delete_post_files Terms Examples.

(** X8. A dry run of delete_post_files leaves the file system as it was,
    returns the counts 0 and 0 and no errors, and prints one would-
    delete line for each file that find_post_files finds, in that order. *)
Theorem delete_post_files_dry_run_only_lists (remove_error : path → option string)
    (t : node) (root_path : path) :
  delete_post_files remove_error t root_path true =
  State t 0 0 [] (map DryRun (find_post_files t root_path)).
Proof. rewrite delete_post_files_loop. apply delete_loop_dry_run. Qed.

(** X9. After a real run of delete_post_files over a tree without
    duplicate names, a new scan finds exactly the files of the first
    scan whose removal raised an exception; when no removal is refused
    no file with __post in its name is left under the root. *)
Theorem delete_post_files_again_finds_the_refused
    (remove_error : path → option string) (t : node) (root_path : path) :
  wf t →
  let t' := fs (delete_post_files remove_error t root_path false) in
  wf t' ∧
  (∀ q, q ∈ find_post_files t' root_path ↔
        q ∈ find_post_files t root_path ∧ remove_error q ≠ None) ∧
  ((∀ q, remove_error q = None) → find_post_files t' root_path = []).
Proof.
  intros Hwf. cbv zeta.
  assert (Hwf' : wf (fs (delete_post_files remove_error t root_path false))).
  { rewrite delete_post_files_loop. by apply delete_loop_wf. }
  assert (Hiff : ∀ q, q ∈ find_post_files
                        (fs (delete_post_files remove_error t root_path false)) root_path ↔
                      q ∈ find_post_files t root_path ∧ remove_error q ≠ None).
  { intros q. rewrite (find_post_files_spec _ root_path q Hwf').
    rewrite (find_post_files_spec t root_path q Hwf). unfold post_file.
    assert (Hfiles : ∀ d,
      lookup (fs (delete_post_files remove_error t root_path false)) q = Some (File d) ↔
      lookup t q = Some (File d) ∧
      ¬ (q ∈ find_post_files t root_path ∧ remove_error q = None)).
    { intros d. rewrite delete_post_files_loop.
      apply (loop_files remove_error _ (State t 0 0 [] [])), find_post_files_nonempty. }
    split.
    - intros (rel & name & c & -> & Hl & Hp). apply Hfiles in Hl as [Hl Hnot].
      assert (Hin : post_file t root_path (root_path ++ rel ++ [name])) by (by exists rel, name, c).
      split; [exact Hin|]. intros He. apply Hnot. split; [|done].
      by apply find_post_files_spec.
    - intros [(rel & name & c & -> & Hl & Hp) He]. exists rel, name, c.
      split; [done|]. split; [|done]. apply Hfiles. split; [done|]. by intros [_ H]. }
  split; [exact Hwf'|]. split; [exact Hiff|].
  intros Hnone.
  destruct (find_post_files _ root_path) as [|q l] eqn:Hf; [done|].
  exfalso. destruct (proj1 (Hiff q)) as [_ H]; [by left|]. by apply H.
Qed.

Lemma delete_post_files_again_witness :
  wf posts_tree ∧
  find_post_files (fs (delete_post_files allow_all posts_tree ["PNG_Files"] false))
                  ["PNG_Files"] = [].
Proof.
  split; [reflexivity|].
  refine (proj2 (proj2 (delete_post_files_again_finds_the_refused
                          allow_all posts_tree ["PNG_Files"] eq_refl)) _).
  done.
Defined.

(** X10. main of delete_post_files.py deletes only once the question is
    answered with yes: the file system is that of a real run of
    delete_post_files when the first line of input that reads yes, y, no
    or n (case and surrounding white space aside) reads yes or y, and is
    unchanged otherwise, also when the input ends first. The input that
    the pipeline feeds this script makes it proceed. *)
Theorem delete_post_files_main_waits_for_a_yes
    (remove_error : path → option string) (t : node) (lines : list string) :
  fst (main remove_error t lines) =
    match Console.confirm lines with
    | Console.Proceed => fs (delete_post_files remove_error t ["PNG_Files"] false)
    | _ => t
    end ∧
  (Console.confirm lines = Console.Proceed ↔
   ∃ before l, first_answer lines before l ∧ says_yes l = true) ∧
  (∀ s, s ∈ run_full_pipeline.SCRIPTS →
        run_full_pipeline.se_script s = "delete_post_files.py" →
        Console.confirm (Console.stdin_lines (input_of s)) = Console.Proceed).
Proof.
  split; [|split].
  - unfold main. destruct (find_post_files t ["PNG_Files"]) eqn:Hf.
    + destruct (Console.confirm lines); try done.
      unfold delete_post_files. by rewrite Hf.
    + by destruct (Console.confirm lines).
  - apply confirm_Proceed.
  - intros s Hs Hname.
    repeat (apply elem_of_cons in Hs as [->|Hs]; [try discriminate Hname; try reflexivity|]).
    by apply elem_of_nil in Hs.
Qed.

End delete_more.

(** ** rename_folders.py: the renaming run *)
Section fs_more_facts.
Import PyPath Fs Terms.

(** Files that are not below the updated path are the same before and
    after. *)
Lemma update_file_away p new t t' q d :
  update p new t = Some t' → ¬ p `prefix_of` q →
  lookup t' q = Some (File d) ↔ lookup t q = Some (File d).
Proof.
  revert t t' q. induction p as [|nm p IH]; intros t t' q H Hpre; [done|].
  destruct t as [c|es]; [by destruct p|].
  destruct q as [|y q].
  { destruct (update_root_dir _ _ _ _ H) as (es1 & es2 & _ & ->). done. }
  destruct (decide (y = nm)) as [->|Hy].
  - destruct p as [|x p].
    + exfalso. apply Hpre. by exists q.
    + rewrite update_cons2 in H. destruct (assoc nm es) as [c|] eqn:Ha; [|done].
      destruct (update (x :: p) new c) as [c'|] eqn:Hu; [|done].
      injection H as <-. cbn [lookup]. rewrite assoc_put_eq, Ha.
      apply (IH c c' q Hu). intros [k Hk]. apply Hpre. exists k. by rewrite Hk.
  - assert (Ha : ∃ es', t' = Dir es' ∧ assoc y es' = assoc y es).
    { destruct p as [|x p].
      - simpl in H. injection H as <-. eexists. split; [done|]. by apply assoc_set_ne.
      - rewrite update_cons2 in H. destruct (assoc nm es) as [c|]; [|done].
        destruct (update (x :: p) new c) as [c'|]; [|done].
        injection H as <-. eexists. split; [done|]. by apply assoc_put_ne. }
    destruct Ha as (es' & -> & Ha). cbn [lookup]. by rewrite Ha.
Qed.

(** A removal leaves free what was free. *)
Lemma update_None_keeps_None p t t' q :
  update p None t = Some t' → lookup t q = None → lookup t' q = None.
Proof.
  revert t t' q. induction p as [|nm p IH]; intros t t' q H Hq; [done|].
  destruct t as [c|es]; [by destruct p|].
  destruct q as [|y q]; [done|]. cbn [lookup] in Hq.
  destruct (decide (y = nm)) as [->|Hy].
  - destruct p as [|x p].
    + simpl in H. injection H as <-. cbn [lookup]. by rewrite assoc_drop_eq.
    + rewrite update_cons2 in H. destruct (assoc nm es) as [c|] eqn:Ha; [|done].
      destruct (update (x :: p) None c) as [c'|] eqn:Hu; [|done].
      injection H as <-. cbn [lookup]. rewrite assoc_put_eq. by apply (IH c).
  - destruct p as [|x p].
    + simpl in H. injection H as <-. cbn [lookup]. by rewrite assoc_drop_ne.
    + rewrite update_cons2 in H. destruct (assoc nm es) as [c|]; [|done].
      destruct (update (x :: p) None c) as [c'|]; [|done].
      injection H as <-. cbn [lookup]. by rewrite assoc_put_ne.
Qed.

Lemma lookup_prefix_Some t p r n :
  lookup t (p ++ r) = Some n → ∃ m, lookup t p = Some m.
Proof. rewrite fs_lookup_app. destruct (lookup t p); [eauto|done]. Qed.

Lemma drop_entry_fresh nm es : nm ∉ map fst es → drop_entry nm es = es.
Proof.
  induction es as [|[k v] es IH]; [done|]. cbn [map fst]. intros H.
  apply not_elem_of_cons in H as [Hk H]. unfold drop_entry in *. cbn [List.filter fst].
  rewrite (eqb_false_ne nm k Hk). cbn [negb]. by rewrite IH.
Qed.

Lemma drop_entry_perm nm es n :
  NoDup (map fst es) → assoc nm es = Some n → es ≡ₚ (nm, n) :: drop_entry nm es.
Proof.
  induction es as [|[k v] es IH]; [done|]. cbn [map fst assoc]. intros Hnd Ha.
  apply NoDup_cons in Hnd as [Hk Hnd].
  destruct (String.eqb_spec nm k) as [->|Hne].
  - injection Ha as ->. unfold drop_entry. cbn [List.filter fst].
    rewrite String.eqb_refl. cbn [negb].
    fold (drop_entry k es). by rewrite drop_entry_fresh.
  - unfold drop_entry. cbn [List.filter fst]. rewrite (eqb_false_ne nm k Hne). cbn [negb].
    fold (drop_entry nm es). rewrite (IH Hnd Ha) at 1. apply Permutation_swap.
Qed.

Lemma put_entry_perm nm c es n :
  NoDup (map fst es) → assoc nm es = Some n →
  put_entry nm c es ≡ₚ (nm, c) :: drop_entry nm es.
Proof.
  induction es as [|[k v] es IH]; [done|]. cbn [map fst assoc put_entry]. intros Hnd Ha.
  apply NoDup_cons in Hnd as [Hk Hnd].
  destruct (String.eqb_spec nm k) as [->|Hne].
  - unfold drop_entry. cbn [List.filter fst]. rewrite String.eqb_refl. cbn [negb].
    fold (drop_entry k es). by rewrite drop_entry_fresh.
  - unfold drop_entry. cbn [List.filter fst]. rewrite (eqb_false_ne nm k Hne). cbn [negb].
    fold (drop_entry nm es). rewrite (IH Hnd Ha). apply Permutation_swap.
Qed.

Lemma put_entry_fresh nm c es : assoc nm es = None → put_entry nm c es = es ++ [(nm, c)].
Proof.
  induction es as [|[k v] es IH]; [done|]. cbn [assoc put_entry].
  destruct (String.eqb nm k); [done|]. intros H. by rewrite IH.
Qed.

Lemma all_files_perm es es' :
  es ≡ₚ es' → all_files (Dir es) ≡ₚ all_files (Dir es').
Proof. intros H. cbn [all_files]. by rewrite H. Qed.

(** Taking a node out of a tree takes its files out. *)
Lemma all_files_remove p t t' n :
  wf t → lookup t p = Some n → update p None t = Some t' →
  all_files t ≡ₚ all_files n ++ all_files t'.
Proof.
  revert t t'. induction p as [|nm p IH]; intros t t' Hwf Hl H; [done|].
  destruct t as [c|es]; [by destruct p|].
  pose proof Hwf as Hwf0. apply wf_Dir in Hwf as [Hnd Hall].
  cbn [lookup] in Hl. destruct (assoc nm es) as [c|] eqn:Ha; [|done].
  destruct p as [|x p].
  - simpl in H, Hl. injection H as <-. injection Hl as ->.
    rewrite (all_files_perm _ _ (drop_entry_perm nm es n Hnd Ha)). done.
  - rewrite update_cons2, Ha in H.
    destruct (update (x :: p) None c) as [c'|] eqn:Hu; [|done]. injection H as <-.
    rewrite (all_files_perm _ _ (drop_entry_perm nm es c Hnd Ha)).
    rewrite (all_files_perm _ _ (put_entry_perm nm c' es c Hnd Ha)).
    cbn [all_files flat_map snd].
    rewrite (IH c c' (wf_assoc _ _ _ Hwf0 Ha) Hl Hu). by rewrite <- app_assoc.
Qed.

(** Putting a node at a free place adds its files. *)
Lemma all_files_insert p t t' n :
  wf t → lookup t p = None → update p (Some n) t = Some t' →
  all_files t' ≡ₚ all_files n ++ all_files t.
Proof.
  revert t t'. induction p as [|nm p IH]; intros t t' Hwf Hl H; [done|].
  destruct t as [c|es]; [by destruct p|].
  pose proof Hwf as Hwf0. apply wf_Dir in Hwf as [Hnd Hall].
  cbn [lookup] in Hl.
  destruct p as [|x p].
  - simpl in H. injection H as <-.
    destruct (assoc nm es) as [c|] eqn:Ha; [done|].
    rewrite put_entry_fresh by done. cbn [all_files]. rewrite flat_map_app. simpl.
    rewrite app_nil_r. apply Permutation_app_comm.
  - rewrite update_cons2 in H. destruct (assoc nm es) as [c|] eqn:Ha; [|done].
    destruct (update (x :: p) (Some n) c) as [c'|] eqn:Hu; [|done]. injection H as <-.
    rewrite (all_files_perm _ _ (drop_entry_perm nm es c Hnd Ha)).
    rewrite (all_files_perm _ _ (put_entry_perm nm c' es c Hnd Ha)).
    cbn [all_files flat_map snd].
    rewrite (IH c c' (wf_assoc _ _ _ Hwf0 Ha) Hl Hu). by rewrite <- app_assoc.
Qed.

(** A rename onto a free name keeps the files, moves those below the
    old name and leaves the others where they are. *)
Lemma rename_free old new t t' :
  wf t → lookup t new = None → rename old new t = Some t' →
  wf t' ∧ all_files t' ≡ₚ all_files t ∧
  ∀ q d, ¬ old `prefix_of` q → lookup t q = Some (File d) → lookup t' q = Some (File d).
Proof.
  intros Hwf Hnew. unfold rename.
  destruct (lookup t old) as [n|] eqn:Hold; [|done].
  destruct (bool_decide (old = new)) eqn:Heq.
  { apply bool_decide_eq_true in Heq as ->. congruence. }
  rewrite Hnew. destruct (update old None t) as [t1|] eqn:H1; [|done]. intros H2.
  assert (Hwf1 : wf t1) by (by apply (update_wf old None t t1)).
  assert (Hn : wf n) by (by apply (wf_lookup t old n)).
  assert (Hfree : lookup t1 new = None) by (by apply (update_None_keeps_None old t t1)).
  split; [|split].
  - apply (update_wf new (Some n) t1 t'); [done| |done]. by intros m [= <-].
  - rewrite (all_files_insert new t1 t' n Hwf1 Hfree H2).
    by rewrite (all_files_remove old t t1 n Hwf Hold H1).
  - intros q d Hpre Hq.
    assert (Hq1 : lookup t1 q = Some (File d)) by (by apply (update_file_away old None t t1)).
    apply (update_file_away new (Some n) t1 t'); [done| |done].
    intros [k ->]. apply lookup_prefix_Some in Hq1 as [m Hm]. congruence.
Qed.

End fs_more_facts.

Section console_more_facts.
Import PyStr Console Terms.

Lemma confirm_Cancelled lines :
  confirm lines = Cancelled ↔
  ∃ before l, first_answer lines before l ∧ says_yes l = false ∧ says_no l = true.
Proof.
  induction lines as [|x lines IH].
  - split; [done|]. intros (before & l & (after & H & _) & _). by destruct before.
  - rewrite confirm_cons. destruct (says_yes x) eqn:Hy.
    + split; [done|]. intros (before & l & (after & H & Hb) & Hl1 & Hl2).
      destruct before as [|b before]; simpl in H; injection H as -> ->; [congruence|].
      apply Forall_cons in Hb as [[Hb _] _]. congruence.
    + destruct (says_no x) eqn:Hn.
      * split; [|done]. intros _. exists [], x. split; [|done]. exists lines. by split.
      * rewrite IH. split.
        -- intros (before & l & (after & -> & Hb) & Hl). exists (x :: before), l.
           split; [|done]. exists after. split; [done|]. by constructor.
        -- intros (before & l & (after & H & Hb) & Hl1 & Hl2).
           destruct before as [|b before]; simpl in H; injection H as -> ->; [congruence|].
           apply Forall_cons in Hb as [_ Hb]. exists before, l. split; [|done].
           by exists after.
Qed.

End console_more_facts.

Section rename_scan_facts.
Import PyStr PyPath Fs rename_folders Terms Examples.

(** Every directory that a walk lists is a directory of the tree. *)
Lemma walk_node_dirs_sound t :
  ∀ base root dirs files d,
    wf t → (root, dirs, files) ∈ walk_node base t → d ∈ dirs →
    ∃ rel es, root = base ++ rel ∧ lookup t (rel ++ [d]) = Some (Dir es).
Proof.
  induction t as [c|es IH] using node_tree_ind; intros base root dirs files d Hwf Hin Hd.
  { by apply elem_of_nil in Hin. }
  apply wf_Dir in Hwf as [Hnd Hall]. simpl in Hin.
  apply elem_of_cons in Hin as [[= -> -> ->]|Hin].
  - apply elem_of_dirnames in Hd as [es' Hc]. exists [], es'.
    split; [by rewrite app_nil_r|]. simpl. by rewrite (assoc_NoDup _ _ _ Hnd Hc).
  - apply elem_of_flat_map in Hin as ([k v] & Hkv & Hin). simpl in Hin.
    rewrite Forall_forall in IH, Hall.
    destruct (IH (k, v) Hkv (base ++ [k]) root dirs files d (Hall _ Hkv) Hin Hd)
      as (rel & es' & -> & Hl).
    exists (k :: rel), es'. split; [by rewrite <- app_assoc|].
    simpl. by rewrite (assoc_NoDup _ _ _ Hnd Hkv).
Qed.

Lemma walk_dirs_sound t root_path root dirs files d :
  wf t → (root, dirs, files) ∈ walk t root_path → d ∈ dirs →
  ∃ rel es, root = root_path ++ rel ∧ lookup t (root ++ [d]) = Some (Dir es).
Proof.
  intros Hwf Hin Hd. unfold walk in Hin.
  destruct (lookup t root_path) as [n|] eqn:Hn; [|by apply elem_of_nil in Hin].
  destruct (walk_node_dirs_sound n root_path root dirs files d (wf_lookup _ _ _ Hwf Hn) Hin Hd)
    as (rel & es & -> & Hl).
  exists rel, es. split; [done|]. by rewrite <- app_assoc, fs_lookup_app, Hn.
Qed.

(** The proposal for one directory, if there is one. *)
Lemma proposal_inv root dir_name item :
  item ∈ proposal root dir_name →
  ∃ new_name rename_type,
    item = (root ++ [dir_name], root ++ [new_name], rename_type) ∧
    proposed_name dir_name new_name.
Proof.
  unfold proposal, proposed_name, choose_name. fold (mentions_tumour dir_name).
  destruct (mentions_tumour dir_name) eqn:Ht.
  - cbn [orb andb]. rewrite andb_true_r. destruct (contains "_" dir_name) eqn:Hu.
    + destruct (String.eqb_spec "tumour" dir_name) as [<-|Hne]; cbn [negb andb];
        intros H; [by apply elem_of_nil in H|].
      apply list_elem_of_singleton in H as ->. eexists _, _. split; [done|].
      repeat split; done.
    + set (n3 := if contains "TUMOR" dir_name then _ else _).
      destruct (String.eqb_spec n3 "") as [He|He]; cbn [negb andb];
        [intros H; by apply elem_of_nil in H|].
      destruct (String.eqb_spec n3 dir_name) as [Hs|Hs]; cbn [negb];
        intros H; [by apply elem_of_nil in H|].
      apply list_elem_of_singleton in H as ->. exists n3. eexists. split; [done|].
      split; [done|]. split; [done|].
      destruct (contains "Tumor" dir_name), (contains "tumor" dir_name),
        (contains "TUMOR" dir_name); done.
  - destruct (contains "healthy" (lower dir_name)) eqn:Hh; cbn [andb];
      [|intros H; by apply elem_of_nil in H].
    destruct (String.eqb_spec (lower dir_name) "healthy") as [Hl|Hl]; cbn [negb];
      [intros H; by apply elem_of_nil in H|].
    assert (Hne : "healthy" ≠ dir_name).
    { intros <-. by apply Hl. }
    destruct (contains "_" dir_name); cbn [andb];
      rewrite (eqb_false_ne "healthy" dir_name Hne); cbn [negb andb];
      intros H; apply list_elem_of_singleton in H as ->; eexists _, _;
      (split; [done|]); repeat split; done.
Qed.

End rename_scan_facts.

Section rename_loop_facts.
Import PyStr PyPath Fs rename_folders Terms Examples.

(** What a round of the loop keeps. *)
Lemma rename_step_keeps rename_error dry_run o n ty st :
  wf (fs st) →
  let st' := step rename_error dry_run (o, n, ty) st in
  wf (fs st') ∧ all_files (fs st') ≡ₚ all_files (fs st) ∧
  (∀ q d, ¬ o `prefix_of` q → lookup (fs st) q = Some (File d) →
          lookup (fs st') q = Some (File d)) ∧
  (success_count st' + error_count st' ≤ S (success_count st + error_count st))%nat ∧
  (error_count st = length (errors st) → error_count st' = length (errors st')).
Proof.
  intros Hwf. cbv zeta. unfold step. destruct dry_run.
  { cbn [fs success_count error_count errors]. repeat split; try done; try lia. }
  destruct (exists_ (fs st) o); cycle 1.
  { cbn [fs success_count error_count errors]. repeat split; try done; try lia. }
  destruct (exists_ (fs st) n) eqn:Hn.
  { cbn [fs success_count error_count errors]. repeat split; try done; try lia. }
  unfold os_rename. destruct (rename_error o n).
  { cbn [fs success_count error_count errors]. rewrite length_app. simpl.
    repeat split; try done; try lia. }
  destruct (rename o n (fs st)) as [t'|] eqn:Hr.
  - cbn [fs success_count error_count errors].
    unfold exists_ in Hn. destruct (lookup (fs st) n) eqn:Hl; [done|].
    destruct (rename_free o n (fs st) t' Hwf Hl Hr) as (H1 & H2 & H3).
    repeat split; try done; try lia.
  - cbn [fs success_count error_count errors]. rewrite length_app. simpl.
    repeat split; try done; try lia.
Qed.

Lemma rename_loop_keeps rename_error dry_run items st :
  wf (fs st) →
  let st' := loop rename_error dry_run items st in
  wf (fs st') ∧ all_files (fs st') ≡ₚ all_files (fs st) ∧
  (∀ q d, (∀ o, o ∈ old_paths items → ¬ o `prefix_of` q) →
          lookup (fs st) q = Some (File d) → lookup (fs st') q = Some (File d)) ∧
  (success_count st' + error_count st' ≤ success_count st + error_count st + length items)%nat ∧
  (error_count st = length (errors st) → error_count st' = length (errors st')).
Proof.
  unfold loop. revert st. induction items as [|[[o n] ty] items IH]; intros st Hwf.
  { cbn [fold_left length]. repeat split; try done; try lia. }
  cbn [fold_left length].
  destruct (rename_step_keeps rename_error dry_run o n ty st Hwf) as (H1 & H2 & H3 & H4 & H5).
  destruct (IH _ H1) as (I1 & I2 & I3 & I4 & I5). cbv zeta in *.
  split; [done|]. split; [by rewrite I2|]. split; [|split; [lia|auto]].
  intros q d Hq Hl. apply I3.
  - intros o' Ho'. apply Hq. unfold old_paths. cbn [map]. by right.
  - apply H3; [|done]. apply Hq. unfold old_paths. cbn [map fst]. by left.
Qed.

Lemma rename_loop_dry_run rename_error items st :
  loop rename_error true items st =
  State (fs st) (success_count st) (error_count st) (errors st)
        (out st ++ map (λ '(o, n, ty), DryRun ty o n) items).
Proof.
  unfold loop. revert st. induction items as [|[[o n] ty] items IH]; intros st;
    cbn [fold_left map].
  - rewrite app_nil_r. by destruct st.
  - rewrite IH. cbn [step fs success_count error_count errors out].
    by rewrite <- app_assoc.
Qed.

Lemma rename_folders_loop rename_error t root_path dry_run :
  rename_folders rename_error t root_path dry_run =
  loop rename_error dry_run (find_folders_to_rename t root_path) (State t 0 0 [] []).
Proof. unfold rename_folders. by destruct (find_folders_to_rename t root_path). Qed.

End rename_loop_facts.

Section rename_more.
Import PyStr PyPath Fs rename_folders Terms Examples.

(** X11. Every rename that find_folders_to_rename proposes in a tree
    without duplicate names gives an existing directory below the root a
    different, non-empty name in the same parent directory: tumour when
    the old name mentions tumor or tumour and has an underscore, healthy
    when it mentions healthy and neither of the two. A folder whose name
    is healthy in any mix of cases, such as Healthy, is never proposed. *)
Theorem find_folders_to_rename_proposes_siblings (t : node) (root_path : path) :
  (wf t →
   ∀ old_path new_path rename_type,
     (old_path, new_path, rename_type) ∈ find_folders_to_rename t root_path →
     ∃ dir name new_name,
       old_path = dir ++ [name] ∧ new_path = dir ++ [new_name] ∧
       root_path `prefix_of` dir ∧ is_dir t old_path = true ∧
       proposed_name name new_name) ∧
  (∀ root dir_name, lower dir_name = "healthy" → proposal root dir_name = []).
Proof.
  split.
  2:{ intros root dir_name Hl. unfold proposal, choose_name. rewrite Hl. reflexivity. }
  intros Hwf o n ty Hin. unfold find_folders_to_rename in Hin.
  apply elem_of_flat_map in Hin as ([[root dirs] files] & Hw & Hin).
  apply elem_of_flat_map in Hin as (d & Hd & Hin).
  apply proposal_inv in Hin as (new_name & ty' & [= -> -> ->] & Hp).
  destruct (walk_dirs_sound t root_path root dirs files d Hwf Hw Hd) as (rel & es & -> & Hl).
  exists (root_path ++ rel), d, new_name. split; [done|]. split; [done|].
  split; [by exists rel|]. split; [|done]. unfold is_dir. by rewrite Hl.
Qed.

Lemma find_folders_to_rename_witness :
  wf labelled_tree ∧
  (["PNG_Files"; "241108_CRC_Healthy"], ["PNG_Files"; "healthy"],
   Some "241108_CRC_Healthy → healthy")
    ∈ find_folders_to_rename labelled_tree ["PNG_Files"] ∧
  ∃ dir name new_name,
    ["PNG_Files"; "241108_CRC_Healthy"] = dir ++ [name] ∧
    ["PNG_Files"; "healthy"] = dir ++ [new_name] ∧
    ["PNG_Files"] `prefix_of` dir ∧
    is_dir labelled_tree ["PNG_Files"; "241108_CRC_Healthy"] = true ∧
    proposed_name name new_name.
Proof.
  assert (H : (["PNG_Files"; "241108_CRC_Healthy"], ["PNG_Files"; "healthy"],
               Some "241108_CRC_Healthy → healthy")
                ∈ find_folders_to_rename labelled_tree ["PNG_Files"]).
  { apply list_elem_of_In. vm_compute. auto. }
  split; [reflexivity|]. split; [exact H|].
  exact (proj1 (find_folders_to_rename_proposes_siblings labelled_tree ["PNG_Files"])
           eq_refl _ _ _ H).
Defined.

(** X12. rename_folders loses and duplicates no file: over a tree
    without duplicate names the files of the tree after the run are
    those before it, the tree still has no duplicate names, and a file
    that is not inside a folder proposed for renaming stays at its path.
    The two counters together never exceed the number of proposals and
    error_count is the number of recorded errors. *)
Theorem rename_folders_keeps_every_file
    (rename_error : path → path → option string) (t : node) (root_path : path)
    (dry_run : bool) :
  wf t →
  let items := find_folders_to_rename t root_path in
  let r := rename_folders rename_error t root_path dry_run in
  wf (fs r) ∧
  all_files (fs r) ≡ₚ all_files t ∧
  (∀ q d, (∀ o, o ∈ old_paths items → ¬ o `prefix_of` q) →
          lookup t q = Some (File d) → lookup (fs r) q = Some (File d)) ∧
  (success_count r + error_count r ≤ length items)%nat ∧
  error_count r = length (errors r).
Proof.
  intros Hwf. cbv zeta. rewrite rename_folders_loop.
  destruct (rename_loop_keeps rename_error dry_run (find_folders_to_rename t root_path)
              (State t 0 0 [] []) Hwf) as (H1 & H2 & H3 & H4 & H5).
  cbv zeta in *. cbn [fs success_count error_count errors length] in *.
  split; [done|]. split; [done|]. split; [done|]. split; [lia|auto].
Qed.

(** X13. A dry run of rename_folders leaves the file system as it was,
    returns the counts 0 and 0 and no errors, and prints one would-
    rename line for each proposal of find_folders_to_rename, in that
    order. *)
Theorem rename_folders_dry_run_only_lists
    (rename_error : path → path → option string) (t : node) (root_path : path) :
  rename_folders rename_error t root_path true =
  State t 0 0 [] (map (λ '(o, n, ty), DryRun ty o n) (find_folders_to_rename t root_path)).
Proof. rewrite rename_folders_loop. apply rename_loop_dry_run. Qed.

Lemma rename_folders_keeps_every_file_witness :
  wf labelled_tree ∧
  all_files (fs (rename_folders rename_freely labelled_tree ["PNG_Files"] false))
    ≡ₚ all_files labelled_tree ∧
  lookup (fs (rename_folders rename_freely labelled_tree ["PNG_Files"] false))
         ["PNG_Files"; "tumour"; "a.png"] = Some (File (Text "a")).
Proof.
  split; [reflexivity|]. split; [|reflexivity].
  exact (proj1 (proj2 (rename_folders_keeps_every_file
                         rename_freely labelled_tree ["PNG_Files"] false eq_refl))).
Defined.

(** X14. main of rename_folders.py renames only once the question is
    answered with yes: the file system is that of a real run of
    rename_folders when the first line of input that reads yes, y, no or
    n (case and surrounding white space aside) reads yes or y, and is
    unchanged otherwise; the question loop ends as cancelled exactly
    when that line reads no or n. *)
Theorem rename_folders_main_waits_for_a_yes
    (rename_error : path → path → option string) (t : node) (lines : list string) :
  fst (main rename_error t lines) =
    match Console.confirm lines with
    | Console.Proceed => fs (rename_folders rename_error t ["PNG_Files"] false)
    | _ => t
    end ∧
  (Console.confirm lines = Console.Proceed ↔
   ∃ before l, first_answer lines before l ∧ says_yes l = true) ∧
  (Console.confirm lines = Console.Cancelled ↔
   ∃ before l, first_answer lines before l ∧ says_yes l = false ∧ says_no l = true).
Proof.
  split; [|split].
  - unfold main. destruct (find_folders_to_rename t ["PNG_Files"]) eqn:Hf.
    + destruct (Console.confirm lines); try done.
      unfold rename_folders. by rewrite Hf.
    + by destruct (Console.confirm lines).
  - apply confirm_Proceed.
  - apply confirm_Cancelled.
Qed.

End rename_more.

(** ** count_png_files.py: the totals *)
Section count_more_facts.
Import PyStr PyPath Fs count_png_files Terms Examples.

Lemma total_add_count k n (counts : gmap string nat) :
  total (add_count k n counts) = (total counts + n)%nat.
Proof.
  unfold total, add_count.
  assert (Hcomm : ∀ (m : gmap string nat) (j1 j2 : string) (z1 z2 y : nat),
            j1 ≠ j2 → m !! j1 = Some z1 → m !! j2 = Some z2 →
            (z1 + (z2 + y) = z2 + (z1 + y))%nat) by (intros; lia).
  destruct (counts !! k) as [x|] eqn:Hk; cbn [default].
  - rewrite <- insert_delete_eq.
    rewrite map_fold_insert_L; [|by apply Hcomm|by rewrite lookup_delete_eq].
    rewrite (map_fold_delete_L _ _ k x counts); [|by apply Hcomm|done]. unfold id. lia.
  - rewrite map_fold_insert_L; [lia|by apply Hcomm|done].
Qed.

Lemma add_count_positive k n (counts : gmap string nat) :
  (0 < n)%nat → (∀ j x, counts !! j = Some x → (0 < x)%nat) →
  ∀ j x, add_count k n counts !! j = Some x → (0 < x)%nat.
Proof.
  intros Hn Hpos j x. unfold add_count. destruct (decide (j = k)) as [->|Hne].
  - rewrite lookup_insert_eq. intros [= <-]. lia.
  - rewrite lookup_insert_ne by done. apply Hpos.
Qed.

Lemma list_sum_cons (x : nat) (l : list nat) : list_sum (x :: l) = (x + list_sum l)%nat.
Proof. reflexivity. Qed.

Lemma count_visit_all_sum directory entries acc acc' :
  visit_all directory entries acc = Some acc' →
  let found := list_sum (map (λ '(root, _, files),
                   if bool_decide (root = directory) then 0%nat
                   else length (consolidate_png_files.png_files_of files)) entries) in
  total (fst acc') = (total (fst acc) + found)%nat ∧
  snd acc' = (snd acc + found)%nat ∧
  ((∀ j x, fst acc !! j = Some x → (0 < x)%nat) →
   ∀ j x, fst acc' !! j = Some x → (0 < x)%nat).
Proof.
  revert acc. induction entries as [|[[root dirs] files] entries IH]; intros acc H.
  { simpl in H. injection H as <-. simpl. rewrite !Nat.add_0_r. done. }
  cbn [visit_all] in H.
  destruct (visit directory (root, dirs, files) acc) as [acc1|] eqn:H1; [|done].
  destruct (IH acc1 H) as (I1 & I2 & I3). cbv zeta in *. cbn [map]. rewrite list_sum_cons.
  destruct acc as [counts total_files]. unfold visit in H1.
  destruct (bool_decide (root = directory)).
  { injection H1 as <-. cbn [fst snd] in *. split; [lia|]. split; [lia|done]. }
  destruct (consolidate_png_files.png_files_of files) as [|g gs] eqn:Hpf.
  { injection H1 as <-. cbn [fst snd length] in *. split; [lia|]. split; [lia|done]. }
  destruct (relative_to root directory) as [parts|]; [|done].
  injection H1 as <-. cbn [fst snd] in *. rewrite total_add_count in I1.
  cbn [length]. split; [lia|]. split; [lia|]. intros Hpos. apply I3.
  apply add_count_positive; [simpl; lia|done].
Qed.

Lemma total_empty : total ∅ = 0%nat.
Proof. unfold total. by rewrite map_fold_empty. Qed.

Lemma count_directory_files_spec t directory :
  ∃ counts,
    count_directory_files t directory = Some counts ∧
    total counts = png_below t directory ∧
    (∀ k n, counts !! k = Some n → (0 < n)%nat) ∧
    (exists_ t directory = false → counts = ∅).
Proof.
  unfold count_directory_files, png_below.
  destruct (exists_ t directory) eqn:Hex; cbn [negb].
  - destruct (visit_all_total directory (walk t directory) (∅, 0%nat)) as [[counts n] Hv].
    { intros root dirs files Hin. by apply walk_roots in Hin. }
    rewrite Hv. exists counts. split; [done|].
    destruct (count_visit_all_sum _ _ _ _ Hv) as (H1 & _ & H3). cbv zeta in *.
    cbn [fst] in *. rewrite total_empty in H1. split; [done|]. split; [|done].
    apply H3. intros j x Hj. by rewrite lookup_empty in Hj.
  - exists ∅. split; [done|]. unfold walk, exists_ in *.
    destruct (lookup t directory); [done|]. split; [apply total_empty|]. split; [|done].
    intros k n Hk. by rewrite lookup_empty in Hk.
Qed.

End count_more_facts.

Section count_more.
Import PyStr PyPath Fs count_png_files Terms Examples.

(** X15. count_directory_files always returns: its counts add up to the
    number of PNG files in the directories strictly below the given
    directory (files directly in it are not counted), every category it
    lists has a positive count, and for a directory that does not exist
    the result is empty. *)
Theorem count_directory_files_adds_up (t : node) (directory : path) :
  ∃ counts,
    count_directory_files t directory = Some counts ∧
    total counts = png_below t directory ∧
    (∀ k n, counts !! k = Some n → (0 < n)%nat) ∧
    (exists_ t directory = false → counts = ∅).
Proof. apply count_directory_files_spec. Qed.

(** X16. count_png_files reports as totals the numbers of PNG files
    strictly below PNG_Files and strictly below Processed, and says that
    all files were copied exactly when the two numbers are equal;
    without a Processed directory the processed total is 0 and no
    category is extra in Processed. *)
Theorem count_png_files_compares_the_totals (t : node) :
  ∃ c,
    count_png_files.count_png_files t = Some c ∧
    original_total c = png_below t ["PNG_Files"] ∧
    processed_total c = png_below t ["Processed"] ∧
    (all_copied c = true ↔ png_below t ["PNG_Files"] = png_below t ["Processed"]) ∧
    (exists_ t ["Processed"] = false →
     processed_total c = 0%nat ∧ extra_in_processed c = ∅).
Proof.
  unfold count_png_files.count_png_files.
  destruct (count_directory_files_spec t ["PNG_Files"]) as (oc & -> & Ho & _).
  destruct (count_directory_files_spec t ["Processed"]) as (pc & -> & Hp & _ & Hmiss).
  eexists. split; [done|]. cbn [original_total processed_total all_copied extra_in_processed].
  rewrite Ho, Hp. split; [done|]. split; [done|]. split; [apply bool_decide_eq_true|].
  intros Hex. rewrite <- Hp. rewrite (Hmiss Hex). split; [apply total_empty|].
  rewrite dom_empty_L. apply set_eq. intros k. rewrite elem_of_difference, !elem_of_empty. tauto.
Qed.

End count_more.

(** ** consolidate_png_files.py: the copies and the counters *)
Section consolidate_more_facts.
Import PyStr PyPath Fs consolidate_png_files Terms Examples.
Variable copy_raises : path → path → bool.

Lemma copies_snoc out ev :
  copies (out ++ [ev]) =
  (copies out + match ev with Copied _ _ => 1 | _ => 0 end)%nat.
Proof.
  unfold copies. rewrite List.filter_app, length_app. by destruct ev.
Qed.

Lemma category_index_split parts i :
  category_index parts = Some i →
  ∃ label, parts = firstn i parts ++ [label] ++ skipn (S i) parts ∧
           is_label label = true ∧ Forall (λ x, is_label x = false) (firstn i parts).
Proof.
  revert i. induction parts as [|p parts IH]; intros i H; [done|].
  cbn [category_index] in H. fold (is_label p) in H.
  destruct (is_label p) eqn:Hp.
  - injection H as <-. exists p. split; [done|]. split; [done|]. constructor.
  - destruct (category_index parts) as [i'|]; [|done]. injection H as <-.
    destruct (IH i' eq_refl) as (label & Hparts & Hl & Hb).
    exists label. cbn [firstn skipn]. split; [cbn [app]; f_equal; exact Hparts|].
    split; [done|]. by constructor.
Qed.

Lemma label_is_no_png name :
  is_label name = true → String.eqb (lower (suffix name)) ".png" = false.
Proof.
  unfold is_label, mem. cbn [existsb]. rewrite orb_false_r. intros H.
  apply orb_true_iff in H as [H|H]; [|apply orb_true_iff in H as [H|H]];
    apply String.eqb_eq in H as ->; reflexivity.
Qed.

Lemma copy_files_with_structure_tallied src category file_type st st' :
  category = "healthy" ∨ category = "tumour" →
  copy_files_with_structure copy_raises src source_dir (dest_dir ++ [category]) file_type st
    = Some st' →
  tallied st → tallied st'.
Proof.
  intros Hcat H [Hsum Hall]. unfold copy_files_with_structure in H.
  destruct (is_file (fs st) src) ; cbn [andb] in H; [|by injection H as <-].
  destruct (String.eqb (lower (suffix (List.last src ""))) ".png") eqn:Hpng;
    [|by injection H as <-].
  destruct (relative_to src source_dir) as [parts|] eqn:Hrel; [|done].
  apply relative_to_Some in Hrel.
  destruct (category_index parts) as [i|] eqn:Hi.
  2:{ injection H as <-. split; cbn [healthy_files_copied tumour_files_copied out].
      - rewrite copies_snoc. lia.
      - apply Forall_app. split; [done|]. by constructor. }
  destruct (category_index_split parts i Hi) as (label & Hparts & Hlabel & Hbefore).
  set (before := firstn i parts) in *. set (after := skipn (S i) parts) in *.
  assert (Hafter : ∃ between, after = between ++ [List.last src ""]).
  { destruct (decide (after = [])) as [Hnil|Hne].
    - exfalso. rewrite Hnil, app_nil_r in Hparts.
      rewrite Hrel, Hparts, app_assoc, last_last in Hpng.
      by rewrite label_is_no_png in Hpng.
    - destruct (exists_last Hne) as (between & name & Ha). exists between.
      rewrite Ha. do 2 f_equal. rewrite Hrel, Hparts, Ha, !app_assoc. by rewrite last_last. }
  destruct Hafter as [between Hafter].
  set (name := List.last src "") in *.
  match type of H with context [mkdir_p ?s _] => set (dest_folder := s) in * end.
  assert (Hdest : dest_folder = dest_dir ++ [category] ++ before ++ between).
  { unfold dest_folder. rewrite Hafter.
    destruct (between ++ [name]) eqn:Hb; [by destruct between|]. rewrite <- Hb.
    rewrite removelast_last. destruct before; rewrite <- ?app_assoc; cbn [app];
      by rewrite ?app_nil_r. }
  destruct (mkdir_p dest_folder (fs st)) as [fs1|]; [|done].
  assert (Hok : proper_copy (Copied src (dest_folder ++ [name]))).
  { exists before, label, between, name, category.
    split; [by rewrite Hrel, Hparts, Hafter|].
    split; [rewrite Hdest; by rewrite <- !app_assoc|done]. }
  destruct (copy2 copy_raises src (dest_folder ++ [name]) fs1) as [fs2|].
  - destruct (String.eqb file_type "healthy"); injection H as <-;
      (split; cbn [healthy_files_copied tumour_files_copied out];
       [rewrite copies_snoc; lia|apply Forall_app; split; [done|by constructor]]).
  - injection H as <-. split; cbn [healthy_files_copied tumour_files_copied out].
    + rewrite copies_snoc. lia.
    + apply Forall_app. split; [done|]. by constructor.
Qed.

Lemma copy_all_tallied root_path png_files category file_type st st' :
  category = "healthy" ∨ category = "tumour" →
  copy_all copy_raises root_path png_files (dest_dir ++ [category]) file_type st = Some st' →
  tallied st → tallied st'.
Proof.
  intros Hcat. revert st. induction png_files as [|g png_files IH]; intros st H Ht;
    simpl in H.
  - by injection H as <-.
  - destruct (copy_files_with_structure _ _ _ _ _ st) as [st1|] eqn:H1; [|done].
    apply (IH st1 H). by eapply copy_files_with_structure_tallied.
Qed.

Lemma consolidate_visit_tallied entry st st' :
  visit copy_raises entry st = Some st' → tallied st → tallied st'.
Proof.
  destruct entry as [[root_path dirs] files]. unfold visit.
  destruct (bool_decide (root_path = source_dir)); [by intros [= <-]|].
  destruct (png_files_of files) as [|g gs]; [by intros [= <-]|].
  destruct (mem "healthy" root_path); [apply copy_all_tallied; by left|].
  destruct (mem "tumour" root_path); [apply copy_all_tallied; by right|].
  destruct (mem "heathy" root_path); [apply copy_all_tallied; by left|].
  intros [= <-] [Hsum Hall]. split; cbn [healthy_files_copied tumour_files_copied out].
  - rewrite copies_snoc. lia.
  - apply Forall_app. split; [done|]. by constructor.
Qed.

Lemma consolidate_visit_all_tallied entries st st' :
  visit_all copy_raises entries st = Some st' → tallied st → tallied st'.
Proof.
  revert st. induction entries as [|e entries IH]; intros st H Ht; simpl in H.
  - by injection H as <-.
  - destruct (visit copy_raises e st) as [st1|] eqn:H1; [|done].
    apply (IH st1 H). by eapply consolidate_visit_tallied.
Qed.

End consolidate_more_facts.

Section consolidate_more.
Import PyStr PyPath Fs consolidate_png_files Terms Examples.

(** X17. When consolidate_png_files returns, its two counters together
    are the number of copies it printed, every copy goes from a path
    under PNG_Files to the same path under Processed/healthy or
    Processed/tumour with the first class label on the way left out, and
    every file under PNG_Files is still there with its content. *)
Theorem consolidate_png_files_copies_and_counts
    (copy_raises : path → path → bool) (t : node) (st : state) :
  consolidate_png_files copy_raises t = Some st →
  (healthy_files_copied st + tumour_files_copied st = copies (out st))%nat ∧
  Forall proper_copy (out st) ∧
  ∀ q d, lookup t ("PNG_Files" :: q) = Some (File d) →
         lookup (fs st) ("PNG_Files" :: q) = Some (File d).
Proof.
  intros H. unfold consolidate_png_files in H.
  destruct (mkdir_p healthy_dir t) as [t1|] eqn:H1; [|done].
  destruct (mkdir_p tumour_dir t1) as [t2|] eqn:H2; [|done].
  destruct (consolidate_visit_all_tallied copy_raises _ _ _ H) as [Hsum Hall].
  { split; [done|constructor]. }
  split; [done|]. split; [done|].
  intros q d Hq. apply (visit_all_after copy_raises _ _ _ H). cbn [fs].
  apply (mkdir_p_files _ _ _ _ _ H2). by apply (mkdir_p_files _ _ _ _ _ H1).
Qed.

Lemma consolidate_png_files_witness :
  consolidate_png_files never variant_tree = Some variant_state ∧
  (healthy_files_copied variant_state + tumour_files_copied variant_state
   = copies (out variant_state))%nat ∧
  copies (out variant_state) = 2%nat.
Proof.
  split; [reflexivity|]. split; [|reflexivity].
  exact (proj1 (consolidate_png_files_copies_and_counts never variant_tree variant_state
                  eq_refl)).
Defined.

End consolidate_more.

(** ** flatten_crc_structure.py: the moves and the files *)
Section fs_keep_facts.
Import PyPath Fs Terms.




End fs_keep_facts.

Section flatten_more_facts.
Import PyStr PyPath Fs flatten_crc_structure Terms Examples.







(** The search returns the first of the names that is free. *)
Lemma unique_target_first fuel t target_dir original cur counter target :
  unique_target fuel t target_dir original cur counter = Some target →
  (exists_ t cur = false ∧ target = cur) ∨
  (exists_ t cur = true ∧
   ∃ k, (counter ≤ k)%nat ∧ target = target_dir ++ [numbered original k] ∧
        ∀ j, (counter ≤ j < k)%nat →
             exists_ t (target_dir ++ [numbered original j]) = true).
Proof.
  revert cur counter. induction fuel as [|fuel IH]; intros cur counter; cbn [unique_target].
  - destruct (exists_ t cur) eqn:He; [done|]. intros [= <-]. by left.
  - destruct (exists_ t cur) eqn:He; [|intros [= <-]; by left].
    intros H. right. split; [done|].
    destruct (IH _ _ H) as [[Hfree ->]|(Hex & k & Hk & -> & Hall)].
    + exists counter. split; [done|]. split; [done|]. intros j Hj. lia.
    + exists k. split; [lia|]. split; [done|]. intros j Hj.
      destruct (decide (j = counter)) as [->|Hne]; [done|]. apply Hall. lia.
Qed.

Lemma moves_snoc out ev :
  moves (out ++ [ev]) = (moves out + match ev with Moved _ _ => 1 | _ => 0 end)%nat.
Proof. unfold moves. rewrite List.filter_app, length_app. by destruct ev. Qed.

(** A round of the inner loop adds to what was printed, counts its
    move, and prints a line for a PNG file. *)
Lemma move_one_out move_error root_path target_dir file st :
  let st' := move_one move_error root_path target_dir file st in
  (∃ more, out st' = out st ++ more) ∧
  (files_moved st = moves (out st) → files_moved st' = moves (out st')) ∧
  (endswith ".png" (lower file) = true →
   MoveError (root_path ++ [file]) ∈ out st' ∨
   ∃ name, Moved (root_path ++ [file]) (target_dir ++ [name]) ∈ out st').
Proof.
  cbv zeta. unfold move_one.
  destruct (endswith ".png" (lower file)) eqn:Hpng.
  2:{ split; [exists []; by rewrite app_nil_r|]. split; [done|done]. }
  destruct (unique_target_total (fs st) target_dir file) as (target & Ht & Hfree).
  rewrite Ht.
  destruct (unique_target_first _ _ _ _ _ _ _ Ht) as [[_ Hn]|(_ & k & _ & Hn & _)];
    (destruct (shutil_move move_error (root_path ++ [file]) target (fs st)) as [t'|];
     cbn [out files_moved];
     (split; [by eexists|]); (split; [rewrite moves_snoc; intros ->; lia|]); intros _;
     [right; eexists; rewrite <- Hn; apply elem_of_app; right; by left
     |left; apply elem_of_app; right; by left]).
Qed.

Lemma move_all_out move_error root_path target_dir files st :
  let st' := fold_left (λ st file, move_one move_error root_path target_dir file st)
                       files st in
  (∃ more, out st' = out st ++ more) ∧
  (files_moved st = moves (out st) → files_moved st' = moves (out st')) ∧
  (∀ file, file ∈ files → endswith ".png" (lower file) = true →
     MoveError (root_path ++ [file]) ∈ out st' ∨
     ∃ name, Moved (root_path ++ [file]) (target_dir ++ [name]) ∈ out st').
Proof.
  revert st. induction files as [|f files IH]; intros st; cbn [fold_left].
  { split; [exists []; by rewrite app_nil_r|]. split; [done|].
    intros file Hin. by apply elem_of_nil in Hin. }
  destruct (move_one_out move_error root_path target_dir f st) as ([m1 H1] & H2 & H3).
  destruct (IH (move_one move_error root_path target_dir f st)) as ([m2 I1] & I2 & I3).
  cbv zeta in *. split; [exists (m1 ++ m2); by rewrite I1, H1, <- app_assoc|].
  split; [auto|]. intros file Hin Hpng.
  apply elem_of_cons in Hin as [->|Hin]; [|by apply I3].
  rewrite I1. destruct (H3 Hpng) as [He|[name He]].
  - left. apply elem_of_app. by left.
  - right. exists name. apply elem_of_app. by left.
Qed.

Lemma flatten_visit_out move_error base_dir entry st st' :
  visit move_error base_dir entry st = inl st' →
  (∃ more, out st' = out st ++ more) ∧
  (files_moved st = moves (out st) → files_moved st' = moves (out st')).
Proof.
  destruct entry as [[root_path dirs] files]. unfold visit.
  assert (Hsame : (∃ more, out st = out st ++ more) ∧
                  (files_moved st = moves (out st) → files_moved st = moves (out st))).
  { split; [exists []; by rewrite app_nil_r|done]. }
  destruct (bool_decide (root_path = base_dir)); [by intros [= <-]|].
  destruct (relative_to root_path base_dir) as [parts|]; [|done].
  destruct parts as [|p0 [|p1 [|p2 rest]]]; try (by intros [= <-]).
  destruct (String.eqb p0 p1 && String.eqb p2 "images"); [|by intros [= <-]].
  destruct (mkdir_p (base_dir ++ [p0]) (fs st)) as [t1|]; [|done].
  intros [= <-].
  destruct (move_all_out move_error root_path (base_dir ++ [p0]) files
              (State t1 (files_moved st) (out st))) as (H1 & H2 & _).
  cbv zeta in *. done.
Qed.

Lemma flatten_visit_all_out move_error base_dir entries st st' :
  visit_all move_error base_dir entries st = inl st' →
  (∃ more, out st' = out st ++ more) ∧
  (files_moved st = moves (out st) → files_moved st' = moves (out st')).
Proof.
  revert st. induction entries as [|e entries IH]; intros st H; cbn [visit_all] in H.
  { injection H as <-. split; [exists []; by rewrite app_nil_r|done]. }
  destruct (visit move_error base_dir e st) as [st1|st1] eqn:H1; [|done].
  destruct (flatten_visit_out _ _ _ _ _ H1) as ([m1 Ha] & Hb).
  destruct (IH st1 H) as ([m2 Ia] & Ib).
  split; [exists (m1 ++ m2); by rewrite Ia, Ha, <- app_assoc|auto].
Qed.

Lemma flatten_visit_all_event move_error base_dir entries st st' crc rest dirs files f :
  visit_all move_error base_dir entries st = inl st' →
  (base_dir ++ [crc; crc; "images"] ++ rest, dirs, files) ∈ entries →
  f ∈ files → endswith ".png" (lower f) = true →
  MoveError (base_dir ++ [crc; crc; "images"] ++ rest ++ [f]) ∈ out st' ∨
  ∃ name, Moved (base_dir ++ [crc; crc; "images"] ++ rest ++ [f]) (base_dir ++ [crc; name])
            ∈ out st'.
Proof.
  revert st. induction entries as [|e entries IH]; intros st H Hin Hf Hpng.
  { by apply elem_of_nil in Hin. }
  cbn [visit_all] in H.
  destruct (visit move_error base_dir e st) as [st1|st1] eqn:H1; [|done].
  apply elem_of_cons in Hin as [<-|Hin]; [|by apply (IH st1)].
  destruct (flatten_visit_all_out _ _ _ _ _ H) as ([more Hmore] & _).
  unfold visit in H1.
  rewrite bool_decide_false in H1; cycle 1.
  { intros Heq. apply (f_equal length) in Heq. rewrite length_app in Heq. simpl in Heq. lia. }
  rewrite relative_to_app in H1. cbn [app] in H1.
  rewrite String.eqb_refl in H1. cbn [andb] in H1.
  destruct (mkdir_p (base_dir ++ [crc]) (fs st)) as [t1|]; [|done].
  injection H1 as <-.
  destruct (move_all_out move_error (base_dir ++ crc :: crc :: "images" :: rest)
              (base_dir ++ [crc]) files (State t1 (files_moved st) (out st)))
    as (_ & _ & Hev).
  cbv zeta in Hev. rewrite Hmore.
  destruct (Hev f Hf Hpng) as [He|[name He]].
  - left. apply elem_of_app. left. by rewrite <- !app_assoc in He.
  - right. exists name. apply elem_of_app. left. by rewrite <- !app_assoc in He.
Qed.

End flatten_more_facts.

Section flatten_more.
Import PyStr PyPath Fs flatten_crc_structure Terms Examples.

(** X18. The search for a target name in flatten_directory always ends:
    it gives the file's own name in the target directory when that is
    free, and otherwise stem_k.ext for the least k from 1 on whose name
    is free, every smaller number being taken. *)
Theorem flatten_target_is_the_first_free_name (t : node) (target_dir : path)
    (file : string) :
  ∃ target,
    unique_target (S (dir_size t target_dir)) t target_dir file (target_dir ++ [file]) 1
      = Some target ∧
    ((exists_ t (target_dir ++ [file]) = false ∧ target = target_dir ++ [file]) ∨
     (exists_ t (target_dir ++ [file]) = true ∧
      ∃ k, (1 ≤ k)%nat ∧
           target = target_dir ++ [stem file +:+ "_" +:+ pretty k +:+ suffix file] ∧
           exists_ t target = false ∧
           ∀ j, (1 ≤ j < k)%nat →
                exists_ t (target_dir ++ [stem file +:+ "_" +:+ pretty j +:+ suffix file])
                  = true)).
Proof.
  destruct (unique_target_total t target_dir file) as (target & Ht & Hfree).
  exists target. split; [done|].
  destruct (unique_target_first _ _ _ _ _ _ _ Ht) as [[H1 ->]|(H1 & k & Hk & -> & Hall)].
  - by left.
  - right. split; [done|]. exists k. by repeat split.
Qed.

(** X19. When flatten_directory runs to its end, every PNG file that the
    walk lists in a directory base/X/X/images or below it has a line
    printed: an error moving it, or its move to a name directly in
    base/X. The count of moved files that it returns is the number of
    moves printed. *)
Theorem flatten_directory_moves_or_reports_every_png
    (move_error : path → path → bool) (t : node) (base_dir : path) (st : state) :
  flatten_directory move_error t base_dir = inl st →
  files_moved st = moves (out st) ∧
  ∀ crc rest dirs files f,
    (base_dir ++ [crc; crc; "images"] ++ rest, dirs, files) ∈ walk t base_dir →
    f ∈ files → endswith ".png" (lower f) = true →
    MoveError (base_dir ++ [crc; crc; "images"] ++ rest ++ [f]) ∈ out st ∨
    ∃ name, Moved (base_dir ++ [crc; crc; "images"] ++ rest ++ [f])
                  (base_dir ++ [crc; name]) ∈ out st.
Proof.
  unfold flatten_directory. intros H. split.
  - by apply (flatten_visit_all_out _ _ _ _ _ H).
  - intros crc rest dirs files f. by apply (flatten_visit_all_event _ _ _ _ _ _ _ _ _ _ H).
Qed.

Lemma flatten_directory_moves_witness :
  ∃ st,
    flatten_directory never nested_tree ["Processed"; "healthy"] = inl st ∧
    files_moved st = 2%nat ∧ files_moved st = moves (out st).
Proof.
  eexists. split; [vm_compute; reflexivity|]. split; [reflexivity|].
  match goal with
  | |- files_moved ?s = _ =>
      exact (proj1 (flatten_directory_moves_or_reports_every_png
                      never nested_tree ["Processed"; "healthy"] s eq_refl))
  end.
Defined.



End flatten_more.

(** ** divide_images_generic.py: the run over the folders *)
Section divide_more_facts.
Import PyStr PyPath Fs divide_images_generic Terms Examples.

Lemma piece_is_piece img row col : is_piece (Picture (as_png (piece_of img row col))).
Proof.
  eexists. split; [done|]. unfold as_png, piece_of, piece_size, Img.crop.
  cbn [Img.format Img.width Img.height]. split; [done|]. split; lia.
Qed.

(** The pieces that a run of the two loops saves, finished or not. *)
Lemma save_pieces_files L img output_dir base_filename cells t k :
  let t' := match save_pieces L img output_dir base_filename cells t k with
            | inl (t', _) => t' | inr t' => t' end in
  (∀ q d, ¬ output_dir `prefix_of` q →
     lookup t' q = Some (File d) ↔ lookup t q = Some (File d)) ∧
  (∀ q d, lookup t' q = Some (File d) → lookup t q = Some (File d) ∨ is_piece d).
Proof.
  revert t k. induction cells as [|[r c] cells IH]; intros t k; cbn [save_pieces].
  { split; [done|]. intros q d H. by left. }
  destruct (save L _ _ t) as [t1|e] eqn:Hs.
  - destruct (save_spec_piece _ _ _ _ _ Hs) as [Hhere Hother].
    specialize (IH t1 (S k)). cbv zeta in *.
    destruct (save_pieces L img output_dir base_filename cells t1 (S k)) as [[t2 k2]|t2];
      destruct IH as [I1 I2]; (split; [
        intros q d Hq; rewrite (I1 q d Hq); apply Hother; intros ->; apply Hq;
          by eexists
      | intros q d Hl; destruct (I2 q d Hl) as [Hl1|Hp]; [|by right];
        destruct (decide (q = output_dir ++ [piece_filename base_filename r c])) as [->|Hne];
        [right; rewrite Hhere in Hl1; injection Hl1 as <-; apply piece_is_piece
        |left; by apply Hother] ]).
  - split; [done|]. intros q d H. by left.
Qed.

(** What a call of [divide_image] does to the files. *)
Lemma divide_image_files L image_path output_dir base_filename t :
  let t' := snd (divide_image L image_path output_dir base_filename t) in
  (∀ q d, ¬ output_dir `prefix_of` q →
     lookup t' q = Some (File d) ↔ lookup t q = Some (File d)) ∧
  (∀ q d, lookup t' q = Some (File d) → lookup t q = Some (File d) ∨ is_piece d).
Proof.
  cbv zeta. unfold divide_image.
  assert (Hsame : (∀ q d, ¬ output_dir `prefix_of` q →
                     lookup t q = Some (File d) ↔ lookup t q = Some (File d)) ∧
                  (∀ q d, lookup t q = Some (File d) → lookup t q = Some (File d) ∨ is_piece d)).
  { split; [done|]. intros q d H. by left. }
  destruct (read t image_path) as [[s|img0]|]; cbn [snd]; try done.
  destruct (mkdir_p output_dir t) as [t1|] eqn:Hm; cbn [snd]; [|done].
  pose proof (save_pieces_files L (prepare L img0) output_dir base_filename grid t1 0) as H.
  cbv zeta in H.
  destruct (save_pieces L (prepare L img0) output_dir base_filename grid t1 0)
    as [[t2 k]|t2]; cbn [snd]; destruct H as [H1 H2];
    (split; [intros q d Hq; rewrite (H1 q d Hq); by apply (mkdir_p_files _ _ _ _ _ Hm)
            |intros q d Hl; destruct (H2 q d Hl) as [Hl1|Hp]; [left|by right];
             by apply (mkdir_p_files _ _ _ _ _ Hm)]).
Qed.

Lemma prefix_of_app_trans (a b q : path) : (a ++ b) `prefix_of` q → a `prefix_of` q.
Proof. intros [k ->]. exists (b ++ k). by rewrite app_assoc. Qed.

(** The invariant of the loops of [process_folder_structure]. *)
Lemma divide_one_divided t target_dir L root rest png_file st :
  divided_into t target_dir st →
  divided_into t target_dir (divide_one L root (target_dir ++ rest) png_file st).
Proof.
  intros (Hc & Hout & Hin). unfold divide_one.
  pose proof (divide_image_zero_or_all L (root ++ [png_file]) (target_dir ++ rest)
                (splitext_root png_file) (fs st)) as [Hn _].
  pose proof (divide_image_files L (root ++ [png_file]) (target_dir ++ rest)
                (splitext_root png_file) (fs st)) as [H1 H2].
  cbv zeta in *.
  destruct (divide_image L (root ++ [png_file]) (target_dir ++ rest)
              (splitext_root png_file) (fs st)) as [n t'].
  cbn [fst snd] in *.
  assert (Hfiles : (∀ q d, ¬ target_dir `prefix_of` q →
                      lookup t' q = Some (File d) ↔ lookup t q = Some (File d)) ∧
                   (∀ q d, lookup t' (target_dir ++ q) = Some (File d) → is_piece d)).
  { split.
    - intros q d Hq. rewrite <- (Hout q d Hq). apply H1.
      intros Hp. apply Hq. by eapply prefix_of_app_trans.
    - intros q d Hl. destruct (H2 _ _ Hl) as [Hold|Hp]; [by eapply Hin|done]. }
  destruct Hfiles as [F1 F2].
  destruct Hn as [->| ->]; cbn [Nat.ltb Nat.leb]; split; cbn [total_images total_pieces fs];
    try done; lia.
Qed.

Lemma divide_files_divided t target_dir L root rest png_files st :
  divided_into t target_dir st →
  divided_into t target_dir
    (fold_left (λ st png_file, divide_one L root (target_dir ++ rest) png_file st)
               png_files st).
Proof.
  revert st. induction png_files as [|f png_files IH]; intros st H; [done|].
  cbn [fold_left]. by apply IH, divide_one_divided.
Qed.

Lemma divided_mkdir_p t target_dir p st t1 :
  divided_into t target_dir st → mkdir_p p (fs st) = Some t1 →
  divided_into t target_dir (State (total_images st) (total_pieces st) t1).
Proof.
  intros (Hc & Hout & Hin) Hm. split; [done|]. cbn [fs]. split.
  - intros q d Hq. rewrite <- (Hout q d Hq). by apply (mkdir_p_files _ _ _ _ _ Hm).
  - intros q d Hl. apply (Hin q d). by apply (mkdir_p_files _ _ _ _ _ Hm).
Qed.

Lemma process_visit_divided t target_dir L category_source category entry st st' :
  divided_into t target_dir st →
  divide_images_generic.visit L category_source (target_dir ++ [category]) entry st
    = Some st' →
  divided_into t target_dir st'.
Proof.
  intros Hd. destruct entry as [[root dirs] files]. unfold divide_images_generic.visit. cbv zeta.
  match goal with |- context [mkdir_p ?s _] => set (sub := s) end.
  assert (Hsub : ∃ rest, sub = target_dir ++ rest).
  { unfold sub. destruct (skipn (length category_source) root);
      eexists; rewrite <- ?app_assoc; reflexivity. }
  destruct Hsub as [rest Hsub]. rewrite Hsub. clear sub Hsub.
  destruct (mkdir_p (target_dir ++ rest) (fs st)) as [t1|] eqn:Hm; [|done].
  intros [= <-]. apply divide_files_divided. by eapply divided_mkdir_p.
Qed.

Lemma process_visit_all_divided t target_dir L category_source category entries st st' :
  divided_into t target_dir st →
  divide_images_generic.visit_all L category_source (target_dir ++ [category]) entries st
    = Some st' →
  divided_into t target_dir st'.
Proof.
  revert st. induction entries as [|e entries IH]; intros st Hd H; simpl in H.
  - by injection H as <-.
  - destruct (divide_images_generic.visit L _ _ e st) as [st1|] eqn:H1; [|done].
    apply (IH st1); [|done]. by eapply process_visit_divided.
Qed.

Lemma process_categories_divided t target_dir L source_dir categories st st' :
  divided_into t target_dir st →
  process_categories L source_dir target_dir categories st = Some st' →
  divided_into t target_dir st'.
Proof.
  revert st. induction categories as [|c categories IH]; intros st Hd H; simpl in H.
  - by injection H as <-.
  - destruct (process_category L source_dir target_dir c st) as [st1|] eqn:H1; [|done].
    apply (IH st1); [|done]. unfold process_category in H1.
    destruct (negb (exists_ (fs st) (source_dir ++ [c]))); [by injection H1 as <-|].
    destruct (mkdir_p (target_dir ++ [c]) (fs st)) as [t1|] eqn:Hm; [|done].
    eapply process_visit_all_divided; [|exact H1]. by eapply divided_mkdir_p.
Qed.

End divide_more_facts.

Section divide_more.
Import PyStr PyPath Fs divide_images_generic Terms Examples.

(** X21. When process_folder_structure returns, total_pieces is 16 times
    total_images and the files outside the target directory are as
    before. With a missing source, or source and target the same, it
    returns 0 and 0 and changes nothing; otherwise every file under the
    target directory afterwards is a 32 by 32 PNG piece, whatever the
    target held before. *)
Theorem process_folder_structure_fills_a_fresh_target (L : library)
    (source_dir target_dir : path) (t : node) (st : state) :
  process_folder_structure L source_dir target_dir t = Some st →
  total_pieces st = (16 * total_images st)%nat ∧
  (∀ q d, ¬ target_dir `prefix_of` q →
     lookup (fs st) q = Some (File d) ↔ lookup t q = Some (File d)) ∧
  (exists_ t source_dir = false ∨ source_dir = target_dir →
   st = State 0 0 t) ∧
  (exists_ t source_dir = true → source_dir ≠ target_dir →
   ∀ q d, lookup (fs st) (target_dir ++ q) = Some (File d) → is_piece d).
Proof.
  unfold process_folder_structure. intros H.
  destruct (exists_ t source_dir) eqn:Hex; cbn [negb] in H.
  2:{ injection H as <-. cbn [total_pieces total_images fs]. repeat split; try done. }
  destruct (bool_decide (source_dir = target_dir)) eqn:Heq.
  { injection H as <-. cbn [total_pieces total_images fs]. repeat split; try done.
    apply bool_decide_eq_true in Heq. by intros _ Hne. }
  apply bool_decide_eq_false in Heq.
  destruct (if exists_ t target_dir then rmtree target_dir t else Some t) as [t1|] eqn:H1;
    [|done].
  destruct (mkdir_p target_dir t1) as [t2|] eqn:H2; [|done].
  assert (Hinit : divided_into t target_dir (State 0 0 t2)).
  { split; [done|]. cbn [fs].
    assert (Hgone : lookup t1 target_dir = None ∧
                    ∀ q d, ¬ target_dir `prefix_of` q →
                      lookup t1 q = Some (File d) ↔ lookup t q = Some (File d)).
    { unfold exists_, rmtree in H1. destruct (lookup t target_dir) as [[c|es]|] eqn:Ht; try done.
      - split; [by apply lookup_update_eq in H1|].
        intros q d Hq. by apply (update_file_away target_dir None t t1).
      - injection H1 as <-. done. }
    destruct Hgone as [Hgone Hout]. split.
    - intros q d Hq. rewrite <- (Hout q d Hq). by apply (mkdir_p_files _ _ _ _ _ H2).
    - intros q d Hl. apply (mkdir_p_files _ _ _ _ _ H2) in Hl.
      rewrite fs_lookup_app, Hgone in Hl. done. }
  destruct (process_categories_divided _ _ _ _ _ _ _ Hinit H) as (Hc & Hout & Hin).
  split; [done|]. split; [done|]. split; [|done].
  intros [Hno|Hsame]; congruence.
Qed.

Lemma process_folder_structure_witness :
  ∃ st,
    process_folder_structure tiling_library ["Processed_1858_filtered"]
      ["Processed_1858_filtered_divided"] tiles_tree_with_old_target = Some st ∧
    total_images st = 1%nat ∧ total_pieces st = 16%nat ∧
    lookup (fs st) ["Processed_1858_filtered_divided"; "old.txt"] = None ∧
    total_pieces st = (16 * total_images st)%nat.
Proof.
  assert (Hrun : option_map
                   (λ st, (total_images st, total_pieces st,
                           lookup (fs st) ["Processed_1858_filtered_divided"; "old.txt"]))
                   (process_folder_structure tiling_library ["Processed_1858_filtered"]
                      ["Processed_1858_filtered_divided"] tiles_tree_with_old_target)
                 = Some (1%nat, 16%nat, None))
    by (vm_compute; reflexivity).
  destruct (process_folder_structure tiling_library ["Processed_1858_filtered"]
              ["Processed_1858_filtered_divided"] tiles_tree_with_old_target)
    as [st|] eqn:H; [|discriminate Hrun].
  cbn [option_map] in Hrun. injection Hrun as H1 H2 H3.
  exists st. split; [reflexivity|]. split; [exact H1|]. split; [exact H2|].
  split; [exact H3|].
  exact (proj1 (process_folder_structure_fills_a_fresh_target
                  tiling_library ["Processed_1858_filtered"]
                  ["Processed_1858_filtered_divided"] tiles_tree_with_old_target st H)).
Defined.

End divide_more.

(** ** flatten_crc_structure.py: the cleanup of empty directories *)
Section replace_facts.
Import PyPath Fs Terms.

Lemma put_entry_id nm c es : assoc nm es = Some c → put_entry nm c es = es.
Proof.
  induction es as [|[k v] es IH]; [done|]. cbn [assoc put_entry].
  destruct (String.eqb_spec nm k) as [->|Hne]; [by intros [= ->]|].
  intros H. by rewrite IH.
Qed.

Lemma put_entry_twice nm a b es : put_entry nm a (put_entry nm b es) = put_entry nm a es.
Proof.
  induction es as [|[k v] es IH]; cbn [put_entry].
  - by rewrite String.eqb_refl.
  - destruct (String.eqb nm k) eqn:E; cbn [put_entry]; rewrite E; [done|]. by rewrite IH.
Qed.

Lemma drop_put_entry nm a es : drop_entry nm (put_entry nm a es) = drop_entry nm es.
Proof.
  unfold drop_entry. induction es as [|[k v] es IH]; cbn [put_entry List.filter fst].
  - by rewrite String.eqb_refl.
  - destruct (String.eqb nm k) eqn:E; cbn [List.filter fst]; rewrite E; cbn [negb];
      [done|]. by rewrite IH.
Qed.

Lemma update_cons_ne nm q new es :
  q ≠ [] →
  update (nm :: q) new (Dir es) =
  match assoc nm es with
  | Some c =>
      match update q new c with
      | Some c' => Some (Dir (put_entry nm c' es))
      | None => None
      end
  | None => None
  end.
Proof. destruct q; [done|]. intros _. apply update_cons2. Qed.

(** An update of an entry of the directory at [root] is a replacement
    of that directory. *)
Lemma update_snoc root k new t es :
  lookup t root = Some (Dir es) →
  update (root ++ [k]) new t = Some (replace_at root (Dir (set_entry k new es)) t).
Proof.
  revert t. induction root as [|nm root IH]; intros t H.
  - simpl in H. injection H as ->. reflexivity.
  - destruct t as [c|es0]; [done|]. cbn [lookup] in H.
    destruct (assoc nm es0) as [c|] eqn:Ha; [|done].
    cbn [app]. rewrite update_cons_ne by (by destruct root).
    rewrite Ha, (IH c H). cbn [replace_at]. by rewrite Ha.
Qed.

Lemma lookup_replace_at root x t n :
  lookup t root = Some n → lookup (replace_at root x t) root = Some x.
Proof.
  revert t. induction root as [|nm root IH]; intros t H; [done|].
  destruct t as [c|es]; [done|]. cbn [lookup] in H.
  destruct (assoc nm es) as [c|] eqn:Ha; [|done].
  cbn [replace_at lookup]. rewrite Ha. cbn [lookup]. rewrite assoc_put_eq. by apply IH.
Qed.

Lemma lookup_replace_at_below root x t n q :
  lookup t root = Some n → lookup (replace_at root x t) (root ++ q) = lookup x q.
Proof.
  intros H. by rewrite fs_lookup_app, (lookup_replace_at root x t n H).
Qed.

Lemma replace_at_twice root x y t n :
  lookup t root = Some n → replace_at root y (replace_at root x t) = replace_at root y t.
Proof.
  revert t. induction root as [|nm root IH]; intros t H; [done|].
  destruct t as [c|es]; [done|]. cbn [lookup] in H.
  destruct (assoc nm es) as [c|] eqn:Ha; [|done].
  cbn [replace_at]. rewrite Ha. cbn [replace_at]. rewrite assoc_put_eq.
  by rewrite put_entry_twice, (IH c H).
Qed.

Lemma replace_at_id root t n : lookup t root = Some n → replace_at root n t = t.
Proof.
  revert t. induction root as [|nm root IH]; intros t H.
  - simpl in H. by injection H as ->.
  - destruct t as [c|es]; [done|]. cbn [lookup] in H.
    destruct (assoc nm es) as [c|] eqn:Ha; [|done].
    cbn [replace_at]. rewrite Ha, (IH c H). by rewrite put_entry_id.
Qed.

Lemma replace_at_snoc root k x t es c :
  lookup t root = Some (Dir es) → assoc k es = Some c →
  replace_at (root ++ [k]) x t = replace_at root (Dir (put_entry k x es)) t.
Proof.
  revert t. induction root as [|nm root IH]; intros t H Hk.
  - simpl in H. injection H as ->. cbn [app replace_at]. by rewrite Hk.
  - destruct t as [c0|es0]; [done|]. cbn [lookup] in H.
    destruct (assoc nm es0) as [c0|] eqn:Ha; [|done].
    cbn [app replace_at]. rewrite Ha. by rewrite (IH c0 H Hk).
Qed.

Lemma assoc_app_fresh nm (l1 l2 : list (string * node)) :
  nm ∉ map fst l1 → assoc nm (l1 ++ l2) = assoc nm l2.
Proof.
  induction l1 as [|[k v] l1 IH]; [done|]. cbn [map fst app assoc]. intros H.
  apply not_elem_of_cons in H as [Hk H]. by rewrite (eqb_false_ne nm k Hk), IH.
Qed.

Lemma set_entry_middle nm new v (l1 l2 : list (string * node)) :
  nm ∉ map fst l1 → nm ∉ map fst l2 →
  set_entry nm new (l1 ++ (nm, v) :: l2) =
  l1 ++ match new with Some x => [(nm, x)] | None => [] end ++ l2.
Proof.
  intros H1 H2. destruct new as [x|]; cbn [set_entry].
  - induction l1 as [|[k w] l1 IH]; cbn [app put_entry].
    + by rewrite String.eqb_refl.
    + cbn [map fst] in H1. apply not_elem_of_cons in H1 as [Hk H1].
      by rewrite (eqb_false_ne nm k Hk), IH.
  - unfold drop_entry. rewrite List.filter_app. cbn [List.filter fst].
    rewrite String.eqb_refl. cbn [negb app].
    fold (drop_entry nm l1). fold (drop_entry nm l2).
    by rewrite !drop_entry_fresh.
Qed.

End replace_facts.

Section cleanup_facts.
Import PyStr PyPath Fs flatten_crc_structure Terms Examples.

Lemma prune_entry_keep (k : string) (v : node) :
  match prune v with Dir [] => [] | n => [(k, n)] end =
  match keep (prune v) with Some x => [(k, x)] | None => [] end.
Proof. by destruct (prune v) as [c|[|e es]]. Qed.

Lemma cleanup_children base_dir r todo :
  Forall (λ e, cleaned base_dir (snd e)) todo →
  (length base_dir ≤ length r)%nat →
  ∀ pd t,
    lookup t r = Some (Dir (pd ++ todo)) → NoDup (map fst (pd ++ todo)) →
    fold_left (λ t entry, cleanup_one rmdir_freely base_dir entry t)
              (flat_map (λ e, walk_node_up (r ++ [fst e]) (snd e)) todo) t
    = replace_at r (Dir (pd ++ prune_entries todo)) t.
Proof.
  intros Hall Hlen. induction Hall as [|[k v] todo Hv Hall IH]; intros pd t Hl Hnd;
    cbn [snd] in *.
  - cbn [flat_map fold_left]. rewrite app_nil_r in *. symmetry. by eapply replace_at_id.
  - cbn [flat_map fst snd]. rewrite fold_left_app.
    rewrite List.map_app in Hnd. cbn [map fst] in Hnd.
    apply NoDup_app in Hnd as (Hnd1 & Hdis & Hnd2).
    apply NoDup_cons in Hnd2 as [Hk2 Hnd2].
    assert (Hk1 : k ∉ map fst pd).
    { intros Hin. apply (Hdis k Hin). by left. }
    rewrite (Hv t r k (pd ++ (k, v) :: todo) Hl); [|by rewrite assoc_app_fresh; cbn [assoc];
      rewrite ?String.eqb_refl|done].
    rewrite (set_entry_middle k _ v pd todo Hk1 Hk2).
    rewrite app_assoc.
    rewrite (IH (pd ++ match keep (prune v) with Some x => [(k, x)] | None => [] end)).
    + rewrite (replace_at_twice r _ _ t (Dir (pd ++ (k, v) :: todo)) Hl).
      by rewrite prune_entry_keep, <- app_assoc.
    + by rewrite (lookup_replace_at r _ t _ Hl).
    + rewrite List.map_app. apply NoDup_app. split; [|split; [|done]].
      * rewrite List.map_app. apply NoDup_app. split; [done|]. split.
        -- intros x Hx Hx'. destruct (keep (prune v)); [|by apply elem_of_nil in Hx'].
           apply list_elem_of_singleton in Hx'. by subst x.
        -- destruct (keep (prune v)); [apply NoDup_singleton|constructor].
      * intros x Hx Hx'. rewrite List.map_app in Hx. apply elem_of_app in Hx as [Hx|Hx].
        -- apply (Hdis x Hx). by right.
        -- destruct (keep (prune v)); [|by apply elem_of_nil in Hx].
           apply list_elem_of_singleton in Hx. by subst x.
Qed.

Lemma cleanup_node base_dir v : wf v → cleaned base_dir v.
Proof.
  induction v as [c|es' IH] using node_tree_ind; intros Hwf t parent k es Hl Hk Hlen.
  - cbn [walk_node_up fold_left prune keep set_entry]. rewrite put_entry_id by done.
    symmetry. by eapply replace_at_id.
  - apply wf_Dir in Hwf as [Hnd Hall].
    assert (Hcl : Forall (λ e, cleaned base_dir (snd e)) es').
    { rewrite Forall_forall in IH, Hall. apply Forall_forall.
      intros e He. apply IH; [done|]. by apply Hall. }
    assert (Hr : lookup t (parent ++ [k]) = Some (Dir es')).
    { rewrite fs_lookup_app, Hl. cbn [lookup]. by rewrite Hk. }
    cbn [walk_node_up]. rewrite fold_left_app.
    rewrite (cleanup_children base_dir (parent ++ [k]) es' Hcl) with (pd := []);
      [|rewrite length_app; simpl; lia|done|done].
    cbn [app fold_left cleanup_one prune].
    rewrite bool_decide_false; cycle 1.
    { intros Heq. rewrite <- Heq, length_app in Hlen. simpl in Hlen. lia. }
    rewrite (lookup_replace_at _ _ t _ Hr).
    rewrite (replace_at_snoc parent k _ t es (Dir es') Hl Hk).
    destruct (prune_entries es') as [|e pe] eqn:Hpe; cbn [keep set_entry]; [|done].
    unfold rmdir_freely at 1. unfold rmdir.
    rewrite <- (replace_at_snoc parent k _ t es (Dir es') Hl Hk).
    rewrite (lookup_replace_at _ _ t _ Hr).
    rewrite (replace_at_snoc parent k _ t es (Dir es') Hl Hk).
    rewrite (update_snoc parent k None _ (put_entry k (Dir []) es)); cycle 1.
    { by rewrite (lookup_replace_at parent _ t _ Hl). }
    rewrite (replace_at_twice parent _ _ t _ Hl). cbn [set_entry].
    by rewrite drop_put_entry.
Qed.

(** What [cleanup_empty_dirs] leaves, when no [rmdir] is refused. *)
Lemma cleanup_empty_dirs_prunes t base_dir n :
  wf t → lookup t base_dir = Some n →
  cleanup_empty_dirs rmdir_freely t base_dir = replace_at base_dir (prune n) t.
Proof.
  intros Hwf Hl. unfold cleanup_empty_dirs, walk_up. rewrite Hl.
  destruct n as [c|es].
  - cbn [walk_node_up fold_left prune]. symmetry. by apply replace_at_id.
  - pose proof (wf_lookup t base_dir (Dir es) Hwf Hl) as Hwfn.
    apply wf_Dir in Hwfn as [Hnd Hall].
    assert (Hcl : Forall (λ e, cleaned base_dir (snd e)) es).
    { rewrite Forall_forall in Hall. apply Forall_forall.
      intros e He. apply cleanup_node. by apply Hall. }
    cbn [walk_node_up]. rewrite fold_left_app.
    rewrite (cleanup_children base_dir base_dir es Hcl) with (pd := []); [|done|done|done].
    cbn [app fold_left cleanup_one prune]. by rewrite bool_decide_true.
Qed.

(** Below every node that [prune] leaves lies a file. *)
Lemma prune_nonempty v : prune v = Dir [] ∨ all_files (prune v) ≠ [].
Proof.
  induction v as [c|es IH] using node_tree_ind; [by right|].
  cbn [prune]. induction es as [|[k v] es IHes]; [by left|].
  apply Forall_cons in IH as [Hv IH]. cbn [flat_map fst snd] in *.
  destruct (prune v) as [c|[|e pv]] eqn:Hp.
  - right. done.
  - cbn [app]. by apply IHes.
  - right. cbn [app all_files flat_map snd]. destruct Hv as [Hv|Hv]; [done|].
    intros Hnil. apply app_eq_nil in Hnil as [Hnil _]. by apply Hv.
Qed.

Lemma assoc_prune_entries k es c :
  assoc k (prune_entries es) = Some c → ∃ v, c = prune v ∧ prune v ≠ Dir [].
Proof.
  induction es as [|[k' v] es IH]; [done|]. cbn [flat_map fst snd].
  destruct (prune v) as [c'|[|e pv]] eqn:Hp; cbn [app assoc].
  - destruct (String.eqb k k'); [|exact IH]. intros [= <-]. exists v. by rewrite Hp.
  - exact IH.
  - destruct (String.eqb k k'); [|exact IH]. intros [= <-]. exists v. by rewrite Hp.
Qed.

Lemma lookup_prune_holds_a_file q :
  ∀ n m, q ≠ [] → lookup (prune n) q = Some m → all_files m ≠ [].
Proof.
  induction q as [|k q IH]; intros n m Hq Hl; [done|].
  destruct n as [c|es]; [done|]. cbn [prune lookup] in Hl.
  destruct (assoc k (prune_entries es)) as [c|] eqn:Ha; [|done].
  apply assoc_prune_entries in Ha as (v & -> & Hv).
  destruct q as [|k' q].
  - simpl in Hl. injection Hl as <-. by destruct (prune_nonempty v).
  - by apply (IH v m).
Qed.

End cleanup_facts.

Section cleanup_more.
Import PyStr PyPath Fs flatten_crc_structure Terms Examples.

(** X22. When no removal is refused, cleanup_empty_dirs over a tree
    without duplicate names leaves no empty directory below the base
    directory: everything left strictly below it holds a file, also a
    directory that held only empty directories before. No file is
    touched, and the base directory itself stays even when it ends up
    empty. *)
Theorem cleanup_empty_dirs_leaves_no_empty_directory (t : node) (base_dir : path) :
  wf t →
  let t' := cleanup_empty_dirs rmdir_freely t base_dir in
  (∀ q n, q ≠ [] → lookup t' (base_dir ++ q) = Some n → all_files n ≠ []) ∧
  (∀ q es, q ≠ [] → lookup t' (base_dir ++ q) = Some (Dir es) → es ≠ []) ∧
  (∀ q d, lookup t' q = Some (File d) ↔ lookup t q = Some (File d)) ∧
  is_dir t' base_dir = is_dir t base_dir.
Proof.
  intros Hwf. cbv zeta.
  assert (Hfiles : ∀ q d, lookup (cleanup_empty_dirs rmdir_freely t base_dir) q
                            = Some (File d) ↔ lookup t q = Some (File d)).
  { intros q d. apply cleanup_empty_dirs_files. }
  destruct (lookup t base_dir) as [n|] eqn:Hl.
  - rewrite (cleanup_empty_dirs_prunes t base_dir n Hwf Hl) in *.
    assert (Hhold : ∀ q m, q ≠ [] →
              lookup (replace_at base_dir (prune n) t) (base_dir ++ q) = Some m →
              all_files m ≠ []).
    { intros q m Hq Hm. rewrite (lookup_replace_at_below _ _ _ _ _ Hl) in Hm.
      by apply (lookup_prune_holds_a_file q n m). }
    split; [exact Hhold|]. split; [|split; [exact Hfiles|]].
    + intros q es Hq Hm Hnil. subst es. by apply (Hhold q (Dir []) Hq Hm).
    + unfold is_dir. rewrite (lookup_replace_at _ _ _ _ Hl), Hl. by destruct n.
  - assert (Hsame : cleanup_empty_dirs rmdir_freely t base_dir = t).
    { unfold cleanup_empty_dirs, walk_up. by rewrite Hl. }
    rewrite Hsame. split; [|split; [|done]].
    + intros q m Hq Hm. rewrite fs_lookup_app, Hl in Hm. done.
    + intros q es Hq Hm. rewrite fs_lookup_app, Hl in Hm. done.
Qed.

Lemma cleanup_empty_dirs_witness :
  wf nested_tree ∧
  lookup (cleanup_empty_dirs rmdir_freely
            (final_fs (flatten_directory never nested_tree ["Processed"; "healthy"]))
            ["Processed"; "healthy"])
         ["Processed"; "healthy"; "240911_CRC"; "240911_CRC"] = None ∧
  ∀ q es, q ≠ [] →
    lookup (cleanup_empty_dirs rmdir_freely nested_tree ["Processed"; "healthy"])
           (["Processed"; "healthy"] ++ q) = Some (Dir es) → es ≠ [].
Proof.
  split; [reflexivity|]. split; [reflexivity|].
  exact (proj1 (proj2 (cleanup_empty_dirs_leaves_no_empty_directory
                         nested_tree ["Processed"; "healthy"] eq_refl))).
Defined.

End cleanup_more.
